(** * Enviro+ monitor: a shallow embedding of [examples/monitor.py]

    The script samples the Enviro+ sensors, keeps a short history per
    variable, draws either a one-variable graph page or the all-variables
    grid on the ST7735 display, dims the backlight in the dark and cycles
    pages on a proximity gesture.

    Conventions of the embedding:
    - Python numbers (ints and floats) are exact rationals [Q]; comparisons
      are the mathematical ones, rounding of floats is not modelled.
    - The module-level globals of the script are the fields of [State].
    - A Python function is a computation [M A]: it takes the state, returns
      either a value or a raised exception, and the state it left behind
      (mutations made before an exception stay).
    - Sensor drivers, the clock, PIL and colorsys are collaborators: sensor
      and clock results come in through [Readings], the pure library
      functions through the class [Collaborators].
    - Everything observable (sensor reads, log lines, frames pushed to the
      display, backlight commands) is appended to [trace]. *)

From Stdlib Require Import ZArith QArith Qround Lqa Lia Ascii.
From stdpp Require Import base gmap strings list pretty.

Local Open Scope Z_scope.

(** ** Exceptions and observable events *)

Inductive exn : Type :=
| KeyError (key : string)
| UnboundLocalError (name : string)
| IndexError
| ValueError
| TypeError
| ZeroDivisionError
| SerialTimeoutError
| ReadTimeoutError
| OtherError (what : string).

Inductive result (A : Type) : Type :=
| Ok (a : A)
| Raise (e : exn).
Arguments Ok {A} a.
Arguments Raise {A} e.

Inductive sensor : Type :=
| CpuTemp | Temperature | Pressure | Humidity | Lux | Proximity | Gas | Particulates.

Definition rgb : Type := (Z * Z * Z)%type.

(** A frame handed to [st7735.display]: rows of pixels, top row first. *)
Definition frame : Type := list (list rgb).

Inductive event : Type :=
| Read (s : sensor)
| LogInfo (msg : string)
| LogWarning (msg : string)
| Frame (f : frame)
| SetBacklight (level : Q).

Inductive fontsel : Type := font | smallfont.

(** The canvas [img]: a colour per pixel coordinate. *)
Definition image : Type := Z -> Z -> rgb.

(** ** Collaborators outside the script *)

Class Collaborators : Type := {
  (** [st7735.width] and [st7735.height] *)
  WIDTH : Z;
  HEIGHT : Z;
  (** [colorsys.hsv_to_rgb] *)
  hsv_to_rgb : Q -> Q -> Q -> Q * Q * Q;
  (** the format [{x:.1f}] *)
  format_1f : Q -> string;
  (** PIL's conversion of a fractional coordinate to a pixel row *)
  coord : Q -> Z;
  (** [draw.text]: the new colour of pixel (x, y), from the font, the text,
      its origin, the fill colour and the colour under it *)
  text_pixel : fontsel -> string -> Q * Q -> rgb -> Z -> Z -> rgb -> rgb
}.

(** What the sensors and the clock answer during one loop iteration. *)
Record Readings : Type := mkReadings {
  rd_proximity : Q;            (* ltr559.get_proximity() in main_loop *)
  rd_lux : Q;                  (* ltr559.get_lux() in main_loop *)
  rd_now : Q;                  (* now = time.time() *)
  rd_check : Q;                (* time.time() in the page condition *)
  rd_set : Q;                  (* time.time() stored in last_page *)
  rd_cpu_temp : Q;             (* get_cpu_temperature() *)
  rd_raw_temp : Q;             (* bme280.get_temperature() *)
  rd_pressure : Q;             (* bme280.get_pressure() *)
  rd_humidity : Q;             (* bme280.get_humidity() *)
  rd_lux_page : Q;             (* ltr559.get_lux() inside a handler *)
  rd_gas : Q * Q * Q;          (* gas.read_all(): oxidising, reducing, nh3 *)
  rd_pms : result (Q * Q * Q)  (* pms5003.read(): pm1.0, pm2.5, pm10, or raises *)
}.

(** ** Globals of the script *)

Record State : Type := mkState {
  values : gmap string (list Q);
  cpu_temps : list Q;
  mode : Z;
  last_page : Q;
  proximity : Q;
  lux : Q;
  screen_on : bool;
  dimmed : bool;
  light_off_time : option Q;
  light_on_time : option Q;
  img : image;
  trace : list event
}.

Definition set_values (v : gmap string (list Q)) (s : State) : State :=
  mkState v (cpu_temps s) (mode s) (last_page s) (proximity s) (lux s)
    (screen_on s) (dimmed s) (light_off_time s) (light_on_time s) (img s) (trace s).
Definition set_cpu_temps (c : list Q) (s : State) : State :=
  mkState (values s) c (mode s) (last_page s) (proximity s) (lux s)
    (screen_on s) (dimmed s) (light_off_time s) (light_on_time s) (img s) (trace s).
Definition set_mode (m : Z) (s : State) : State :=
  mkState (values s) (cpu_temps s) m (last_page s) (proximity s) (lux s)
    (screen_on s) (dimmed s) (light_off_time s) (light_on_time s) (img s) (trace s).
Definition set_last_page (t : Q) (s : State) : State :=
  mkState (values s) (cpu_temps s) (mode s) t (proximity s) (lux s)
    (screen_on s) (dimmed s) (light_off_time s) (light_on_time s) (img s) (trace s).
Definition set_proximity (p : Q) (s : State) : State :=
  mkState (values s) (cpu_temps s) (mode s) (last_page s) p (lux s)
    (screen_on s) (dimmed s) (light_off_time s) (light_on_time s) (img s) (trace s).
Definition set_lux (l : Q) (s : State) : State :=
  mkState (values s) (cpu_temps s) (mode s) (last_page s) (proximity s) l
    (screen_on s) (dimmed s) (light_off_time s) (light_on_time s) (img s) (trace s).
Definition set_screen_on (b : bool) (s : State) : State :=
  mkState (values s) (cpu_temps s) (mode s) (last_page s) (proximity s) (lux s)
    b (dimmed s) (light_off_time s) (light_on_time s) (img s) (trace s).
Definition set_dimmed (b : bool) (s : State) : State :=
  mkState (values s) (cpu_temps s) (mode s) (last_page s) (proximity s) (lux s)
    (screen_on s) b (light_off_time s) (light_on_time s) (img s) (trace s).
Definition set_light_off_time (t : option Q) (s : State) : State :=
  mkState (values s) (cpu_temps s) (mode s) (last_page s) (proximity s) (lux s)
    (screen_on s) (dimmed s) t (light_on_time s) (img s) (trace s).
Definition set_light_on_time (t : option Q) (s : State) : State :=
  mkState (values s) (cpu_temps s) (mode s) (last_page s) (proximity s) (lux s)
    (screen_on s) (dimmed s) (light_off_time s) t (img s) (trace s).
Definition set_img (i : image) (s : State) : State :=
  mkState (values s) (cpu_temps s) (mode s) (last_page s) (proximity s) (lux s)
    (screen_on s) (dimmed s) (light_off_time s) (light_on_time s) i (trace s).
Definition set_trace (t : list event) (s : State) : State :=
  mkState (values s) (cpu_temps s) (mode s) (last_page s) (proximity s) (lux s)
    (screen_on s) (dimmed s) (light_off_time s) (light_on_time s) (img s) t.

(** ** The monad of Python statements *)

(** The type of [None], what a Python procedure returns. *)
Definition NoneType : Type := unit.

Definition M (A : Type) : Type := State -> result A * State.

Definition ret {A} (a : A) : M A := fun s => (Ok a, s).

Definition raise {A} (e : exn) : M A := fun s => (Raise e, s).

Definition bind {A B} (m : M A) (k : A -> M B) : M B :=
  fun s =>
    match m s with
    | (Ok a, s') => k a s'
    | (Raise e, s') => (Raise e, s')
    end.

Declare Scope py_scope.
Delimit Scope py_scope with py.
Notation "x <~ c ;; k" := (bind c (fun x => k))
  (at level 63, c at next level, right associativity) : py_scope.
Notation "c ;;; k" := (bind c (fun _ => k))
  (at level 63, right associativity) : py_scope.
Local Open Scope py_scope.

(** A pure expression that may raise, used as a statement. *)
Definition lift {A} (r : result A) : M A := fun s => (r, s).

(** [try: body / except (caught): handler / else: orelse]. *)
Definition try_except_else {A B} (body : M A) (caught : exn -> bool)
    (handler : M B) (orelse : A -> M B) : M B :=
  fun s =>
    match body s with
    | (Ok a, s') => orelse a s'
    | (Raise e, s') => if caught e then handler s' else (Raise e, s')
    end.

Definition emit (e : event) : M NoneType :=
  fun s => (Ok tt, set_trace (trace s ++ [e]) s).

(** Reading a function-local name: unbound until the function assigns it. *)
Definition load_fast {A} (name : string) (slot : option A) : M A :=
  match slot with
  | Some v => ret v
  | None => raise (UnboundLocalError name)
  end.

(** ** Python built-ins on numbers and lists *)

Definition gt (a b : Q) : bool := if Qlt_le_dec b a then true else false.
Definition le (a b : Q) : bool := if Qlt_le_dec b a then false else true.
Definition lt (a b : Q) : bool := gt b a.

(** [l[i]] on a list. *)
Definition index {A} (l : list A) (i : nat) : result A :=
  match l !! i with
  | Some x => Ok x
  | None => Raise IndexError
  end.

(** [l[-1]]. *)
Definition index_last {A} (l : list A) : result A :=
  match last l with
  | Some x => Ok x
  | None => Raise IndexError
  end.

(** [a / b]. *)
Definition py_div (a b : Q) : result Q :=
  if Qeq_bool b 0 then Raise ZeroDivisionError else Ok (a / b)%Q.

(** [min(l)] and [max(l)]: the first smallest, the first largest. *)
Definition py_min (l : list Q) : result Q :=
  match l with
  | [] => Raise ValueError
  | x :: xs => Ok (foldl (fun m v => if lt v m then v else m) x xs)
  end.

Definition py_max (l : list Q) : result Q :=
  match l with
  | [] => Raise ValueError
  | x :: xs => Ok (foldl (fun m v => if gt v m then v else m) x xs)
  end.

(** [sum(l)]. *)
Definition py_sum (l : list Q) : Q := foldl Qplus 0%Q l.

(** [int(x)]: truncation towards zero. *)
Definition py_int (x : Q) : Z := Z.quot (Qnum x) (Zpos (Qden x)).

(** [[f(v) for v in l]] where [f] may raise. *)
Fixpoint comprehension {A B} (f : A -> result B) (l : list A) : result (list B) :=
  match l with
  | [] => Ok []
  | v :: l' =>
      match f v with
      | Raise e => Raise e
      | Ok b =>
          match comprehension f l' with
          | Raise e => Raise e
          | Ok bs => Ok (b :: bs)
          end
      end
  end.

(** ** setup_variables, setup_state *)

Definition variables : list string :=
  ["temperature"; "pressure"; "humidity"; "light";
   "oxidised"; "reduced"; "nh3"; "pm1"; "pm25"; "pm10"]%string.

Definition units : list string :=
  ["C"; "hPa"; "%"; "Lux"; "kO"; "kO"; "kO"; "ug/m3"; "ug/m3"; "ug/m3"]%string.

Definition limits : list (list Q) :=
  [ [4; 18; 28; 35];
    [250; 650; 1013.25; 1015];
    [20; 30; 60; 70];
    [-1; -1; 30000; 100000];
    [-1; -1; 40; 50];
    [-1; -1; 450; 550];
    [-1; -1; 200; 300];
    [-1; -1; 50; 100];
    [-1; -1; 50; 100];
    [-1; -1; 50; 100] ]%Q.

Definition palette : list rgb :=
  [ (0, 0, 255);    (* Dangerously Low *)
    (0, 255, 255);  (* Low *)
    (0, 255, 0);    (* Normal *)
    (255, 255, 0);  (* High *)
    (255, 0, 0) ].  (* Dangerously High *)

Definition delay : Q := 0.5.
Definition factor : Q := 2.25.

Definition x_offset : Z := 2.
Definition y_offset : Z := 2.
Definition top_pos : Z := 25.

Definition dim_delay : Q := 2.
Definition off_delay : Q := 4.
Definition on_delay : Q := 3.

Definition get {A} (f : State -> A) : M A := fun s => (Ok (f s), s).
Definition modify (g : State -> State) : M NoneType := fun s => (Ok tt, g s).

(** [for i in range(...)]: the body runs for each index in turn and the
    first exception ends the loop. *)
Fixpoint for_each {A} (body : A -> M NoneType) (l : list A) : M NoneType :=
  match l with
  | [] => ret tt
  | i :: l' => body i ;;; for_each body l'
  end.

(** [a // b] and [a % b] on floats. *)
Definition py_floordiv (a b : Q) : Q := inject_Z (Qfloor (a / b)).
Definition py_mod (a b : Q) : Q := (a - b * py_floordiv a b)%Q.

(** ** ThresholdClassifier: lines 174-177 of [display_everything]

<<
    rgb = palette[0]
    for j in range(len(lim)):
        if data_value > lim[j]:
            rgb = palette[j + 1]
>> *)
Fixpoint classify_loop (js : list nat) (data_value : Q) (lim : list Q) (rgb0 : rgb)
    : result rgb :=
  match js with
  | [] => Ok rgb0
  | j :: js' =>
      match index lim j with
      | Raise e => Raise e
      | Ok t =>
          if gt data_value t then
            match index palette (j + 1) with
            | Raise e => Raise e
            | Ok c => classify_loop js' data_value lim c
            end
          else classify_loop js' data_value lim rgb0
      end
  end.

Definition classify (data_value : Q) (lim : list Q) : result rgb :=
  match index palette 0 with
  | Raise e => Raise e
  | Ok c0 => classify_loop (seq 0 (length lim)) data_value lim c0
  end.

(** ** HistoryBuffer scaling: lines 130-132 of [display_text]

<<
    vmin = min(values[variable])
    vmax = max(values[variable])
    colours = [(v - vmin + 1) / (vmax - vmin + 1) for v in values[variable]]
>> *)
Definition scale (vmin vmax v : Q) : result Q :=
  py_div (v - vmin + 1) (vmax - vmin + 1).

Section Program.
Context `{Collaborators}.

(** ** External commands *)

Definition in_rect (x0 y0 x1 y1 x y : Z) : bool :=
  (x0 <=? x) && (x <=? x1) && (y0 <=? y) && (y <=? y1).

(** [draw.rectangle((x0, y0, x1, y1), fill)]: both corners included. *)
Definition paint_rectangle (x0 y0 x1 y1 : Z) (fill : rgb) (im : image) : image :=
  fun x y => if in_rect x0 y0 x1 y1 x y then fill else im x y.

Definition draw_rectangle (x0 y0 x1 y1 : Z) (fill : rgb) : M NoneType :=
  modify (fun s => set_img (paint_rectangle x0 y0 x1 y1 fill (img s)) s).

(** [draw.text(xy, message, font=f, fill=fill)]. *)
Definition paint_text (xy : Q * Q) (message : string) (f : fontsel) (fill : rgb)
    (im : image) : image :=
  fun x y => text_pixel f message xy fill x y (im x y).

Definition draw_text (xy : Q * Q) (message : string) (f : fontsel) (fill : rgb)
    : M NoneType :=
  modify (fun s => set_img (paint_text xy message f fill (img s)) s).

Definition snapshot (im : image) : frame :=
  (fun y => (fun x => im x y) <$> seqZ 0 WIDTH) <$> seqZ 0 HEIGHT.

(** [st7735.display(img)]. *)
Definition st7735_display : M NoneType :=
  im <~ get img ;; emit (Frame (snapshot im)).

Definition st7735_set_backlight (level : Q) : M NoneType := emit (SetBacklight level).
Definition logging_info (msg : string) : M NoneType := emit (LogInfo msg).
Definition logging_warning (msg : string) : M NoneType := emit (LogWarning msg).

(** [values[k]] and [values[k] = v]. *)
Definition getitem_values (k : string) : M (list Q) :=
  vs <~ get values ;;
  match vs !! k with
  | Some l => ret l
  | None => raise (KeyError k)
  end.

Definition setitem_values (k : string) (v : list Q) : M NoneType :=
  modify (fun s => set_values (<[k:=v]> (values s)) s).

(** [f"{variable[:4]}: {data:.1f} {unit}"]. *)
Definition format_message (variable : string) (data : Q) (unit : string) : string :=
  (String.substring 0 4 variable +:+ ": " +:+ format_1f data +:+ " " +:+ unit)%string.

(** ** display_text *)

Definition column_colour (c : Q) : rgb :=
  let colour := ((1.0 - c) * 0.6)%Q in
  let '(r, g, b) := hsv_to_rgb colour 1 1 in
  (py_int (r * 255), py_int (g * 255), py_int (b * 255)).

Definition line_y (c : Q) : Q :=
  (inject_Z HEIGHT
     - (inject_Z top_pos + c * (inject_Z HEIGHT - inject_Z top_pos))
     + inject_Z top_pos)%Q.

(** What the loop [for i in range(len(colours))] paints, from column [i] on. *)
Fixpoint paint_columns (i : Z) (colours : list Q) (im : image) : image :=
  match colours with
  | [] => im
  | c :: rest =>
      paint_columns (i + 1) rest
        (paint_rectangle i (coord (line_y c)) (i + 1) (coord (line_y c + 1)) (0, 0, 0)
           (paint_rectangle i top_pos (i + 1) HEIGHT (column_colour c) im))
  end.

(** The loop [for i in range(len(colours))], from column [i] on. *)
Fixpoint draw_columns (i : Z) (colours : list Q) : M NoneType :=
  match colours with
  | [] => ret tt
  | c :: rest =>
      draw_rectangle i top_pos (i + 1) HEIGHT (column_colour c) ;;;
      draw_rectangle i (coord (line_y c)) (i + 1) (coord (line_y c + 1)) (0, 0, 0) ;;;
      draw_columns (i + 1) rest
  end.

(** Lines 135-148: the page is drawn from [message] and [colours]. *)
Definition display_text_draw (message : string) (colours : list Q) : M NoneType :=
  logging_info message ;;;
  draw_rectangle 0 0 WIDTH HEIGHT (255, 255, 255) ;;;
  draw_columns 0 colours ;;;
  draw_text (0, 0)%Q message font (0, 0, 0) ;;;
  st7735_display.

Definition display_text (variable : string) (data : Q) (unit : string) : M NoneType :=
  old <~ getitem_values variable ;;
  setitem_values variable (drop 1 old ++ [data]) ;;;
  cur <~ getitem_values variable ;;
  vmin <~ lift (py_min cur) ;;
  cur <~ getitem_values variable ;;
  vmax <~ lift (py_max cur) ;;
  cur <~ getitem_values variable ;;
  colours <~ lift (comprehension (scale vmin vmax) cur) ;;
  let message := format_message variable data unit in
  display_text_draw message colours.

(** ** save_data *)

Definition save_data (idx : nat) (data : Q) : M NoneType :=
  variable <~ lift (index variables idx) ;;
  old <~ getitem_values variable ;;
  setitem_values variable (drop 1 old ++ [data]) ;;;
  unit <~ lift (index units idx) ;;
  let message := format_message variable data unit in
  logging_info message.

(** ** display_everything *)

Definition column_count : Z := 2.
Definition row_count : Q := (inject_Z (Z.of_nat (length variables)) / inject_Z column_count)%Q.

Definition display_everything_cell (i : nat) : M NoneType :=
  variable <~ lift (index variables i) ;;
  hist <~ getitem_values variable ;;
  data_value <~ lift (index_last hist) ;;
  unit <~ lift (index units i) ;;
  let x := (inject_Z x_offset
            + inject_Z (WIDTH `div` column_count)
              * py_floordiv (inject_Z (Z.of_nat i)) row_count)%Q in
  let y := (inject_Z y_offset
            + (inject_Z HEIGHT / row_count)
              * py_mod (inject_Z (Z.of_nat i)) row_count)%Q in
  let message := format_message variable data_value unit in
  lim <~ lift (index limits i) ;;
  colour <~ lift (classify data_value lim) ;;
  draw_text (x, y) message smallfont colour.

Definition display_everything : M NoneType :=
  draw_rectangle 0 0 WIDTH HEIGHT (0, 0, 0) ;;;
  for_each display_everything_cell (seq 0 (length variables)) ;;;
  st7735_display.

(** ** Sensor reads *)

Definition sensor_read {A} (which : sensor) (answer : A) : M A :=
  emit (Read which) ;;; ret answer.

Definition get_cpu_temperature (rd : Readings) : M Q := sensor_read CpuTemp (rd_cpu_temp rd).
Definition bme280_get_temperature (rd : Readings) : M Q := sensor_read Temperature (rd_raw_temp rd).
Definition bme280_get_pressure (rd : Readings) : M Q := sensor_read Pressure (rd_pressure rd).
Definition bme280_get_humidity (rd : Readings) : M Q := sensor_read Humidity (rd_humidity rd).
Definition ltr559_get_lux_page (rd : Readings) : M Q := sensor_read Lux (rd_lux_page rd).
Definition gas_read_all (rd : Readings) : M (Q * Q * Q) := sensor_read Gas (rd_gas rd).
Definition pms5003_read (rd : Readings) : M (Q * Q * Q) :=
  emit (Read Particulates) ;;; lift (rd_pms rd).

(** [except (SerialTimeoutError, pmsReadTimeoutError)]. *)
Definition pms_timeout (e : exn) : bool :=
  match e with
  | SerialTimeoutError | ReadTimeoutError => true
  | _ => false
  end.

(** ** Single-variable handlers *)

(** The smoothing and compensation of lines 192-196 (and 267-270), given
    the value the name [cpu_temps] holds when line 192 reads it. *)
Definition compensated (cpu_temps0 : list Q) (cpu_temp : Q) (rd : Readings) : M Q :=
  let cpu_temps := drop 1 cpu_temps0 ++ [cpu_temp] in
  avg_cpu_temp <~ lift (py_div (py_sum cpu_temps) (inject_Z (Z.of_nat (length cpu_temps)))) ;;
  raw_temp <~ bme280_get_temperature rd ;;
  quot <~ lift (py_div (avg_cpu_temp - raw_temp) factor) ;;
  ret (raw_temp - quot)%Q.

(** [handle_temperature_mode] assigns [cpu_temps] and has no
    [global cpu_temps]: the name is a local of the call, not the global
    that [setup_state] fills, and it is unbound when line 192 reads it. *)
Definition handle_temperature_mode (rd : Readings) : M NoneType :=
  let unit := "°C"%string in
  cpu_temp <~ get_cpu_temperature rd ;;
  cpu_temps0 <~ load_fast "cpu_temps" None ;;
  data <~ compensated cpu_temps0 cpu_temp rd ;;
  variable <~ lift (index variables 0) ;;
  display_text variable data unit.

Definition handle_pressure_mode (rd : Readings) : M NoneType :=
  let unit := "hPa"%string in
  data <~ bme280_get_pressure rd ;;
  variable <~ lift (index variables 1) ;;
  display_text variable data unit.

Definition handle_humidity_mode (rd : Readings) : M NoneType :=
  let unit := "%"%string in
  data <~ bme280_get_humidity rd ;;
  variable <~ lift (index variables 2) ;;
  display_text variable data unit.

Definition handle_light_mode (rd : Readings) : M NoneType :=
  let unit := "Lux"%string in
  prox <~ get proximity ;;
  data <~ (if lt prox 10 then ltr559_get_lux_page rd else ret 1%Q) ;;
  variable <~ lift (index variables 3) ;;
  display_text variable data unit.

Definition handle_oxidised_mode (rd : Readings) : M NoneType :=
  let unit := "kO"%string in
  data <~ gas_read_all rd ;;
  let data := (data.1.1 / 1000)%Q in
  variable <~ lift (index variables 4) ;;
  display_text variable data unit.

Definition handle_reduced_mode (rd : Readings) : M NoneType :=
  let unit := "kO"%string in
  data <~ gas_read_all rd ;;
  let data := (data.1.2 / 1000)%Q in
  variable <~ lift (index variables 5) ;;
  display_text variable data unit.

Definition handle_nh3_mode (rd : Readings) : M NoneType :=
  let unit := "kO"%string in
  data <~ gas_read_all rd ;;
  let data := (data.2 / 1000)%Q in
  variable <~ lift (index variables 6) ;;
  display_text variable data unit.

Definition handle_pm1_mode (rd : Readings) : M NoneType :=
  let unit := "ug/m3"%string in
  try_except_else (pms5003_read rd) pms_timeout
    (logging_warning "Failed to read PMS5003")
    (fun data =>
       let data := data.1.1 in
       variable <~ lift (index variables 7) ;;
       display_text variable data unit).

Definition handle_pm25_mode (rd : Readings) : M NoneType :=
  let unit := "ug/m3"%string in
  try_except_else (pms5003_read rd) pms_timeout
    (logging_warning "Failed to read PMS5003")
    (fun data =>
       let data := data.1.2 in
       variable <~ lift (index variables 8) ;;
       display_text variable data unit).

Definition handle_pm10_mode (rd : Readings) : M NoneType :=
  let unit := "ug/m3"%string in
  try_except_else (pms5003_read rd) pms_timeout
    (logging_warning "Failed to read PMS5003")
    (fun data =>
       let data := data.2 in
       variable <~ lift (index variables 9) ;;
       display_text variable data unit).

(** ** The all-variables handler *)

(** Lines 267-298, given the value the name [cpu_temps] holds when line 267
    reads it. *)
Definition handle_display_everything_mode_from (cpu_temps0 : list Q) (cpu_temp : Q)
    (rd : Readings) : M NoneType :=
  raw_data <~ compensated cpu_temps0 cpu_temp rd ;;
  save_data 0 raw_data ;;;
  display_everything ;;;
  raw_data <~ bme280_get_pressure rd ;;
  save_data 1 raw_data ;;;
  display_everything ;;;
  raw_data <~ bme280_get_humidity rd ;;
  save_data 2 raw_data ;;;
  prox <~ get proximity ;;
  raw_data <~ (if lt prox 10 then ltr559_get_lux_page rd else ret 1%Q) ;;
  save_data 3 raw_data ;;;
  display_everything ;;;
  gas_data <~ gas_read_all rd ;;
  save_data 4 (gas_data.1.1 / 1000)%Q ;;;
  save_data 5 (gas_data.1.2 / 1000)%Q ;;;
  save_data 6 (gas_data.2 / 1000)%Q ;;;
  display_everything ;;;
  try_except_else (pms5003_read rd) pms_timeout
    (logging_warning "Failed to read PMS5003")
    (fun pms_data =>
       save_data 7 pms_data.1.1 ;;;
       save_data 8 pms_data.1.2 ;;;
       save_data 9 pms_data.2 ;;;
       display_everything).

(** As in [handle_temperature_mode], [cpu_temps] is a local of the call
    (assigned at line 267, no [global] statement) and unbound when read. *)
Definition handle_display_everything_mode (rd : Readings) : M NoneType :=
  cpu_temp <~ get_cpu_temperature rd ;;
  cpu_temps0 <~ load_fast "cpu_temps" None ;;
  handle_display_everything_mode_from cpu_temps0 cpu_temp rd.

End Program.

(** ** BacklightController: lines 322-349 of [main_loop] *)

(** [now - t] where [t] may be [None]. *)
Definition elapsed (now : Q) (t : option Q) : result Q :=
  match t with
  | Some t0 => Ok (now - t0)%Q
  | None => Raise TypeError
  end.

Definition backlight_dark (now : Q) : M NoneType :=
  so <~ get screen_on ;;
  dm <~ get dimmed ;;
  (if so && negb dm then
     lot <~ get light_off_time ;;
     match lot with
     | None => modify (set_light_off_time (Some now))
     | Some t0 =>
         if gt (now - t0) dim_delay then
           st7735_set_backlight 0.2 ;;;
           modify (set_dimmed true)
         else ret tt
     end
   else if dm then
     lot <~ get light_off_time ;;
     d <~ lift (elapsed now lot) ;;
     if gt d (dim_delay + off_delay) then
       st7735_set_backlight 0 ;;;
       modify (set_screen_on false) ;;;
       modify (set_dimmed false) ;;;
       modify (set_light_off_time None)
     else ret tt
   else ret tt) ;;;
  modify (set_light_on_time None).

Definition backlight_light (now : Q) : M NoneType :=
  so <~ get screen_on ;;
  dm <~ get dimmed ;;
  if negb so then
    lon <~ get light_on_time ;;
    match lon with
    | None => modify (set_light_on_time (Some now))
    | Some t0 =>
        if gt (now - t0) on_delay then
          st7735_set_backlight 1 ;;;
          modify (set_screen_on true) ;;;
          modify (set_light_on_time None)
        else ret tt
    end
  else if dm then
    st7735_set_backlight 1 ;;;
    modify (set_dimmed false) ;;;
    modify (set_light_off_time None)
  else
    modify (set_light_off_time None).

Definition backlight_step (now : Q) : M NoneType :=
  l <~ get lux ;;
  if le l 0 then backlight_dark now else backlight_light now.

(** ** PageController: lines 353-356 of [main_loop]

    [and] evaluates the clock only when the proximity test holds; the
    reading [rd_check] is what the clock answers then. *)
Definition page_step (rd : Readings) : M NoneType :=
  prox <~ get proximity ;;
  lp <~ get last_page ;;
  if gt prox 1500 && gt (rd_check rd - lp) delay then
    modify (fun s => set_mode (mode s + 1) s) ;;;
    modify (fun s => set_mode (mode s `mod` (Z.of_nat (length variables) + 1)) s) ;;;
    modify (set_last_page (rd_set rd))
  else ret tt.

(** Lines 317-356: the sensor reads that open an iteration and the two
    controllers. *)
Definition control (rd : Readings) : M NoneType :=
  p <~ sensor_read Proximity (rd_proximity rd) ;;
  modify (set_proximity p) ;;;
  l <~ sensor_read Lux (rd_lux rd) ;;
  modify (set_lux l) ;;;
  let now := rd_now rd in
  backlight_step now ;;;
  page_step rd.

Section MainLoop.
Context `{Collaborators}.

(** [match mode: case 10: ... case 0: ... case 9: ...], no default case. *)
Definition dispatch (m : Z) (rd : Readings) : M NoneType :=
  match m with
  | 10 => handle_display_everything_mode rd
  | 0 => handle_temperature_mode rd
  | 1 => handle_pressure_mode rd
  | 2 => handle_humidity_mode rd
  | 3 => handle_light_mode rd
  | 4 => handle_oxidised_mode rd
  | 5 => handle_reduced_mode rd
  | 6 => handle_nh3_mode rd
  | 7 => handle_pm1_mode rd
  | 8 => handle_pm25_mode rd
  | 9 => handle_pm10_mode rd
  | _ => ret tt
  end.

(** One iteration of [while True]: the controllers, then the page handler. *)
Definition tick (rd : Readings) : M NoneType :=
  control rd ;;;
  m <~ get mode ;;
  dispatch m rd.

(** The assignments before the loop, then the loop on the readings of its
    first iterations; an exception other than KeyboardInterrupt leaves it. *)
Definition main_loop (rds : list Readings) : M NoneType :=
  modify (set_screen_on true) ;;;
  modify (set_dimmed false) ;;;
  modify (set_light_off_time None) ;;;
  modify (set_light_on_time None) ;;;
  for_each tick rds.

(** ** setup *)

(** [setup_sensors] binds the driver handles and sleeps one second; no
    global of the model changes. *)
Definition setup_sensors : M NoneType := ret tt.

Definition setup_display : M NoneType :=
  modify (set_img (fun _ _ => (0, 0, 0))).

Definition setup_variables : M NoneType :=
  modify (set_values ∅).

(** [t0] is what [time.time()] answers at line 112. *)
Definition setup_state (t0 : Q) : M NoneType :=
  modify (set_mode 0) ;;;
  modify (set_last_page t0) ;;;
  modify (set_cpu_temps (replicate 5 0%Q)).

Definition setup (t0 : Q) : M NoneType :=
  setup_sensors ;;;
  setup_display ;;;
  setup_variables ;;;
  setup_state t0.

Definition main (t0 : Q) (rds : list Readings) : M NoneType :=
  setup t0 ;;;
  main_loop rds.

End MainLoop.

(** ** Observations used in the statements *)

(** What a handler leaves alone: every global but [values], [img] and the
    trace. *)
Definition same_globals (s s' : State) : Prop :=
  cpu_temps s' = cpu_temps s /\ mode s' = mode s /\ last_page s' = last_page s
  /\ proximity s' = proximity s /\ lux s' = lux s
  /\ screen_on s' = screen_on s /\ dimmed s' = dimmed s
  /\ light_off_time s' = light_off_time s /\ light_on_time s' = light_on_time s.

(** The trace only grows, and by events that satisfy [P]. *)
Definition emits (P : event -> Prop) (s s' : State) : Prop :=
  exists ev, trace s' = trace s ++ ev /\ Forall P ev.

(** A computation relates the state it starts in to the one it leaves,
    whether it returns or raises. *)
Definition keeps {A} (R : State -> State -> Prop) (m : M A) : Prop :=
  forall s, R s (m s).2.

(** Two canvases show the same pixels on the display. *)
Definition same_pixels `{Collaborators} (im1 im2 : image) : Prop :=
  forall x y, 0 <= x < WIDTH -> 0 <= y < HEIGHT -> im1 x y = im2 x y.

(** The number of thresholds that a value exceeds. *)
Definition count_exceeded (v : Q) (lim : list Q) : nat :=
  length (List.filter (gt v) lim).

Fixpoint ascending (l : list Q) : bool :=
  match l with
  | a :: ((b :: _) as l') => le a b && ascending l'
  | _ => true
  end.

Inductive BacklightState : Type := On | Dimmed | Off.

Definition backlight_state (s : State) : BacklightState :=
  if screen_on s then (if dimmed s then Dimmed else On) else Off.

Definition backlight_commands (tr : list event) : list Q :=
  omap (fun e => match e with SetBacklight l => Some l | _ => None end) tr.

Definition frames (tr : list event) : list frame :=
  omap (fun e => match e with Frame f => Some f | _ => None end) tr.

(** The events a computation adds to the trace. *)
Definition events_of {A} (m : M A) (s : State) : list event :=
  drop (length (trace s)) (trace (m s).2).

(** In a state the loop can be in, a dimmed screen has its dark onset. *)
Definition backlight_ok (s : State) : Prop :=
  dimmed s = true -> screen_on s = true /\ is_Some (light_off_time s).

(** The condition of line 353 on the readings of an iteration. *)
Definition advance_due (rd : Readings) (s : State) : bool :=
  gt (rd_proximity rd) 1500 && gt (rd_check rd - last_page s) delay.

(** The clock readings at which a run of the controllers turned the page. *)
Fixpoint advances (rds : list Readings) (s : State) : list Q :=
  match rds with
  | [] => []
  | rd :: rest =>
      let s' := (control rd s).2 in
      (if mode s' =? mode s then [] else [rd_check rd]) ++ advances rest s'
  end.

(** Consecutive entries are more than [d] apart. *)
Fixpoint spaced (d : Q) (l : list Q) : Prop :=
  match l with
  | a :: ((b :: _) as l') => (d < b - a)%Q /\ spaced d l'
  | _ => True
  end.

Definition is_timeout (r : result (Q * Q * Q)) : Prop :=
  r = Raise SerialTimeoutError \/ r = Raise ReadTimeoutError.

(** Every variable has a non-empty history. *)
Definition buffers_ready (vs : gmap string (list Q)) : Prop :=
  forall v, v ∈ variables -> exists l x, vs !! v = Some (l ++ [x]).

(** What the backlight controller holds and has commanded so far. *)
Definition backlight_view (s : State) : BacklightState * option Q * list Q :=
  (backlight_state s, light_off_time s, backlight_commands (trace s)).

(** The outcome of the controllers on the readings [rds], and the
    backlight view they leave. *)
Definition backlight_stage (rds : list Readings) (s : State)
    : result NoneType * (BacklightState * option Q * list Q) :=
  ((for_each control rds s).1, backlight_view (for_each control rds s).2).

(** Readings of an iteration at clock time [t] with the given proximity
    and ambient light. *)
Definition readings_at (t prox l : Q) : Readings :=
  mkReadings prox l t t t 0 0 0 0 0 (0, 0, 0)%Q (Raise ReadTimeoutError).

(** The globals once [setup] has run at clock time [t0] and [main_loop]
    has made its assignments, before the first iteration. *)
Definition started (t0 : Q) : State :=
  mkState ∅ (replicate 5 0%Q) 0 t0 0 0 true false None None (fun _ _ => (0, 0, 0)) [].

(** Iterations number [1] to [n], a tenth of a second apart, with a hand
    held over the sensor and the light on. *)
Definition hand_held (n : nat) : list Readings :=
  (fun k => readings_at (inject_Z (Z.of_nat k) / 10) 2000 1) <$> seq 1 n.

(** The canvas of a single-variable page drawn over [im]. *)
Definition page_image `{Collaborators} (message : string) (colours : list Q)
    (im : image) : image :=
  paint_text (0, 0)%Q message font (0, 0, 0)
    (paint_columns 0 colours
       (paint_rectangle 0 0 WIDTH HEIGHT (255, 255, 255) im)).

(** ** A bench of collaborators, to run the program on examples *)

(** [colorsys.hsv_to_rgb] as CPython defines it. *)
Definition colorsys_hsv_to_rgb (h s v : Q) : Q * Q * Q :=
  if Qeq_bool s 0 then (v, v, v)
  else
    let i := py_int (h * 6) in
    let f := (h * 6 - inject_Z i)%Q in
    let p := (v * (1 - s))%Q in
    let q := (v * (1 - s * f))%Q in
    let t := (v * (1 - s * (1 - f)))%Q in
    match i `mod` 6 with
    | 0 => (v, t, p)
    | 1 => (q, v, p)
    | 2 => (p, v, t)
    | 3 => (p, q, v)
    | 4 => (t, p, v)
    | _ => (v, p, q)
    end.

(** The 160x80 display; numbers print as their integer part; text leaves
    the canvas as it is. *)
Definition bench : Collaborators := {|
  WIDTH := 160;
  HEIGHT := 80;
  hsv_to_rgb := colorsys_hsv_to_rgb;
  format_1f := fun x => pretty (py_int x);
  coord := Qfloor;
  text_pixel := fun _ _ _ _ _ _ under => under
|}.

(** The history buffers are as they were. *)
Definition same_values (s s' : State) : Prop := values s' = values s.

Definition is_frame (e : event) : Prop := exists f, e = Frame f.

(** The scaled series of the buffer [old] once [data] is recorded, when
    lines 130-132 raise nothing. *)
Definition scaled_series (old : list Q) (data : Q) : option (list Q) :=
  let cur := drop 1 old ++ [data] in
  match py_min cur, py_max cur with
  | Ok vmin, Ok vmax =>
      match comprehension (scale vmin vmax) cur with
      | Ok colours => Some colours
      | Raise _ => None
      end
  | _, _ => None
  end.

(** Two states hold the same histories and show the same pixels. *)
Definition twin `{Collaborators} (s1 s2 : State) : Prop :=
  values s1 = values s2 /\ same_pixels (img s1) (img s2).

(** A computation run from [s] ends in an outcome and a state that
    satisfy [post]. *)
Definition holds {A} (m : M A) (s : State) (post : result A -> State -> Prop)
    : Prop :=
  post (m s).1 (m s).2.

(** Nothing was recorded for the light variable, the proximity global is
    as it was and the lux sensor was not read. *)
Definition light_kept (s s' : State) : Prop :=
  proximity s' = proximity s
  /\ values s' !! "light"%string = values s !! "light"%string
  /\ emits (fun e => e <> Read Lux) s s'.

(** With every history in place, a computation returns, leaves every
    history in place and pushes [n] frames. *)
Definition renders {A} (n : nat) (m : M A) : Prop :=
  forall s, buffers_ready (values s) ->
    exists a, (m s).1 = Ok a
      /\ buffers_ready (values (m s).2)
      /\ length (frames (trace (m s).2)) = (length (frames (trace s)) + n)%nat.

(** ** Observations for the further properties *)

(** The backlight level that goes with a state. *)
Definition backlight_level (b : BacklightState) : Q :=
  match b with
  | On => 1
  | Dimmed => 0.2
  | Off => 0
  end.

Definition same_backlight (a b : BacklightState) : bool :=
  match a, b with
  | On, On | Dimmed, Dimmed | Off, Off => true
  | _, _ => false
  end.

(** The backlight controller in full: state, dark onset, light onset and
    the commands issued so far. *)
Definition backlight_full (s : State)
    : BacklightState * option Q * option Q * list Q :=
  (backlight_state s, light_off_time s, light_on_time s,
   backlight_commands (trace s)).

Definition backlight_run (rds : list Readings) (s : State)
    : result NoneType * (BacklightState * option Q * option Q * list Q) :=
  ((for_each control rds s).1, backlight_full (for_each control rds s).2).

(** Every iteration of [rds] finds a hand over the sensor and the clock
    more than [delay] past the previous page turn, [last] being the time of
    the turn before the first. *)
Fixpoint all_due (last : Q) (rds : list Readings) : Prop :=
  match rds with
  | [] => True
  | rd :: rest =>
      (1500 < rd_proximity rd)%Q /\ (delay < rd_check rd - last)%Q
      /\ all_due (rd_set rd) rest
  end.

(** The buffer of variable [k] is as it was. *)
Definition buffer_kept (k : string) (s s' : State) : Prop :=
  values s' !! k = values s !! k.

(** The particulate channel that page [m] shows, and its variable. *)
Definition pm_channel (m : Z) (d : Q * Q * Q) : option (string * Q) :=
  match m with
  | 7 => Some ("pm1"%string, d.1.1)
  | 8 => Some ("pm25"%string, d.1.2)
  | 9 => Some ("pm10"%string, d.2)
  | _ => None
  end.

(** A state in which every variable has the one-value history [1]. *)
Definition primed : State :=
  set_values (list_to_map ((fun v => (v, [1%Q])) <$> variables)) (started 0).

(** What pages 1, 2, 4, 5 and 6 show: the variable and the value taken
    from the sensors' answers. *)
Definition page_reading (m : Z) (rd : Readings) : option (sensor * string * string * Q) :=
  match m with
  | 1 => Some (Pressure, "pressure"%string, "hPa"%string, rd_pressure rd)
  | 2 => Some (Humidity, "humidity"%string, "%"%string, rd_humidity rd)
  | 4 => Some (Gas, "oxidised"%string, "kO"%string, ((rd_gas rd).1.1 / 1000)%Q)
  | 5 => Some (Gas, "reduced"%string, "kO"%string, ((rd_gas rd).1.2 / 1000)%Q)
  | 6 => Some (Gas, "nh3"%string, "kO"%string, ((rd_gas rd).2 / 1000)%Q)
  | _ => None
  end.

(** ** get_cpu_temperature: the text between "=" and the last "'"

<<
    return float(output[output.index("=") + 1:output.rindex("'")])
>> *)

(** [s.index(c)] and [s.rindex(c)] for a one-character [c]. *)
Fixpoint str_index (c : Ascii.ascii) (s : string) : option nat :=
  match s with
  | EmptyString => None
  | String a s' =>
      if Ascii.eqb a c then Some 0%nat
      else match str_index c s' with
           | Some i => Some (S i)
           | None => None
           end
  end.

Fixpoint str_rindex (c : Ascii.ascii) (s : string) : option nat :=
  match s with
  | EmptyString => None
  | String a s' =>
      match str_rindex c s' with
      | Some i => Some (S i)
      | None => if Ascii.eqb a c then Some 0%nat else None
      end
  end.

(** [s[a:b]] for indices within the string. *)
Definition py_slice (a b : nat) (s : string) : string :=
  String.substring a (b - a) s.

Definition cpu_temperature_text (output : string) : result string :=
  match str_index "="%char output with
  | None => Raise ValueError
  | Some i =>
      match str_rindex "'"%char output with
      | None => Raise ValueError
      | Some j => Ok (py_slice (i + 1) j output)
      end
  end.

(** [get_cpu_temperature] on the output of [vcgencmd measure_temp];
    [to_float] is the built-in [float]. *)
Definition get_cpu_temperature_of (to_float : string -> result Q) (output : string)
    : result Q :=
  match cpu_temperature_text output with
  | Ok text => to_float text
  | Raise e => Raise e
  end.

(** Where [display_everything] writes the label of variable [i]: the
    [x] and [y] of lines 170-171. *)
Definition cell_origin `{Collaborators} (i : nat) : Q * Q :=
  ((inject_Z x_offset
    + inject_Z (WIDTH `div` column_count)
      * py_floordiv (inject_Z (Z.of_nat i)) row_count)%Q,
   (inject_Z y_offset
    + (inject_Z HEIGHT / row_count)
      * py_mod (inject_Z (Z.of_nat i)) row_count)%Q).

(** What the controllers leave alone: the histories, the smoothing
    window and the canvas. *)
Definition display_kept (s s' : State) : Prop :=
  values s' = values s /\ cpu_temps s' = cpu_temps s /\ img s' = img s.

Definition controller_event (e : event) : Prop :=
  e = Read Proximity \/ e = Read Lux \/ exists level, e = SetBacklight level.


(** * Properties *)

(** ** Comparisons *)

Lemma gt_true (a b : Q) : gt a b = true <-> (b < a)%Q.
Proof.
  unfold gt. destruct (Qlt_le_dec b a) as [Hlt | Hle]; split; intros Hx;
    try done. exfalso. lra.
Qed.

Lemma gt_false (a b : Q) : gt a b = false <-> (a <= b)%Q.
Proof.
  unfold gt. destruct (Qlt_le_dec b a) as [Hlt | Hle]; split; intros Hx;
    try done. exfalso. lra.
Qed.

Lemma le_true (a b : Q) : le a b = true <-> (a <= b)%Q.
Proof.
  unfold le. destruct (Qlt_le_dec b a) as [Hlt | Hle]; split; intros Hx;
    try done. exfalso. lra.
Qed.

Lemma le_false (a b : Q) : le a b = false <-> (b < a)%Q.
Proof.
  unfold le. destruct (Qlt_le_dec b a) as [Hlt | Hle]; split; intros Hx;
    try done. exfalso. lra.
Qed.

Lemma lt_true (a b : Q) : lt a b = true <-> (a < b)%Q.
Proof. unfold lt. apply gt_true. Qed.

Lemma lt_false (a b : Q) : lt a b = false <-> (b <= a)%Q.
Proof. unfold lt. apply gt_false. Qed.

(** Turns the boolean comparisons among the hypotheses into order facts. *)
Ltac order_facts :=
  repeat match goal with
  | H : gt _ _ = true |- _ => apply gt_true in H
  | H : gt _ _ = false |- _ => apply gt_false in H
  | H : le _ _ = true |- _ => apply le_true in H
  | H : le _ _ = false |- _ => apply le_false in H
  | H : lt _ _ = true |- _ => apply lt_true in H
  | H : lt _ _ = false |- _ => apply lt_false in H
  end.

(** ** ThresholdClassifier *)

Lemma ascending_4 (t0 t1 t2 t3 : Q) :
  ascending [t0; t1; t2; t3] = true -> (t0 <= t1 /\ t1 <= t2 /\ t2 <= t3)%Q.
Proof.
  cbn [ascending]. rewrite !andb_true_iff, !le_true. tauto.
Qed.

(** C1. For an ascending list of four thresholds the colour chosen by the
    loop of [display_everything] is the palette entry whose index is the
    number of thresholds the value exceeds, an index between 0 and 4; with
    thresholds [4, 18, 28, 35] the values 20, 40 and 2 get the entries 2, 4
    and 0. *)
Theorem classify_counts_exceeded (v : Q) (lim : list Q) :
  length lim = 4%nat ->
  ascending lim = true ->
  classify v lim = index palette (count_exceeded v lim)
  /\ (count_exceeded v lim <= 4)%nat
  /\ classify 20 [4; 18; 28; 35]%Q = index palette 2
  /\ classify 40 [4; 18; 28; 35]%Q = index palette 4
  /\ classify 2 [4; 18; 28; 35]%Q = index palette 0.
Proof.
  intros Hlen Hasc.
  destruct lim as [| t0 [| t1 [| t2 [| t3 [| ? ?]]]]]; try discriminate Hlen.
  apply ascending_4 in Hasc. destruct Hasc as (H01 & H12 & H23).
  split; [| split; [| by vm_compute]].
  - unfold classify, count_exceeded, index. cbn -[gt].
    destruct (gt v t0) eqn:E0; destruct (gt v t1) eqn:E1;
      destruct (gt v t2) eqn:E2; destruct (gt v t3) eqn:E3;
      cbn; try reflexivity; order_facts; exfalso; lra.
  - unfold count_exceeded. cbn [List.filter].
    destruct (gt v t0), (gt v t1), (gt v t2), (gt v t3); cbn; lia.
Qed.

Lemma classify_counts_exceeded_witness :
  classify 1014 [250; 650; 1013.25; 1015]%Q = Ok (255, 255, 0).
Proof.
  destruct (classify_counts_exceeded 1014 [250; 650; 1013.25; 1015]%Q) as [Hc _].
  - reflexivity.
  - vm_compute. reflexivity.
  - rewrite Hc. vm_compute. reflexivity.
Defined.

(** ** Relations kept by every statement *)

Section Keeps.
Context (R : relation State) `{!PreOrder R}.

Lemma keeps_ret {A} (a : A) : keeps R (ret a).
Proof. intros s. reflexivity. Qed.

Lemma keeps_raise {A} (e : exn) : keeps R (@raise A e).
Proof. intros s. reflexivity. Qed.

Lemma keeps_lift {A} (r : result A) : keeps R (lift r).
Proof. intros s. reflexivity. Qed.

Lemma keeps_get {A} (f : State -> A) : keeps R (get f).
Proof. intros s. reflexivity. Qed.

Lemma keeps_load_fast {A} (name : string) (slot : option A) :
  keeps R (load_fast name slot).
Proof. destruct slot; intros s; reflexivity. Qed.

Lemma keeps_modify (g : State -> State) :
  (forall s, R s (g s)) -> keeps R (modify g).
Proof. intros Hg s. apply Hg. Qed.

Lemma keeps_emit (e : event) :
  (forall s, R s (set_trace (trace s ++ [e]) s)) -> keeps R (emit e).
Proof. intros He s. apply He. Qed.

Lemma keeps_bind {A B} (m : M A) (k : A -> M B) :
  keeps R m -> (forall a, keeps R (k a)) -> keeps R (bind m k).
Proof.
  intros Hm Hk s. unfold bind. specialize (Hm s).
  destruct (m s) as [[a | e] s'] eqn:Em; cbn in *.
  - etransitivity; [exact Hm | apply Hk].
  - exact Hm.
Qed.

Lemma keeps_bind_lift {A B} (r : result A) (k : A -> M B) :
  (forall a, r = Ok a -> keeps R (k a)) -> keeps R (bind (lift r) k).
Proof.
  intros Hk s. unfold bind, lift. destruct r as [a | e]; cbn.
  - by apply Hk.
  - reflexivity.
Qed.

Lemma keeps_try {A B} (body : M A) (caught : exn -> bool) (handler : M B)
    (orelse : A -> M B) :
  keeps R body -> keeps R handler -> (forall a, keeps R (orelse a)) ->
  keeps R (try_except_else body caught handler orelse).
Proof.
  intros Hb Hh Ho s. unfold try_except_else. specialize (Hb s).
  destruct (body s) as [[a | e] s'] eqn:Em; cbn in *.
  - etransitivity; [exact Hb | apply Ho].
  - destruct (caught e); [| exact Hb].
    etransitivity; [exact Hb | apply Hh].
Qed.

Lemma keeps_for_each {A} (body : A -> M NoneType) (l : list A) :
  (forall a, keeps R (body a)) -> keeps R (for_each body l).
Proof.
  intros Hb. induction l as [| a l IH]; cbn [for_each].
  - apply keeps_ret.
  - apply keeps_bind; [apply Hb | intros _; exact IH].
Qed.

Lemma keeps_if {A} (b : bool) (m1 m2 : M A) :
  keeps R m1 -> keeps R m2 -> keeps R (if b then m1 else m2).
Proof. by destruct b. Qed.

End Keeps.

(** Splits a goal [keeps R m] along the statements of [m]. *)
Ltac keeps_step :=
  lazymatch goal with
  | |- keeps _ (ret _) => apply keeps_ret; try apply _
  | |- keeps _ (raise _) => apply keeps_raise; try apply _
  | |- keeps _ (lift _) => apply keeps_lift; try apply _
  | |- keeps _ (get _) => apply keeps_get; try apply _
  | |- keeps _ (load_fast _ _) => apply keeps_load_fast; try apply _
  | |- keeps _ (bind (lift _) _) => apply keeps_bind_lift; [try apply _ | intros ? ?]
  | |- keeps _ (bind _ _) => apply keeps_bind; [try apply _ | | intro]
  | |- keeps _ (try_except_else _ _ _ _) => apply keeps_try; [try apply _ | | | intro]
  | |- keeps _ (for_each _ _) => apply keeps_for_each; [try apply _ | intro]
  | |- keeps _ (if _ then _ else _) => apply keeps_if
  | |- keeps _ (match ?x with _ => _ end) => destruct x
  | |- keeps _ (modify _) => apply keeps_modify; intro
  | |- keeps _ (emit _) => apply keeps_emit; intro
  end.

(** ** What the page handlers leave alone *)

Section HandlersKeep.
Context `{Collaborators}.
Context (R : relation State) `{!PreOrder R}.
Variable okev : event -> Prop.
Variable touch : string -> Prop.
Hypothesis R_values :
  forall k v s, touch k -> R s (set_values (<[k:=v]> (values s)) s).
Hypothesis R_img : forall im s, R s (set_img im s).
Hypothesis R_emit : forall e s, okev e -> R s (set_trace (trace s ++ [e]) s).
Hypothesis okev_info : forall msg, okev (LogInfo msg).
Hypothesis okev_frame : forall f, okev (Frame f).
Hypothesis okev_read : forall x, x <> Particulates -> okev (Read x).

Lemma keeps_getitem_values (k : string) : keeps R (getitem_values k).
Proof. unfold getitem_values. repeat keeps_step. Qed.

Lemma keeps_draw_columns (colours : list Q) (i : Z) : keeps R (draw_columns i colours).
Proof.
  revert i. induction colours as [| c rest IH]; intros i; cbn [draw_columns].
  - keeps_step.
  - unfold draw_rectangle. repeat keeps_step; try apply R_img. apply IH.
Qed.

Lemma keeps_st7735_display : keeps R st7735_display.
Proof. unfold st7735_display. repeat keeps_step. by apply R_emit. Qed.

Lemma keeps_display_text (variable : string) (data : Q) (unit_ : string) :
  touch variable ->
  keeps R (display_text variable data unit_).
Proof.
  intros Htouch.
  unfold display_text, display_text_draw, setitem_values, logging_info,
    draw_rectangle, draw_text.
  repeat first
    [ apply keeps_getitem_values | apply keeps_draw_columns
    | apply keeps_st7735_display | by apply R_values | apply R_img
    | apply R_emit; apply okev_info | keeps_step ].
Qed.

Lemma keeps_save_data (idx : nat) (data : Q) :
  (forall variable, variables !! idx = Some variable -> touch variable) ->
  keeps R (save_data idx data).
Proof.
  intros Htouch. unfold save_data, setitem_values, logging_info.
  keeps_step.
  match goal with
  | E : index variables idx = Ok ?v |- _ =>
      unfold index in E; destruct (variables !! idx) as [v' |] eqn:Ev;
      [injection E as ->; specialize (Htouch _ eq_refl) | discriminate E]
  end.
  repeat first
    [ apply keeps_getitem_values | by apply R_values
    | apply R_emit; apply okev_info | keeps_step ].
Qed.

Lemma keeps_display_everything : keeps R display_everything.
Proof.
  unfold display_everything, display_everything_cell, draw_rectangle, draw_text.
  repeat first
    [ apply keeps_getitem_values | apply keeps_st7735_display | apply R_img
    | keeps_step ].
Qed.

Lemma keeps_sensor_read {A} (which : sensor) (answer : A) :
  okev (Read which) -> keeps R (sensor_read which answer).
Proof. intros Hw. unfold sensor_read. repeat keeps_step. by apply R_emit. Qed.

Lemma handle_temperature_mode_run (rd : Readings) (s : State) :
  handle_temperature_mode rd s
  = (Raise (UnboundLocalError "cpu_temps"), set_trace (trace s ++ [Read CpuTemp]) s).
Proof. reflexivity. Qed.

Lemma handle_display_everything_mode_run (rd : Readings) (s : State) :
  handle_display_everything_mode rd s
  = (Raise (UnboundLocalError "cpu_temps"), set_trace (trace s ++ [Read CpuTemp]) s).
Proof. reflexivity. Qed.

Lemma keeps_handle_temperature_mode (rd : Readings) :
  keeps R (handle_temperature_mode rd).
Proof.
  intros s. rewrite handle_temperature_mode_run. apply R_emit.
  by apply okev_read.
Qed.

Lemma keeps_handle_display_everything_mode (rd : Readings) :
  keeps R (handle_display_everything_mode rd).
Proof.
  intros s. rewrite handle_display_everything_mode_run. apply R_emit.
  by apply okev_read.
Qed.

Hypothesis touch_all : forall k, touch k.

Lemma keeps_handle_light_mode (rd : Readings) : keeps R (handle_light_mode rd).
Proof.
  unfold handle_light_mode, ltr559_get_lux_page.
  repeat first
    [ by apply keeps_display_text | apply keeps_sensor_read; by apply okev_read
    | keeps_step ].
Qed.

Lemma keeps_pm_handler (rd : Readings) (pick : Q * Q * Q -> Q) (idx : nat) :
  okev (Read Particulates) -> (forall msg, okev (LogWarning msg)) ->
  keeps R (try_except_else (pms5003_read rd) pms_timeout
             (logging_warning "Failed to read PMS5003")
             (fun data =>
                let data := pick data in
                variable <~ lift (index variables idx) ;;
                display_text variable data "ug/m3")).
Proof.
  intros Hp Hw. unfold pms5003_read, logging_warning.
  repeat first [ by apply keeps_display_text | by apply R_emit | keeps_step ].
Qed.

Lemma keeps_dispatch_other (m : Z) (rd : Readings) :
  m <> 7 -> m <> 8 -> m <> 9 -> keeps R (dispatch m rd).
Proof.
  intros H7 H8 H9. unfold dispatch.
  repeat match goal with
  | |- keeps _ (match ?x with _ => _ end) => destruct x
  end; try done;
  first
    [ apply keeps_handle_temperature_mode
    | apply keeps_handle_display_everything_mode
    | apply keeps_handle_light_mode
    | apply keeps_ret; apply _
    | unfold handle_pressure_mode, handle_humidity_mode, handle_oxidised_mode,
        handle_reduced_mode, handle_nh3_mode, bme280_get_pressure,
        bme280_get_humidity, gas_read_all;
      repeat first
        [ by apply keeps_display_text | apply keeps_sensor_read; by apply okev_read
        | keeps_step ] ].
Qed.

Lemma keeps_dispatch (m : Z) (rd : Readings) :
  okev (Read Particulates) -> (forall msg, okev (LogWarning msg)) ->
  keeps R (dispatch m rd).
Proof.
  intros Hp Hw.
  destruct (decide (m = 7)) as [-> | H7];
    [by apply (keeps_pm_handler rd (fun d => d.1.1) 7) |].
  destruct (decide (m = 8)) as [-> | H8];
    [by apply (keeps_pm_handler rd (fun d => d.1.2) 8) |].
  destruct (decide (m = 9)) as [-> | H9];
    [by apply (keeps_pm_handler rd (fun d => d.2) 9) |].
  by apply keeps_dispatch_other.
Qed.

End HandlersKeep.

(** ** The two relations of interest are preorders *)

#[local] Instance same_globals_preorder : PreOrder same_globals.
Proof.
  split.
  - intros s. unfold same_globals. tauto.
  - intros s1 s2 s3 H12 H23. unfold same_globals in *.
    destruct H12 as (?&?&?&?&?&?&?&?&?), H23 as (?&?&?&?&?&?&?&?&?).
    repeat split; congruence.
Qed.

#[local] Instance emits_preorder (P : event -> Prop) : PreOrder (emits P).
Proof.
  split.
  - intros s. exists []. by rewrite app_nil_r.
  - intros s1 s2 s3 (ev1 & E1 & F1) (ev2 & E2 & F2).
    exists (ev1 ++ ev2). split.
    + by rewrite E2, E1, app_assoc.
    + by apply Forall_app.
Qed.

Section Dispatch.
Context `{Collaborators}.

Lemma dispatch_same_globals (m : Z) (rd : Readings) (s : State) :
  same_globals s (dispatch m rd s).2.
Proof.
  apply (keeps_dispatch same_globals (fun _ => True) (fun _ => True)); try done;
    intros; unfold same_globals; cbn; tauto.
Qed.

Lemma dispatch_other_reads (m : Z) (rd : Readings) (s : State) :
  m <> 7 -> m <> 8 -> m <> 9 ->
  emits (fun e => e <> Read Particulates) s (dispatch m rd s).2.
Proof.
  intros H7 H8 H9.
  apply (keeps_dispatch_other (emits (fun e => e <> Read Particulates))
           (fun e => e <> Read Particulates) (fun _ => True)); try done.
  - intros k v s0 _. exists []. by rewrite app_nil_r.
  - intros im s0. exists []. by rewrite app_nil_r.
  - intros e s0 He. exists [e]. split; [done |]. by constructor.
  - intros x Hx [=]. done.
Qed.

End Dispatch.

(** ** Events of a computation *)

Lemma events_of_app {A} (m : M A) (s : State) (ev : list event) :
  trace (m s).2 = trace s ++ ev -> events_of m s = ev.
Proof. intros E. unfold events_of. rewrite E. apply drop_app_length. Qed.

Lemma frames_app (tr1 tr2 : list event) :
  frames (tr1 ++ tr2) = frames tr1 ++ frames tr2.
Proof. apply omap_app. Qed.

Lemma backlight_commands_app (tr1 tr2 : list event) :
  backlight_commands (tr1 ++ tr2) = backlight_commands tr1 ++ backlight_commands tr2.
Proof. apply omap_app. Qed.

(** ** Smoother and start-up *)

Section Startup.
Context `{Collaborators}.

(** C4. The temperature handler never smooths: whatever the state and the
    readings, it reads the CPU temperature and then raises
    UnboundLocalError at line 192, because [cpu_temps] is a local name
    there; the window of [setup_state] keeps its five zeros, nothing is
    recorded and no frame is drawn. So no call returns K/5, ..., K. *)
Theorem temperature_handler_raises (rd : Readings) (s : State) :
  handle_temperature_mode rd s
  = (Raise (UnboundLocalError "cpu_temps"), set_trace (trace s ++ [Read CpuTemp]) s)
  /\ cpu_temps (handle_temperature_mode rd s).2 = cpu_temps s
  /\ values (handle_temperature_mode rd s).2 = values s
  /\ events_of (handle_temperature_mode rd) s = [Read CpuTemp]
  /\ forall t0 s0,
       cpu_temps (handle_temperature_mode rd (setup t0 s0).2).2 = [0; 0; 0; 0; 0]%Q.
Proof.
  repeat split.
  by apply events_of_app.
Qed.

(** C6. [setup] leaves [values] empty: no variable has a history buffer,
    so the first [display_text] or [save_data] of any variable raises
    KeyError, and so does the first [display_everything]. *)
Theorem setup_leaves_no_buffers (t0 : Q) (s0 : State) :
  values (setup t0 s0).2 = ∅
  /\ (forall variable data unit_,
        (display_text variable data unit_ (setup t0 s0).2).1
        = Raise (KeyError variable))
  /\ (forall idx data,
        (save_data idx data (setup t0 s0).2).1
        = match variables !! idx with
          | Some variable => Raise (KeyError variable)
          | None => Raise IndexError
          end)
  /\ (display_everything (setup t0 s0).2).1 = Raise (KeyError "temperature").
Proof.
  split; [reflexivity |]. split; [| split].
  - intros variable data unit_.
    unfold display_text, bind, getitem_values, get. cbn.
    by rewrite lookup_empty.
  - intros idx data.
    unfold save_data, bind, lift, index.
    destruct (variables !! idx) as [variable |]; [| reflexivity].
    unfold getitem_values, bind, get. cbn.
    by rewrite lookup_empty.
  - unfold display_everything, bind, draw_rectangle, modify. cbn [length variables seq for_each].
    unfold display_everything_cell at 1, bind, lift, index. cbn [variables lookup list_lookup].
    unfold getitem_values, bind, get. cbn.
    by rewrite lookup_empty.
Qed.

(** C8. The all-variables handler renders nothing: whatever the state and
    the readings, it reads the CPU temperature and raises UnboundLocalError
    at line 267 before any other acquisition, record or render, so a pass
    pushes no frame at all. *)
Theorem all_variables_handler_raises (rd : Readings) (s : State) :
  handle_display_everything_mode rd s
  = (Raise (UnboundLocalError "cpu_temps"), set_trace (trace s ++ [Read CpuTemp]) s)
  /\ events_of (handle_display_everything_mode rd) s = [Read CpuTemp]
  /\ frames (events_of (handle_display_everything_mode rd) s) = []
  /\ values (handle_display_everything_mode rd s).2 = values s.
Proof.
  assert (E : events_of (handle_display_everything_mode rd) s = [Read CpuTemp])
    by by apply events_of_app.
  repeat split; try done. by rewrite E.
Qed.

End Startup.

(** ** Loops *)

Lemma for_each_app {A} (body : A -> M NoneType) (l1 l2 : list A) (s : State) :
  for_each body (l1 ++ l2) s
  = match for_each body l1 s with
    | (Ok _, s') => for_each body l2 s'
    | (Raise e, s') => (Raise e, s')
    end.
Proof.
  revert s. induction l1 as [| a l1 IH]; intros s; cbn [app for_each].
  - reflexivity.
  - unfold bind. destruct (body a s) as [[[] | e] s']; [apply IH | reflexivity].
Qed.

Lemma for_each_cons {A} (body : A -> M NoneType) (a : A) (l : list A) (s : State) :
  for_each body (a :: l) s
  = match body a s with
    | (Ok _, s') => for_each body l s'
    | (Raise e, s') => (Raise e, s')
    end.
Proof. reflexivity. Qed.

(** ** BacklightController *)

Ltac run_control :=
  unfold control, backlight_step, backlight_dark, backlight_light, page_step,
    sensor_read, st7735_set_backlight, emit, modify, get, bind, ret, lift, elapsed;
  cbn.

Lemma control_dark_first (rd : Readings) (s : State) (cs : list Q) :
  (rd_lux rd <= 0)%Q ->
  backlight_view s = (On, None, cs) ->
  (control rd s).1 = Ok tt
  /\ backlight_view (control rd s).2 = (On, Some (rd_now rd), cs).
Proof.
  intros Hdark Hv. apply le_true in Hdark.
  destruct s as [vs ct md lp px lx so dm lot lon im tr].
  unfold backlight_view, backlight_state in *. cbn in Hv.
  destruct so, dm; try discriminate Hv. injection Hv as -> <-.
  run_control. rewrite Hdark. cbn.
  destruct (gt (rd_proximity rd) 1500 && gt (rd_check rd - lp) delay); cbn;
    rewrite !backlight_commands_app; cbn; by rewrite !app_nil_r.
Qed.

Lemma control_dark_wait (rd : Readings) (s : State) (t0 : Q) (cs : list Q) :
  (rd_lux rd <= 0)%Q ->
  (rd_now rd - t0 <= dim_delay)%Q ->
  backlight_view s = (On, Some t0, cs) ->
  (control rd s).1 = Ok tt
  /\ backlight_view (control rd s).2 = (On, Some t0, cs).
Proof.
  intros Hdark Hwait Hv. apply le_true in Hdark. apply gt_false in Hwait.
  destruct s as [vs ct md lp px lx so dm lot lon im tr].
  unfold backlight_view, backlight_state in *. cbn in Hv.
  destruct so, dm; try discriminate Hv. injection Hv as -> <-.
  run_control. rewrite Hdark. cbn. rewrite Hwait. cbn.
  destruct (gt (rd_proximity rd) 1500 && gt (rd_check rd - lp) delay); cbn;
    rewrite !backlight_commands_app; cbn; by rewrite !app_nil_r.
Qed.

Lemma control_dark_dim (rd : Readings) (s : State) (t0 : Q) (cs : list Q) :
  (rd_lux rd <= 0)%Q ->
  (dim_delay < rd_now rd - t0)%Q ->
  backlight_view s = (On, Some t0, cs) ->
  (control rd s).1 = Ok tt
  /\ backlight_view (control rd s).2 = (Dimmed, Some t0, cs ++ [0.2%Q]).
Proof.
  intros Hdark Hlate Hv. apply le_true in Hdark. apply gt_true in Hlate.
  destruct s as [vs ct md lp px lx so dm lot lon im tr].
  unfold backlight_view, backlight_state in *. cbn in Hv.
  destruct so, dm; try discriminate Hv. injection Hv as -> <-.
  run_control. rewrite Hdark. cbn. rewrite Hlate. cbn.
  destruct (gt (rd_proximity rd) 1500 && gt (rd_check rd - lp) delay); cbn;
    rewrite !backlight_commands_app; cbn; by rewrite !app_nil_r.
Qed.

Lemma control_dimmed_wait (rd : Readings) (s : State) (t0 : Q) (cs : list Q) :
  (rd_lux rd <= 0)%Q ->
  (rd_now rd - t0 <= dim_delay + off_delay)%Q ->
  backlight_view s = (Dimmed, Some t0, cs) ->
  (control rd s).1 = Ok tt
  /\ backlight_view (control rd s).2 = (Dimmed, Some t0, cs).
Proof.
  intros Hdark Hwait Hv. apply le_true in Hdark. apply gt_false in Hwait.
  destruct s as [vs ct md lp px lx so dm lot lon im tr].
  unfold backlight_view, backlight_state in *. cbn in Hv.
  destruct so, dm; try discriminate Hv. injection Hv as -> <-.
  run_control. rewrite Hdark. cbn. rewrite Hwait. cbn.
  destruct (gt (rd_proximity rd) 1500 && gt (rd_check rd - lp) delay); cbn;
    rewrite !backlight_commands_app; cbn; by rewrite !app_nil_r.
Qed.

Lemma control_dimmed_off (rd : Readings) (s : State) (t0 : Q) (cs : list Q) :
  (rd_lux rd <= 0)%Q ->
  (dim_delay + off_delay < rd_now rd - t0)%Q ->
  backlight_view s = (Dimmed, Some t0, cs) ->
  (control rd s).1 = Ok tt
  /\ backlight_view (control rd s).2 = (Off, None, cs ++ [0%Q]).
Proof.
  intros Hdark Hlate Hv. apply le_true in Hdark. apply gt_true in Hlate.
  destruct s as [vs ct md lp px lx so dm lot lon im tr].
  unfold backlight_view, backlight_state in *. cbn in Hv.
  destruct so, dm; try discriminate Hv. injection Hv as -> <-.
  run_control. rewrite Hdark. cbn. rewrite Hlate. cbn.
  destruct (gt (rd_proximity rd) 1500 && gt (rd_check rd - lp) delay); cbn;
    rewrite !backlight_commands_app; cbn; by rewrite !app_nil_r.
Qed.

Lemma backlight_stage_app (l1 l2 : list Readings) (s : State) :
  (for_each control l1 s).1 = Ok tt ->
  backlight_stage (l1 ++ l2) s = backlight_stage l2 (for_each control l1 s).2.
Proof.
  intros Hok. unfold backlight_stage. rewrite for_each_app.
  destruct (for_each control l1 s) as [[[] | e] s']; [reflexivity | discriminate Hok].
Qed.

Lemma backlight_stage_one (rd : Readings) (s : State) :
  backlight_stage [rd] s = ((control rd s).1, backlight_view (control rd s).2).
Proof.
  unfold backlight_stage. cbn [for_each]. unfold bind.
  by destruct (control rd s) as [[[] | e] s'].
Qed.

Lemma backlight_stage_wait_on (l : list Readings) (s : State) (t0 : Q) (cs : list Q) :
  Forall (fun rd => rd_lux rd <= 0)%Q l ->
  Forall (fun rd => rd_now rd - t0 <= dim_delay)%Q l ->
  backlight_view s = (On, Some t0, cs) ->
  backlight_stage l s = (Ok tt, (On, Some t0, cs)).
Proof.
  revert s. induction l as [| rd l IH]; intros s Hdark Hwait Hv.
  - unfold backlight_stage. cbn. by rewrite Hv.
  - inversion Hdark as [| ? ? Hd Hdl]; subst. inversion Hwait as [| ? ? Hw Hwl]; subst.
    destruct (control_dark_wait rd s t0 cs Hd Hw Hv) as [Hok Hv'].
    change (rd :: l) with ([rd] ++ l). rewrite backlight_stage_app.
    + cbn [for_each]. unfold bind.
      destruct (control rd s) as [[[] | e] s'] eqn:E; [| discriminate Hok].
      cbn. by apply IH.
    + cbn [for_each]. unfold bind.
      by destruct (control rd s) as [[[] | e] s'] eqn:E.
Qed.

Lemma backlight_stage_wait_dimmed (l : list Readings) (s : State) (t0 : Q)
    (cs : list Q) :
  Forall (fun rd => rd_lux rd <= 0)%Q l ->
  Forall (fun rd => rd_now rd - t0 <= dim_delay + off_delay)%Q l ->
  backlight_view s = (Dimmed, Some t0, cs) ->
  backlight_stage l s = (Ok tt, (Dimmed, Some t0, cs)).
Proof.
  revert s. induction l as [| rd l IH]; intros s Hdark Hwait Hv.
  - unfold backlight_stage. cbn. by rewrite Hv.
  - inversion Hdark as [| ? ? Hd Hdl]; subst. inversion Hwait as [| ? ? Hw Hwl]; subst.
    destruct (control_dimmed_wait rd s t0 cs Hd Hw Hv) as [Hok Hv'].
    change (rd :: l) with ([rd] ++ l). rewrite backlight_stage_app.
    + cbn [for_each]. unfold bind.
      destruct (control rd s) as [[[] | e] s'] eqn:E; [| discriminate Hok].
      cbn. by apply IH.
    + cbn [for_each]. unfold bind.
      by destruct (control rd s) as [[[] | e] s'] eqn:E.
Qed.

(** A stage that ended well can be extended by one more iteration. *)
Lemma backlight_stage_snoc (l : list Readings) (rd : Readings) (s : State)
    (v v' : BacklightState * option Q * list Q) :
  backlight_stage l s = (Ok tt, v) ->
  (forall s', backlight_view s' = v ->
     (control rd s').1 = Ok tt /\ backlight_view (control rd s').2 = v') ->
  backlight_stage (l ++ [rd]) s = (Ok tt, v').
Proof.
  intros Hl Hstep. unfold backlight_stage in Hl. injection Hl as Hok Hv.
  rewrite backlight_stage_app by done. rewrite backlight_stage_one.
  destruct (Hstep _ Hv) as [-> ->]. reflexivity.
Qed.

Lemma backlight_stage_extend (l l' : list Readings) (s : State)
    (v v' : BacklightState * option Q * list Q) :
  backlight_stage l s = (Ok tt, v) ->
  (forall s', backlight_view s' = v -> backlight_stage l' s' = (Ok tt, v')) ->
  backlight_stage (l ++ l') s = (Ok tt, v').
Proof.
  intros Hl Hext. unfold backlight_stage in Hl. injection Hl as Hok Hv.
  rewrite backlight_stage_app by done. by apply Hext.
Qed.

(** C2. A run of dark iterations from On with no dark onset recorded: the
    first one only records its time [t0]; iterations whose time is within
    [dim_delay] of [t0] change nothing; the first one later than that dims
    (one command, level 0.2); the following ones within
    [dim_delay + off_delay] of [t0] change nothing; the first one later than
    that switches off (one command, level 0) and clears the onset. With
    iterations at 0, 1 and 3 the screen is still On after the second and
    Dimmed after the third. *)
Theorem backlight_dark_episode (s : State) (rd0 rdk rdm : Readings)
    (pre mid : list Readings) :
  backlight_state s = On ->
  light_off_time s = None ->
  Forall (fun rd => rd_lux rd <= 0)%Q (rd0 :: pre ++ rdk :: mid ++ [rdm]) ->
  Forall (fun rd => rd_now rd - rd_now rd0 <= dim_delay)%Q pre ->
  (dim_delay < rd_now rdk - rd_now rd0)%Q ->
  Forall (fun rd => rd_now rd - rd_now rd0 <= dim_delay + off_delay)%Q mid ->
  (dim_delay + off_delay < rd_now rdm - rd_now rd0)%Q ->
  let cs := backlight_commands (trace s) in
  let t0 := rd_now rd0 in
  backlight_stage [rd0] s = (Ok tt, (On, Some t0, cs))
  /\ backlight_stage ([rd0] ++ pre) s = (Ok tt, (On, Some t0, cs))
  /\ backlight_stage ([rd0] ++ pre ++ [rdk]) s
     = (Ok tt, (Dimmed, Some t0, cs ++ [0.2%Q]))
  /\ backlight_stage (([rd0] ++ pre ++ [rdk]) ++ mid) s
     = (Ok tt, (Dimmed, Some t0, cs ++ [0.2%Q]))
  /\ backlight_stage ((([rd0] ++ pre ++ [rdk]) ++ mid) ++ [rdm]) s
     = (Ok tt, (Off, None, (cs ++ [0.2%Q]) ++ [0%Q]))
  /\ backlight_stage [readings_at 0 0 0; readings_at 1 0 0] s
     = (Ok tt, (On, Some 0%Q, cs))
  /\ backlight_stage [readings_at 0 0 0; readings_at 1 0 0; readings_at 3 0 0] s
     = (Ok tt, (Dimmed, Some 0%Q, cs ++ [0.2%Q])).
Proof.
  intros Hon Hnone Hdark Hpre Hk Hmid Hm cs t0.
  assert (Hv : backlight_view s = (On, None, cs))
    by (unfold backlight_view; by rewrite Hon, Hnone).
  inversion Hdark as [| ? ? Hd0 Hrest]; subst.
  apply Forall_app in Hrest as [Hdpre Hrest].
  inversion Hrest as [| ? ? Hdk Hrest']; subst.
  apply Forall_app in Hrest' as [Hdmid Hdm].
  inversion Hdm as [| ? ? Hdm' _]; subst.
  assert (S1 : backlight_stage [rd0] s = (Ok tt, (On, Some t0, cs))).
  { rewrite backlight_stage_one.
    by destruct (control_dark_first rd0 s cs Hd0 Hv) as [-> ->]. }
  assert (S2 : backlight_stage ([rd0] ++ pre) s = (Ok tt, (On, Some t0, cs))).
  { eapply backlight_stage_extend; [exact S1 |].
    intros s' Hs'. by apply backlight_stage_wait_on. }
  assert (S3 : backlight_stage ([rd0] ++ pre ++ [rdk]) s
               = (Ok tt, (Dimmed, Some t0, cs ++ [0.2%Q]))).
  { rewrite app_assoc. eapply backlight_stage_snoc; [exact S2 |].
    intros s' Hs'. by apply control_dark_dim. }
  assert (S4 : backlight_stage (([rd0] ++ pre ++ [rdk]) ++ mid) s
               = (Ok tt, (Dimmed, Some t0, cs ++ [0.2%Q]))).
  { eapply backlight_stage_extend; [exact S3 |].
    intros s' Hs'. by apply backlight_stage_wait_dimmed. }
  assert (S5 : backlight_stage ((([rd0] ++ pre ++ [rdk]) ++ mid) ++ [rdm]) s
               = (Ok tt, (Off, None, (cs ++ [0.2%Q]) ++ [0%Q]))).
  { eapply backlight_stage_snoc; [exact S4 |].
    intros s' Hs'. by apply (control_dimmed_off rdm s' t0). }
  assert (E1 : backlight_stage [readings_at 0 0 0] s = (Ok tt, (On, Some 0%Q, cs))).
  { rewrite backlight_stage_one.
    by destruct (control_dark_first (readings_at 0 0 0) s cs) as [-> ->]. }
  assert (E2 : backlight_stage ([readings_at 0 0 0] ++ [readings_at 1 0 0]) s
               = (Ok tt, (On, Some 0%Q, cs))).
  { eapply backlight_stage_snoc; [exact E1 |].
    intros s' Hs'. by apply control_dark_wait. }
  assert (E3 : backlight_stage
                 (([readings_at 0 0 0] ++ [readings_at 1 0 0]) ++ [readings_at 3 0 0]) s
               = (Ok tt, (Dimmed, Some 0%Q, cs ++ [0.2%Q]))).
  { eapply backlight_stage_snoc; [exact E2 |].
    intros s' Hs'. by apply control_dark_dim. }
  done.
Qed.

Lemma backlight_dark_episode_witness :
  backlight_stage
    [readings_at 0 0 0; readings_at 1 0 0; readings_at 2 0 0; readings_at 3 0 0;
     readings_at 5 0 0; readings_at 6 0 0; readings_at 7 0 0] (started 0)
  = (Ok tt, (Off, None, [0.2; 0]%Q)).
Proof.
  destruct (backlight_dark_episode (started 0) (readings_at 0 0 0) (readings_at 3 0 0)
              (readings_at 7 0 0) [readings_at 1 0 0; readings_at 2 0 0]
              [readings_at 5 0 0; readings_at 6 0 0]) as (_ & _ & _ & _ & Hoff & _).
  - reflexivity.
  - reflexivity.
  - repeat constructor; by vm_compute.
  - repeat constructor; by vm_compute.
  - by vm_compute.
  - repeat constructor; by vm_compute.
  - by vm_compute.
  - exact Hoff.
Defined.

(** ** PageController *)

Lemma advance_due_true (rd : Readings) (s : State) :
  advance_due rd s = true
  <-> (1500 < rd_proximity rd /\ delay < rd_check rd - last_page s)%Q.
Proof. unfold advance_due. by rewrite andb_true_iff, !gt_true. Qed.

Lemma advance_due_false (rd : Readings) (s : State) :
  advance_due rd s = false
  <-> ~ (1500 < rd_proximity rd /\ delay < rd_check rd - last_page s)%Q.
Proof.
  rewrite <- advance_due_true. destruct (advance_due rd s); split; done.
Qed.

Lemma backlight_step_ok (now : Q) (s : State) :
  backlight_ok s ->
  exists s',
    backlight_step now s = (Ok tt, s')
    /\ backlight_ok s'
    /\ mode s' = mode s /\ last_page s' = last_page s
    /\ proximity s' = proximity s.
Proof.
  intros Hok.
  destruct s as [vs ct md lp px lx so dm lot lon im tr].
  unfold backlight_ok in *. cbn in Hok.
  unfold backlight_step, backlight_dark, backlight_light, st7735_set_backlight,
    emit, modify, get, bind, ret, lift, elapsed. cbn.
  destruct (le lx 0), so, dm; cbn.
  all: try (destruct Hok as [Hso [t Ht]]; [done |]; try discriminate Hso; subst lot).
  all: try destruct lot as [t0 |]; try destruct lon as [t1 |]; cbn.
  all: repeat match goal with
       | |- context [if gt ?a ?b then _ else _] => destruct (gt a b); cbn
       end.
  all: eexists; split; [reflexivity |]; cbn; repeat split; try done;
       try (intros [=]); eauto.
Qed.

Lemma page_step_run (rd : Readings) (s : State) :
  page_step rd s
  = (Ok tt,
     if gt (proximity s) 1500 && gt (rd_check rd - last_page s) delay
     then set_last_page (rd_set rd) (set_mode ((mode s + 1) `mod` 11) s)
     else s).
Proof.
  unfold page_step, bind, get, modify, ret.
  by destruct (gt (proximity s) 1500 && gt (rd_check rd - last_page s) delay).
Qed.

Lemma control_page (rd : Readings) (s : State) :
  backlight_ok s ->
  (control rd s).1 = Ok tt
  /\ backlight_ok (control rd s).2
  /\ mode (control rd s).2
     = (if advance_due rd s then (mode s + 1) `mod` 11 else mode s)
  /\ last_page (control rd s).2
     = (if advance_due rd s then rd_set rd else last_page s).
Proof.
  intros Hok. unfold control, advance_due.
  set (s1 := set_lux (rd_lux rd)
               (set_trace ((trace s ++ [Read Proximity]) ++ [Read Lux])
                  (set_proximity (rd_proximity rd)
                     (set_trace (trace s ++ [Read Proximity]) s)))).
  assert (Hok1 : backlight_ok s1) by exact Hok.
  destruct (backlight_step_ok (rd_now rd) s1 Hok1) as (s2 & E2 & Hok2 & Hm & Hl & Hp).
  assert (E : control rd s = page_step rd s2).
  { change (control rd s)
      with (match backlight_step (rd_now rd) s1 with
            | (Ok _, s') => page_step rd s'
            | (Raise e, s') => (Raise e, s')
            end).
    by rewrite E2. }
  fold (control rd s). rewrite E, page_step_run, Hp, Hl, Hm. cbn.
  destruct (gt (rd_proximity rd) 1500 && gt (rd_check rd - last_page s) delay);
    cbn; (split; [done |]); (split; [exact Hok2 |]); by split.
Qed.

Lemma for_each_invariant {A} (body : A -> M NoneType) (I : State -> Prop)
    (l : list A) (s : State) :
  (forall a s0, I s0 -> I (body a s0).2) -> I s -> I (for_each body l s).2.
Proof.
  intros Hbody. revert s. induction l as [| a l IH]; intros s Hs.
  - exact Hs.
  - rewrite for_each_cons. specialize (Hbody a s Hs).
    destruct (body a s) as [[[] | e] s']; cbn in *; [by apply IH | done].
Qed.

Lemma mod_11_range (m : Z) : 0 <= (m + 1) `mod` 11 <= 10.
Proof. pose proof (Z.mod_pos_bound (m + 1) 11). lia. Qed.

Lemma mod_11_moves (m : Z) : (m + 1) `mod` 11 <> m.
Proof.
  intros E. pose proof (Z.mod_pos_bound (m + 1) 11 ltac:(lia)) as Hb.
  rewrite E in Hb.
  destruct (decide (m = 10)) as [-> | Hne]; [discriminate E |].
  rewrite Z.mod_small in E; lia.
Qed.

Lemma advances_spaced (rds : list Readings) (s : State) :
  backlight_ok s ->
  Forall (fun r => rd_check r <= rd_set r)%Q rds ->
  spaced delay (advances rds s)
  /\ (forall h, head (advances rds s) = Some h -> (delay < h - last_page s)%Q).
Proof.
  revert s. induction rds as [| rd rds IH]; intros s Hok Hclock.
  - split; [exact I | intros h [=]].
  - inversion Hclock as [| ? ? Hrd Hrest]; subst.
    destruct (control_page rd s Hok) as (_ & Hok' & Hmode & Hlast).
    destruct (IH (control rd s).2 Hok' Hrest) as [IHs IHh].
    cbn [advances]. rewrite Hmode, Hlast in *.
    destruct (advance_due rd s) eqn:Edue.
    + apply advance_due_true in Edue as [_ Hdue].
      destruct (Z.eqb_spec ((mode s + 1) `mod` 11) (mode s)) as [E | _];
        [by apply mod_11_moves in E |].
      cbn [app]. split.
      * destruct (advances rds (control rd s).2) as [| b l] eqn:El; [exact I |].
        split; [| exact IHs].
        specialize (IHh b eq_refl). lra.
      * intros h [= <-]. exact Hdue.
    + rewrite Z.eqb_refl. cbn [app]. split; [exact IHs | exact IHh].
Qed.

Section Page.
Context `{Collaborators}.

Lemma tick_page (rd : Readings) (s : State) :
  backlight_ok s ->
  backlight_ok (tick rd s).2
  /\ mode (tick rd s).2
     = (if advance_due rd s then (mode s + 1) `mod` 11 else mode s)
  /\ last_page (tick rd s).2
     = (if advance_due rd s then rd_set rd else last_page s).
Proof.
  intros Hok.
  destruct (control_page rd s Hok) as (Hrun & Hok' & Hmode & Hlast).
  destruct (control rd s) as [[[] | e] s'] eqn:E; [| discriminate Hrun].
  assert (E' : tick rd s = dispatch (mode s') rd s')
    by (unfold tick, bind, get; by rewrite E).
  rewrite E'. cbn in Hok', Hmode, Hlast.
  destruct (dispatch_same_globals (mode s') rd s')
    as (_ & Hm & Hl & _ & _ & Hso & Hdm & Hlot & _).
  rewrite Hm, Hl. split; [| by split].
  unfold backlight_ok. by rewrite Hso, Hdm, Hlot.
Qed.

(** C3. On an iteration of the loop (from a state the loop can be in) the
    page counter becomes [(mode + 1) mod 11] exactly when the proximity
    reading exceeds 1500 and the clock is more than [delay] = 0.5 s past
    [last_page]; otherwise it is unchanged. It stays within 0..10, over any
    number of iterations. Two page turns are always more than 0.5 s apart:
    with a hand held over the sensor for twelve iterations 0.1 s apart the
    page turns at 0.6 s and at 1.2 s only. *)
Theorem page_controller_debounce (s : State) (rd : Readings) (rds : list Readings) :
  backlight_ok s ->
  0 <= mode s <= 10 ->
  Forall (fun r => rd_check r <= rd_set r)%Q rds ->
  let due := (1500 < rd_proximity rd /\ delay < rd_check rd - last_page s)%Q in
  (mode (tick rd s).2 = (mode s + 1) `mod` 11 <-> due)
  /\ (~ due -> mode (tick rd s).2 = mode s)
  /\ 0 <= mode (tick rd s).2 <= 10
  /\ 0 <= mode (for_each tick rds s).2 <= 10
  /\ spaced delay (advances rds s)
  /\ advances (hand_held 12) (started 0) = [0.6; 1.2]%Q.
Proof.
  intros Hok Hrange Hclock due.
  destruct (tick_page rd s Hok) as (_ & Hmode & _).
  split; [| split; [| split; [| split; [| split]]]].
  - rewrite Hmode. destruct (advance_due rd s) eqn:Edue.
    + apply advance_due_true in Edue. by split.
    + apply advance_due_false in Edue. split; [| done].
      intros E. symmetry in E. by apply mod_11_moves in E.
  - intros Hn. rewrite Hmode.
    destruct (advance_due rd s) eqn:Edue; [| done].
    apply advance_due_true in Edue. done.
  - rewrite Hmode. destruct (advance_due rd s); [apply mod_11_range | done].
  - apply (for_each_invariant tick (fun s0 => backlight_ok s0 /\ 0 <= mode s0 <= 10));
      [| done].
    intros rd0 s0 [Hok0 Hr0]. destruct (tick_page rd0 s0 Hok0) as (Hok1 & Hm1 & _).
    split; [done |]. rewrite Hm1.
    destruct (advance_due rd0 s0); [apply mod_11_range | done].
  - by apply advances_spaced.
  - by vm_compute.
Qed.

End Page.

Lemma page_controller_debounce_witness :
  mode (@tick bench (readings_at 0.6 2000 1) (started 0)).2 = 1.
Proof.
  destruct (@page_controller_debounce bench (started 0) (readings_at 0.6 2000 1)
              (hand_held 12)) as [Hturn _].
  - intros [=].
  - cbn. lia.
  - unfold hand_held. cbn [fmap list_fmap seq]. repeat constructor; by vm_compute.
  - apply Hturn. split; by vm_compute.
Defined.

(** ** HistoryBuffer scaling *)

Lemma foldl_min_spec (xs : list Q) (x : Q) :
  let m := foldl (fun m v => if lt v m then v else m) x xs in
  m ∈ x :: xs /\ (m <= x)%Q /\ Forall (fun v => m <= v)%Q xs.
Proof.
  revert x. induction xs as [| y xs IH]; intros x; cbn.
  - split; [left | split; [lra | constructor]].
  - destruct (lt y x) eqn:E; order_facts.
    + destruct (IH y) as (Hin & Hle & Hall). split; [by right |].
      split; [lra |]. constructor; [exact Hle | exact Hall].
    + destruct (IH x) as (Hin & Hle & Hall). split.
      * apply elem_of_cons in Hin as [-> | Hin]; [left | right; by right].
      * split; [exact Hle |]. constructor; [lra | exact Hall].
Qed.

Lemma foldl_max_spec (xs : list Q) (x : Q) :
  let m := foldl (fun m v => if gt v m then v else m) x xs in
  m ∈ x :: xs /\ (x <= m)%Q /\ Forall (fun v => v <= m)%Q xs.
Proof.
  revert x. induction xs as [| y xs IH]; intros x; cbn.
  - split; [left | split; [lra | constructor]].
  - destruct (gt y x) eqn:E; order_facts.
    + destruct (IH y) as (Hin & Hle & Hall). split; [by right |].
      split; [lra |]. constructor; [exact Hle | exact Hall].
    + destruct (IH x) as (Hin & Hle & Hall). split.
      * apply elem_of_cons in Hin as [-> | Hin]; [left | right; by right].
      * split; [exact Hle |]. constructor; [lra | exact Hall].
Qed.

Lemma py_min_spec (l : list Q) :
  l <> [] ->
  exists m, py_min l = Ok m /\ m ∈ l /\ Forall (fun v => m <= v)%Q l.
Proof.
  destruct l as [| x xs]; [done |]. intros _.
  destruct (foldl_min_spec xs x) as (Hin & Hle & Hall).
  eexists. split; [reflexivity |]. split; [exact Hin |].
  constructor; [exact Hle | exact Hall].
Qed.

Lemma py_max_spec (l : list Q) :
  l <> [] ->
  exists m, py_max l = Ok m /\ m ∈ l /\ Forall (fun v => v <= m)%Q l.
Proof.
  destruct l as [| x xs]; [done |]. intros _.
  destruct (foldl_max_spec xs x) as (Hin & Hle & Hall).
  eexists. split; [reflexivity |]. split; [exact Hin |].
  constructor; [exact Hle | exact Hall].
Qed.

Lemma scale_defined (vmin vmax v : Q) :
  (vmin <= vmax)%Q ->
  scale vmin vmax v = Ok ((v - vmin + 1) / (vmax - vmin + 1))%Q.
Proof.
  intros Hle. unfold scale, py_div.
  destruct (Qeq_bool (vmax - vmin + 1) 0) eqn:E; [| reflexivity].
  apply Qeq_bool_eq in E. exfalso. lra.
Qed.

Lemma comprehension_total {A B} (f : A -> result B) (g : A -> B) (l : list A) :
  (forall v, f v = Ok (g v)) -> comprehension f l = Ok (g <$> l).
Proof.
  intros Hf. induction l as [| v l IH]; cbn; [reflexivity |].
  by rewrite Hf, IH.
Qed.

Lemma getitem_values_run (k : string) (s : State) (l : list Q) :
  values s !! k = Some l -> getitem_values k s = (Ok l, s).
Proof. intros E. unfold getitem_values, bind, get. cbn. by rewrite E. Qed.

Lemma getitem_values_missing (k : string) (s : State) :
  values s !! k = None -> getitem_values k s = (Raise (KeyError k), s).
Proof. intros E. unfold getitem_values, bind, get. cbn. by rewrite E. Qed.

Section Scaling.
Context `{Collaborators}.

Lemma display_text_run (variable unit_ : string) (data : Q) (s : State)
    (old : list Q) (vmin vmax : Q) :
  values s !! variable = Some old ->
  py_min (drop 1 old ++ [data]) = Ok vmin ->
  py_max (drop 1 old ++ [data]) = Ok vmax ->
  (vmin <= vmax)%Q ->
  display_text variable data unit_ s
  = display_text_draw (format_message variable data unit_)
      ((fun v => (v - vmin + 1) / (vmax - vmin + 1))%Q <$> (drop 1 old ++ [data]))
      (set_values (<[variable := drop 1 old ++ [data]]> (values s)) s).
Proof.
  intros Hold Hmin Hmax Hle.
  set (cur := drop 1 old ++ [data]) in *.
  set (s1 := set_values (<[variable := cur]> (values s)) s).
  assert (Hcur : getitem_values variable s1 = (Ok cur, s1)).
  { apply getitem_values_run. cbn. apply lookup_insert_eq. }
  unfold display_text.
  unfold bind at 1. rewrite (getitem_values_run _ _ _ Hold).
  unfold bind at 1. unfold setitem_values at 1, modify. fold cur. fold s1.
  unfold bind at 1. rewrite Hcur.
  unfold bind at 1. unfold lift at 1. rewrite Hmin.
  unfold bind at 1. rewrite Hcur.
  unfold bind at 1. unfold lift at 1. rewrite Hmax.
  unfold bind at 1. rewrite Hcur.
  unfold bind at 1. unfold lift at 1.
  rewrite (comprehension_total _ (fun v => (v - vmin + 1) / (vmax - vmin + 1))%Q)
    by (intros v; by apply scale_defined).
  reflexivity.
Qed.

(** C5. [display_text] scales the buffer it has just updated: each value
    [v] becomes [(v - min + 1) / (max - min + 1)], with [min] and [max] the
    least and greatest buffered values; the divisor is never zero, so no
    ZeroDivisionError is raised; when [min == max] every scaled value is 1,
    and the buffer [10, 10, 10, 10, 10] gives [1, 1, 1, 1, 1]. *)
Theorem normalized_series_defined (variable unit_ : string) (data : Q) (s : State)
    (old : list Q) :
  values s !! variable = Some old ->
  let cur := drop 1 old ++ [data] in
  exists vmin vmax,
    py_min cur = Ok vmin /\ py_max cur = Ok vmax
    /\ vmin ∈ cur /\ vmax ∈ cur
    /\ Forall (fun v => vmin <= v <= vmax)%Q cur
    /\ comprehension (scale vmin vmax) cur
       = Ok ((fun v => (v - vmin + 1) / (vmax - vmin + 1))%Q <$> cur)
    /\ display_text variable data unit_ s
       = display_text_draw (format_message variable data unit_)
           ((fun v => (v - vmin + 1) / (vmax - vmin + 1))%Q <$> cur)
           (set_values (<[variable := cur]> (values s)) s)
    /\ (vmin == vmax ->
        Forall (fun c => c == 1)
          ((fun v => (v - vmin + 1) / (vmax - vmin + 1))%Q <$> cur))
    /\ comprehension (scale 10 10) [10; 10; 10; 10; 10]%Q = Ok [1; 1; 1; 1; 1]%Q.
Proof.
  intros Hold cur.
  assert (Hne : cur <> []) by (unfold cur; by destruct (drop 1 old)).
  destruct (py_min_spec cur Hne) as (vmin & Emin & Hinmin & Hmin).
  destruct (py_max_spec cur Hne) as (vmax & Emax & Hinmax & Hmax).
  assert (Hle : (vmin <= vmax)%Q).
  { rewrite Forall_forall in Hmin. by apply Hmin. }
  exists vmin, vmax.
  split; [exact Emin |]. split; [exact Emax |].
  split; [exact Hinmin |]. split; [exact Hinmax |].
  assert (Hboth : Forall (fun v => vmin <= v <= vmax)%Q cur).
  { rewrite Forall_forall in *. intros v Hv. split; [by apply Hmin | by apply Hmax]. }
  split; [exact Hboth |]. split.
  { apply comprehension_total. intros v. by apply scale_defined. }
  split; [by apply display_text_run |]. split; [| by vm_compute].
  intros Heq. rewrite Forall_fmap. eapply Forall_impl; [exact Hboth |].
  intros v [Hlo Hhi]. cbn.
  assert (Hv : v == vmin) by lra.
  rewrite Hv, Heq. field. lra.
Qed.

End Scaling.

Lemma normalized_series_defined_witness :
  exists vmin vmax,
    @display_text bench "pressure" 10 "hPa"
      (set_values {["pressure"%string := [10; 10; 10; 10; 10]%Q]} (started 0))
    = @display_text_draw bench (@format_message bench "pressure" 10 "hPa")
        ((fun v => (v - vmin + 1) / (vmax - vmin + 1))%Q <$> [10; 10; 10; 10; 10]%Q)
        (set_values
           (<["pressure"%string := [10; 10; 10; 10; 10]%Q]>
              {["pressure"%string := [10; 10; 10; 10; 10]%Q]})
           (started 0)).
Proof.
  destruct (@normalized_series_defined bench "pressure" "hPa" 10
              (set_values {["pressure"%string := [10; 10; 10; 10; 10]%Q]} (started 0))
              [10; 10; 10; 10; 10]%Q)
    as (vmin & vmax & _ & _ & _ & _ & _ & _ & Hrun & _).
  - cbn. apply lookup_singleton_eq.
  - exists vmin, vmax. exact Hrun.
Defined.


(** ** Particulate timeouts *)

#[local] Instance same_values_preorder : PreOrder same_values.
Proof.
  split.
  - intros s. reflexivity.
  - intros s1 s2 s3 H12 H23. unfold same_values in *. congruence.
Qed.

Lemma emits_events_of {A} (P : event -> Prop) (m : M A) (s : State) :
  emits P s (m s).2 -> Forall P (events_of m s).
Proof. intros (ev & E & F). by rewrite (events_of_app m s ev E). Qed.

Section ControlKeeps.
Context (R : relation State) `{!PreOrder R}.
Variable okev : event -> Prop.
Hypothesis R_quiet :
  forall s s', values s' = values s -> trace s' = trace s -> R s s'.
Hypothesis R_emit : forall e s, okev e -> R s (set_trace (trace s ++ [e]) s).
Hypothesis okev_proximity : okev (Read Proximity).
Hypothesis okev_lux : okev (Read Lux).
Hypothesis okev_backlight : forall level, okev (SetBacklight level).

Lemma keeps_control (rd : Readings) : keeps R (control rd).
Proof.
  unfold control, backlight_step, backlight_dark, backlight_light, page_step,
    sensor_read, st7735_set_backlight.
  repeat first
    [ by apply R_quiet | by apply R_emit | keeps_step ].
Qed.

End ControlKeeps.

Lemma control_same_values (rd : Readings) (s : State) :
  values (control rd s).2 = values s.
Proof.
  apply (keeps_control same_values (fun _ => True)); try done.
Qed.

Lemma control_emits (rd : Readings) (s : State) :
  emits (fun e => e <> Read Particulates /\ ~ is_frame e) s (control rd s).2.
Proof.
  apply (keeps_control (emits (fun e => e <> Read Particulates /\ ~ is_frame e))
           (fun e => e <> Read Particulates /\ ~ is_frame e)).
  - intros s0 s' _ Ht. exists []. by rewrite app_nil_r.
  - intros e s0 He. exists [e]. split; [done |]. by constructor.
  - split; [done |]. by intros [f [=]].
  - split; [done |]. by intros [f [=]].
  - intros level. split; [done |]. by intros [f [=]].
Qed.

Section PmsTimeout.
Context `{Collaborators}.

Lemma pm_handler_timeout (m : Z) (rd : Readings) (s : State) :
  is_timeout (rd_pms rd) ->
  m = 7 \/ m = 8 \/ m = 9 ->
  dispatch m rd s
  = (Ok tt,
     set_trace ((trace s ++ [Read Particulates])
                ++ [LogWarning "Failed to read PMS5003"]) s).
Proof.
  intros Hto [-> | [-> | ->]]; cbn [dispatch];
    unfold handle_pm1_mode, handle_pm25_mode, handle_pm10_mode, try_except_else,
      pms5003_read, bind, emit, lift, logging_warning;
    by destruct Hto as [-> | ->].
Qed.

Lemma tick_run (rd : Readings) (s : State) :
  tick rd s
  = match control rd s with
    | (Ok _, s') => dispatch (mode s') rd s'
    | (Raise e, s') => (Raise e, s')
    end.
Proof. reflexivity. Qed.

(** C7. When an iteration reads the particulate sensor and the read times
    out (either of the two caught exceptions), the iteration returns
    normally, the history buffers are exactly as before, the warning is
    logged, no frame is pushed, and the loop goes on with the next
    iteration. *)
Theorem particulate_timeout_skips (rd : Readings) (s : State) :
  is_timeout (rd_pms rd) ->
  Read Particulates ∈ events_of (tick rd) s ->
  (tick rd s).1 = Ok tt
  /\ values (tick rd s).2 = values s
  /\ LogWarning "Failed to read PMS5003" ∈ events_of (tick rd) s
  /\ frames (events_of (tick rd) s) = []
  /\ forall rest, for_each tick (rd :: rest) s = for_each tick rest (tick rd s).2.
Proof.
  intros Hto Hread.
  assert (Hnext : (tick rd s).1 = Ok tt ->
            forall rest, for_each tick (rd :: rest) s = for_each tick rest (tick rd s).2).
  { intros Hok rest. rewrite for_each_cons.
    destruct (tick rd s) as [[[] | e] s']; [reflexivity | discriminate Hok]. }
  revert Hnext. generalize (for_each tick). intros loop Hnext.
  pose proof (control_same_values rd s) as Hvals.
  destruct (control_emits rd s) as (ev & Etr & Hev).
  rewrite tick_run in *.
  destruct (control rd s) as [[[] | e] s'] eqn:Ec; cbn in Hvals, Etr.
  - destruct (decide (mode s' = 7 \/ mode s' = 8 \/ mode s' = 9)) as [Hpm | Hother].
    + rewrite (pm_handler_timeout _ rd s' Hto Hpm) in *. cbn.
      assert (Eev : events_of (tick rd) s
                    = ev ++ [Read Particulates; LogWarning "Failed to read PMS5003"]).
      { apply events_of_app. rewrite tick_run, Ec, (pm_handler_timeout _ rd s' Hto Hpm).
        cbn. rewrite Etr. by rewrite <- !app_assoc. }
      split; [done |]. split; [done |]. split; [| split].
      * rewrite Eev. apply elem_of_app. right. right. left.
      * rewrite Eev, frames_app. cbn. rewrite app_nil_r.
        clear -Hev. induction Hev as [| x l [_ Hx] _ IH]; [done |].
        cbn -[frames]. unfold frames in *. cbn.
        destruct x; try done. exfalso. apply Hx. by eexists.
      * by apply Hnext.
    + exfalso.
      destruct (dispatch_other_reads (mode s') rd s') as (ev' & Etr' & Hev');
        [tauto | tauto | tauto |].
      assert (Eev : events_of (tick rd) s = ev ++ ev').
      { apply events_of_app. rewrite tick_run, Ec, Etr', Etr. by rewrite app_assoc. }
      rewrite Eev in Hread. apply elem_of_app in Hread as [Hin | Hin].
      * rewrite Forall_forall in Hev. by destruct (Hev _ Hin).
      * rewrite Forall_forall in Hev'. by apply (Hev' _ Hin).
  - exfalso.
    assert (Eev : events_of (tick rd) s = ev).
    { apply events_of_app. by rewrite tick_run, Ec. }
    rewrite Eev in Hread. rewrite Forall_forall in Hev. by destruct (Hev _ Hread).
Qed.

End PmsTimeout.

Lemma particulate_timeout_skips_witness :
  values (@tick bench (readings_at 1 0 1) (set_mode 7 (started 0))).2
  = values (set_mode 7 (started 0)).
Proof.
  destruct (@particulate_timeout_skips bench (readings_at 1 0 1) (set_mode 7 (started 0)))
    as (_ & Hvalues & _).
  - right. reflexivity.
  - assert (E : events_of (@tick bench (readings_at 1 0 1)) (set_mode 7 (started 0))
                = [Read Proximity; Read Lux; Read Particulates;
                   LogWarning "Failed to read PMS5003"])
      by (vm_compute; reflexivity).
    rewrite E. right. right. left.
  - exact Hvalues.
Defined.

(** ** Frames *)

Section Frames.
Context `{Collaborators}.

Lemma snapshot_ext (im1 im2 : image) :
  same_pixels im1 im2 -> snapshot im1 = snapshot im2.
Proof.
  intros Hsame. unfold snapshot.
  apply list_fmap_ext. intros i y Hy.
  apply lookup_seqZ in Hy as [-> Hi].
  apply list_fmap_ext. intros j x Hx.
  apply lookup_seqZ in Hx as [-> Hj].
  apply Hsame; lia.
Qed.

Lemma same_pixels_clear (fill : rgb) (im1 im2 : image) :
  same_pixels (paint_rectangle 0 0 WIDTH HEIGHT fill im1)
    (paint_rectangle 0 0 WIDTH HEIGHT fill im2).
Proof.
  intros x y Hx Hy. unfold paint_rectangle, in_rect.
  replace (0 <=? x) with true by (symmetry; apply Z.leb_le; lia).
  replace (x <=? WIDTH) with true by (symmetry; apply Z.leb_le; lia).
  replace (0 <=? y) with true by (symmetry; apply Z.leb_le; lia).
  replace (y <=? HEIGHT) with true by (symmetry; apply Z.leb_le; lia).
  reflexivity.
Qed.

Lemma same_pixels_rectangle (x0 y0 x1 y1 : Z) (fill : rgb) (im1 im2 : image) :
  same_pixels im1 im2 ->
  same_pixels (paint_rectangle x0 y0 x1 y1 fill im1)
    (paint_rectangle x0 y0 x1 y1 fill im2).
Proof.
  intros Hsame x y Hx Hy. unfold paint_rectangle.
  destruct (in_rect x0 y0 x1 y1 x y); [reflexivity | by apply Hsame].
Qed.

Lemma same_pixels_text (xy : Q * Q) (message : string) (f : fontsel) (fill : rgb)
    (im1 im2 : image) :
  same_pixels im1 im2 ->
  same_pixels (paint_text xy message f fill im1) (paint_text xy message f fill im2).
Proof.
  intros Hsame x y Hx Hy. unfold paint_text. by rewrite (Hsame x y Hx Hy).
Qed.

Lemma same_pixels_columns (colours : list Q) (i : Z) (im1 im2 : image) :
  same_pixels im1 im2 ->
  same_pixels (paint_columns i colours im1) (paint_columns i colours im2).
Proof.
  revert i im1 im2. induction colours as [| c rest IH]; intros i im1 im2 Hsame.
  - exact Hsame.
  - cbn [paint_columns]. apply IH. by do 2 apply same_pixels_rectangle.
Qed.

Lemma page_image_same (message : string) (colours : list Q) (im1 im2 : image) :
  snapshot (page_image message colours im1) = snapshot (page_image message colours im2).
Proof.
  apply snapshot_ext. unfold page_image.
  apply same_pixels_text, same_pixels_columns, same_pixels_clear.
Qed.

Lemma draw_columns_run (colours : list Q) (i : Z) (s : State) :
  draw_columns i colours s = (Ok tt, set_img (paint_columns i colours (img s)) s).
Proof.
  revert i s. induction colours as [| c rest IH]; intros i s.
  - by destruct s.
  - cbn [draw_columns paint_columns]. unfold bind, draw_rectangle, modify.
    by rewrite IH.
Qed.

Lemma display_text_draw_run (message : string) (colours : list Q) (s : State) :
  display_text_draw message colours s
  = (Ok tt,
     set_trace ((trace s ++ [LogInfo message])
                ++ [Frame (snapshot (page_image message colours (img s)))])
       (set_img (page_image message colours (img s)) s)).
Proof.
  unfold display_text_draw, bind, logging_info, emit, draw_rectangle, modify.
  rewrite draw_columns_run. reflexivity.
Qed.

(** What [display_text] does in full, by whether the buffer exists. *)
Lemma display_text_outcome (variable unit_ : string) (data : Q) (s : State) :
  match values s !! variable with
  | None =>
      display_text variable data unit_ s = (Raise (KeyError variable), s)
  | Some old =>
      exists colours,
        scaled_series old data = Some colours
        /\ display_text variable data unit_ s
           = display_text_draw (format_message variable data unit_) colours
               (set_values (<[variable := drop 1 old ++ [data]]> (values s)) s)
  end.
Proof.
  destruct (values s !! variable) as [old |] eqn:E.
  - assert (Hne : drop 1 old ++ [data] <> []) by by destruct (drop 1 old).
    destruct (py_min_spec _ Hne) as (vmin & Emin & Hinmin & Hmin).
    destruct (py_max_spec _ Hne) as (vmax & Emax & Hinmax & Hmax).
    assert (Hle : (vmin <= vmax)%Q) by (rewrite Forall_forall in Hmin; by apply Hmin).
    eexists. split; [| by apply (display_text_run _ _ _ _ _ vmin vmax)].
    unfold scaled_series. rewrite Emin, Emax.
    rewrite (comprehension_total _ (fun v => (v - vmin + 1) / (vmax - vmin + 1))%Q)
      by (intros v; by apply scale_defined).
    reflexivity.
  - unfold display_text, bind. by rewrite (getitem_values_missing _ _ E).
Qed.

End Frames.

Section Repeat.
Context `{Collaborators}.

Lemma display_everything_cell_twin (i : nat) (s1 s2 : State) :
  twin s1 s2 ->
  (display_everything_cell i s1).1 = (display_everything_cell i s2).1
  /\ twin (display_everything_cell i s1).2 (display_everything_cell i s2).2
  /\ trace (display_everything_cell i s1).2 = trace s1
  /\ trace (display_everything_cell i s2).2 = trace s2
  /\ values (display_everything_cell i s1).2 = values s1.
Proof.
  intros [Hv Hp].
  unfold display_everything_cell, bind, lift, getitem_values, get, draw_text,
    modify, ret, raise.
  destruct (index variables i) as [variable | e]; cbn -[classify]; [| by repeat split].
  rewrite Hv.
  destruct (values s2 !! variable) as [hist |]; cbn -[classify]; [| by repeat split].
  destruct (index_last hist) as [data_value | e]; cbn -[classify]; [| by repeat split].
  destruct (index units i) as [unit_ | e]; cbn -[classify]; [| by repeat split].
  destruct (index limits i) as [lim | e]; cbn -[classify]; [| by repeat split].
  destruct (classify data_value lim) as [colour | e]; cbn -[classify]; [| by repeat split].
  repeat split; try done. cbn. by apply same_pixels_text.
Qed.

Lemma display_everything_cells_twin (l : list nat) (s1 s2 : State) :
  twin s1 s2 ->
  (for_each display_everything_cell l s1).1 = (for_each display_everything_cell l s2).1
  /\ twin (for_each display_everything_cell l s1).2 (for_each display_everything_cell l s2).2
  /\ trace (for_each display_everything_cell l s1).2 = trace s1
  /\ trace (for_each display_everything_cell l s2).2 = trace s2
  /\ values (for_each display_everything_cell l s1).2 = values s1.
Proof.
  revert s1 s2. induction l as [| i l IH]; intros s1 s2 Htwin.
  - by cbn.
  - rewrite !for_each_cons.
    destruct (display_everything_cell_twin i s1 s2 Htwin) as (Hr & Ht & Ht1 & Ht2 & Hv1).
    destruct (display_everything_cell i s1) as [[[] | e1] s1'];
      destruct (display_everything_cell i s2) as [[[] | e2] s2'];
      cbn in *; try discriminate Hr; [| done].
    destruct (IH s1' s2' Ht) as (Hr' & Ht' & Ht1' & Ht2' & Hv1').
    rewrite Ht1', Ht2', Hv1', Ht1, Ht2, Hv1. done.
Qed.

Lemma display_everything_run (s : State) :
  display_everything s
  = match for_each display_everything_cell (seq 0 (length variables))
            (set_img (paint_rectangle 0 0 WIDTH HEIGHT (0, 0, 0) (img s)) s) with
    | (Ok _, s') => (Ok tt, set_trace (trace s' ++ [Frame (snapshot (img s'))]) s')
    | (Raise e, s') => (Raise e, s')
    end.
Proof. reflexivity. Qed.

(** From states with the same histories [display_everything] does the
    same: same outcome, same events; it pushes one frame when it returns
    and none when it raises, and leaves the histories alone. *)
Lemma display_everything_twin (s1 s2 : State) :
  values s1 = values s2 ->
  exists ev,
    (display_everything s1).1 = (display_everything s2).1
    /\ trace (display_everything s1).2 = trace s1 ++ ev
    /\ trace (display_everything s2).2 = trace s2 ++ ev
    /\ values (display_everything s1).2 = values s1
    /\ (((display_everything s1).1 = Ok tt /\ exists f, ev = [Frame f])
        \/ ((display_everything s1).1 <> Ok tt /\ ev = [])).
Proof.
  intros Hv. rewrite !display_everything_run.
  set (c1 := set_img (paint_rectangle 0 0 WIDTH HEIGHT (0, 0, 0) (img s1)) s1).
  set (c2 := set_img (paint_rectangle 0 0 WIDTH HEIGHT (0, 0, 0) (img s2)) s2).
  assert (Htwin : twin c1 c2) by (split; [exact Hv | apply same_pixels_clear]).
  destruct (display_everything_cells_twin (seq 0 (length variables)) c1 c2 Htwin)
    as (Hr & [Hv' Hp'] & Ht1 & Ht2 & Hv1).
  destruct (for_each display_everything_cell (seq 0 (length variables)) c1)
    as [[[] | e1] s1'];
    destruct (for_each display_everything_cell (seq 0 (length variables)) c2)
      as [[[] | e2] s2'];
    cbn in *; try discriminate Hr.
  - exists [Frame (snapshot (img s1'))].
    rewrite Ht1, Ht2, (snapshot_ext _ _ Hp'). repeat split; try done.
    left. split; [done |]. by eexists.
  - exists []. rewrite !app_nil_r. repeat split; try done. by right.
Qed.

(** The same for [display_text], given the same value to record. *)
Lemma display_text_twin (variable unit_ : string) (data : Q) (s1 s2 : State) :
  values s1 = values s2 ->
  exists ev,
    (display_text variable data unit_ s1).1 = (display_text variable data unit_ s2).1
    /\ trace (display_text variable data unit_ s1).2 = trace s1 ++ ev
    /\ trace (display_text variable data unit_ s2).2 = trace s2 ++ ev
    /\ (is_Some (values s1 !! variable) -> exists msg f, ev = [LogInfo msg; Frame f]).
Proof.
  intros Hv.
  pose proof (display_text_outcome variable unit_ data s1) as H1.
  pose proof (display_text_outcome variable unit_ data s2) as H2.
  rewrite <- Hv in H2.
  destruct (values s1 !! variable) as [old |].
  - destruct H1 as (c1 & Ec1 & ->). destruct H2 as (c2 & Ec2 & ->).
    assert (c2 = c1) as -> by congruence.
    rewrite !display_text_draw_run. cbn.
    eexists. split; [done |]. split; [by rewrite <- app_assoc |].
    split; [| by eauto].
    rewrite <- app_assoc. cbn.
    by rewrite (page_image_same _ _ (img s2) (img s1)).
  - rewrite H1, H2. exists []. rewrite !app_nil_r. by repeat split.
Qed.

(** C9. A page drawn again from the same data is the same frame: from any
    two states with the same histories (whatever is on the canvas, as after
    a previous render) [display_text] with the same value, and
    [display_everything], have the same outcome and add the same events,
    frame included. [display_everything] leaves the histories alone, so two
    calls in a row push the same frame twice. *)
Theorem rendering_repeatable (s1 s2 : State) (variable unit_ : string) (data : Q) :
  values s1 = values s2 ->
  (display_text variable data unit_ s1).1 = (display_text variable data unit_ s2).1
  /\ events_of (display_text variable data unit_) s1
     = events_of (display_text variable data unit_) s2
  /\ (is_Some (values s1 !! variable) ->
      exists f, frames (events_of (display_text variable data unit_) s1) = [f])
  /\ (display_everything s1).1 = (display_everything s2).1
  /\ events_of display_everything s1 = events_of display_everything s2
  /\ values (display_everything s1).2 = values s1
  /\ ((display_everything s1).1 = Ok tt ->
      exists f,
        frames (events_of (display_everything ;;; display_everything) s1) = [f; f]).
Proof.
  intros Hv.
  destruct (display_text_twin variable unit_ data s1 s2 Hv) as (ev & Hr & E1 & E2 & Hone).
  destruct (display_everything_twin s1 s2 Hv) as (ev' & Hr' & E1' & E2' & Hv' & Hcase).
  split; [exact Hr |]. split.
  { by rewrite (events_of_app _ _ _ E1), (events_of_app _ _ _ E2). }
  split.
  { intros Hsome. destruct (Hone Hsome) as (msg & f & ->).
    exists f. by rewrite (events_of_app _ _ _ E1). }
  split; [exact Hr' |]. split.
  { by rewrite (events_of_app _ _ _ E1'), (events_of_app _ _ _ E2'). }
  split; [exact Hv' |].
  intros Hok. destruct Hcase as [[_ [f ->]] | [Hbad _]]; [| done].
  exists f.
  destruct (display_everything_twin (display_everything s1).2 s1 Hv')
    as (ev2 & Hr2 & F1 & F2 & _ & _).
  assert (ev2 = [Frame f]) as ->.
  { rewrite E1' in F2. by apply app_inv_head in F2. }
  assert (Etr : trace ((display_everything ;;; display_everything) s1).2
                = trace s1 ++ [Frame f; Frame f]).
  { unfold bind. destruct (display_everything s1) as [[[] | e] s'] eqn:Es;
      [| discriminate Hok].
    cbn in *. rewrite F1, E1'. by rewrite <- app_assoc. }
  by rewrite (events_of_app _ _ _ Etr).
Qed.

End Repeat.

(** ** Running a handler step by step *)

Lemma holds_bind {A B} (m : M A) (k : A -> M B) (s : State)
    (post : result B -> State -> Prop) :
  holds m s (fun r s' =>
    match r with
    | Ok a => holds (k a) s' post
    | Raise e => post (Raise e) s'
    end) ->
  holds (bind m k) s post.
Proof.
  unfold holds, bind. by destruct (m s) as [[a | e] s'].
Qed.

Lemma holds_keeps {A} (R : relation State) (m : M A) (s : State)
    (post : result A -> State -> Prop) :
  keeps R m -> (forall r s', R s s' -> post r s') -> holds m s post.
Proof. intros Hk HQ. apply HQ, Hk. Qed.

Lemma holds_bind_keeps {A B} (R : relation State) (m : M A) (k : A -> M B)
    (s : State) (post : result B -> State -> Prop) :
  keeps R m ->
  (forall a s', R s s' -> holds (k a) s' post) ->
  (forall e s', R s s' -> post (Raise e) s') ->
  holds (bind m k) s post.
Proof.
  intros Hk Hok Hraise. apply holds_bind. apply (holds_keeps R); [exact Hk |].
  intros [a | e] s' HR; [by apply Hok | by apply Hraise].
Qed.

(** ** The light sample *)

#[local] Instance light_kept_preorder : PreOrder light_kept.
Proof.
  split.
  - intros s. repeat split. reflexivity.
  - intros s1 s2 s3 (Hp & Hl & He) (Hp' & Hl' & He'). split; [congruence |].
    split; [congruence |]. by etransitivity.
Qed.

Lemma emits_quiet (P : event -> Prop) (s s' : State) :
  trace s' = trace s -> emits P s s'.
Proof. intros E. exists []. by rewrite app_nil_r. Qed.

Section Light.
Context `{Collaborators}.

Lemma light_kept_values (k : string) (v : list Q) (s : State) :
  k <> "light"%string -> light_kept s (set_values (<[k:=v]> (values s)) s).
Proof.
  intros Hk. split; [done |]. split; [by apply lookup_insert_ne |].
  by apply emits_quiet.
Qed.

Lemma light_kept_img (im : image) (s : State) : light_kept s (set_img im s).
Proof. repeat split. by apply emits_quiet. Qed.

Lemma light_kept_emit (e : event) (s : State) :
  e <> Read Lux -> light_kept s (set_trace (trace s ++ [e]) s).
Proof.
  intros He. repeat split. exists [e]. split; [done |]. by constructor.
Qed.

Lemma keeps_light_save_data (idx : nat) (data : Q) :
  idx <> 3%nat -> keeps light_kept (save_data idx data).
Proof.
  intros Hidx.
  apply (keeps_save_data light_kept (fun e => e <> Read Lux)
           (fun k => k <> "light"%string));
    auto using light_kept_values, light_kept_emit.
  intros variable Hv.
  destruct idx as [| [| [| [| [| [| [| [| [| [| idx]]]]]]]]]]; try done;
    cbn in Hv; by injection Hv as <-.
Qed.

Lemma keeps_light_display_everything : keeps light_kept display_everything.
Proof.
  apply (keeps_display_everything light_kept (fun e => e <> Read Lux));
    auto using light_kept_img, light_kept_emit.
Qed.

Lemma keeps_light_sensor_read {A} (which : sensor) (answer : A) :
  which <> Lux -> keeps light_kept (sensor_read which answer).
Proof.
  intros Hw.
  apply (keeps_sensor_read light_kept (fun e => e <> Read Lux));
    auto using light_kept_emit. by intros [=].
Qed.

Lemma keeps_light_compensated (cpu_temps0 : list Q) (cpu_temp : Q) (rd : Readings) :
  keeps light_kept (compensated cpu_temps0 cpu_temp rd).
Proof.
  unfold compensated, bme280_get_temperature.
  repeat first [ by apply keeps_light_sensor_read | keeps_step ].
Qed.

Lemma save_data_run (idx : nat) (data : Q) (s : State) (variable unit_ : string)
    (old : list Q) :
  variables !! idx = Some variable ->
  units !! idx = Some unit_ ->
  values s !! variable = Some old ->
  save_data idx data s
  = (Ok tt,
     set_trace (trace s ++ [LogInfo (format_message variable data unit_)])
       (set_values (<[variable := drop 1 old ++ [data]]> (values s)) s)).
Proof.
  intros Hv Hu Hold. unfold save_data, bind, lift, index. rewrite Hv.
  rewrite (getitem_values_run _ _ _ Hold). by rewrite Hu.
Qed.

(** The rest of the all-variables body after the light sample is saved. *)
Lemma keeps_light_after (rd : Readings) :
  keeps light_kept
    (display_everything ;;;
     gas_data <~ gas_read_all rd ;;
     save_data 4 (gas_data.1.1 / 1000)%Q ;;;
     save_data 5 (gas_data.1.2 / 1000)%Q ;;;
     save_data 6 (gas_data.2 / 1000)%Q ;;;
     display_everything ;;;
     try_except_else (pms5003_read rd) pms_timeout
       (logging_warning "Failed to read PMS5003")
       (fun pms_data =>
          save_data 7 pms_data.1.1 ;;;
          save_data 8 pms_data.1.2 ;;;
          save_data 9 pms_data.2 ;;;
          display_everything)).
Proof.
  unfold gas_read_all, pms5003_read, logging_warning.
  repeat first
    [ apply keeps_light_display_everything
    | by apply keeps_light_save_data
    | by apply keeps_light_sensor_read
    | by apply light_kept_emit
    | keeps_step ].
Qed.

Lemma body_light (cpu_temps0 : list Q) (cpu_temp : Q) (rd : Readings) (s : State)
    (old : list Q) :
  values s !! "light"%string = Some old ->
  let sample := if lt (proximity s) 10 then rd_lux_page rd else 1%Q in
  holds (handle_display_everything_mode_from cpu_temps0 cpu_temp rd) s
    (fun r s' =>
       (r = Ok tt -> values s' !! "light"%string = Some (drop 1 old ++ [sample]))
       /\ (values s' !! "light"%string = Some old
           \/ values s' !! "light"%string = Some (drop 1 old ++ [sample]))
       /\ (lt (proximity s) 10 = false -> emits (fun e => e <> Read Lux) s s')).
Proof.
  intros Hold sample.
  assert (Hsample : sample = if lt (proximity s) 10 then rd_lux_page rd else 1%Q)
    by reflexivity.
  clearbody sample.
  set (Post := fun (r : result NoneType) (s' : State) =>
       (r = Ok tt -> values s' !! "light"%string = Some (drop 1 old ++ [sample]))
       /\ (values s' !! "light"%string = Some old
           \/ values s' !! "light"%string = Some (drop 1 old ++ [sample]))
       /\ (lt (proximity s) 10 = false -> emits (fun e => e <> Read Lux) s s')).
  assert (QA : forall e s', light_kept s s' -> Post (Raise e) s').
  { intros e s' (Hp & Hl & He). split; [done |]. split; [left; congruence | done]. }
  unfold handle_display_everything_mode_from, bme280_get_pressure, bme280_get_humidity.
  apply (holds_bind_keeps light_kept); [apply keeps_light_compensated | | exact QA].
  intros raw0 s1 K1.
  apply (holds_bind_keeps light_kept); [by apply keeps_light_save_data | | ].
  2: { intros e s' K. apply QA. by etransitivity. }
  intros _ s2 K2. assert (K2' : light_kept s s2) by by etransitivity.
  apply (holds_bind_keeps light_kept); [apply keeps_light_display_everything | | ].
  2: { intros e s' K. apply QA. by etransitivity. }
  intros _ s3 K3. assert (K3' : light_kept s s3) by by etransitivity.
  apply (holds_bind_keeps light_kept); [by apply keeps_light_sensor_read | | ].
  2: { intros e s' K. apply QA. by etransitivity. }
  intros raw1 s4 K4. assert (K4' : light_kept s s4) by by etransitivity.
  apply (holds_bind_keeps light_kept); [by apply keeps_light_save_data | | ].
  2: { intros e s' K. apply QA. by etransitivity. }
  intros _ s5 K5. assert (K5' : light_kept s s5) by by etransitivity.
  apply (holds_bind_keeps light_kept); [apply keeps_light_display_everything | | ].
  2: { intros e s' K. apply QA. by etransitivity. }
  intros _ s6 K6. assert (K6' : light_kept s s6) by by etransitivity.
  apply (holds_bind_keeps light_kept); [by apply keeps_light_sensor_read | | ].
  2: { intros e s' K. apply QA. by etransitivity. }
  intros raw2 s7 K7. assert (K7' : light_kept s s7) by by etransitivity.
  apply (holds_bind_keeps light_kept); [by apply keeps_light_save_data | | ].
  2: { intros e s' K. apply QA. by etransitivity. }
  intros _ s8 K8. assert (K8' : light_kept s s8) by by etransitivity.
  destruct K8' as (Hp8 & Hl8 & He8). rewrite Hold in Hl8.
  apply holds_bind. unfold holds at 1, get. cbn [fst snd].
  rewrite Hp8.
  assert (QC : forall s9, values s9 !! "light"%string = Some old ->
             (lt (proximity s) 10 = false -> emits (fun e => e <> Read Lux) s s9) ->
             holds (save_data 3 sample ;;;
                    display_everything ;;;
                    gas_data <~ gas_read_all rd ;;
                    save_data 4 (gas_data.1.1 / 1000)%Q ;;;
                    save_data 5 (gas_data.1.2 / 1000)%Q ;;;
                    save_data 6 (gas_data.2 / 1000)%Q ;;;
                    display_everything ;;;
                    try_except_else (pms5003_read rd) pms_timeout
                      (logging_warning "Failed to read PMS5003")
                      (fun pms_data =>
                         save_data 7 pms_data.1.1 ;;;
                         save_data 8 pms_data.1.2 ;;;
                         save_data 9 pms_data.2 ;;;
                         display_everything)) s9 Post).
  { intros s9 Hl9 He9. apply holds_bind. unfold holds at 1.
    rewrite (save_data_run 3 sample s9 "light" "Lux" old) by done. cbn [fst snd].
    apply (holds_keeps light_kept); [apply keeps_light_after |].
    intros r s' (Hp & Hl & He). cbn in Hl. rewrite lookup_insert_eq in Hl.
    split; [done |]. split; [by right |].
    intros Hfar. etransitivity; [by apply He9 |].
    etransitivity; [| exact He].
    exists [LogInfo (format_message "light" sample "Lux")].
    split; [done |]. by constructor. }
  destruct (lt (proximity s) 10) eqn:Enear; subst sample.
  - apply holds_bind. unfold holds at 1, ltr559_get_lux_page, sensor_read, bind, emit, ret.
    cbn [fst snd]. apply QC; [exact Hl8 | done].
  - apply holds_bind. unfold holds at 1, ret. cbn [fst snd].
    apply QC; [exact Hl8 | done].
Qed.

Lemma display_text_recorded (variable unit_ : string) (data : Q) (s : State)
    (old : list Q) :
  values s !! variable = Some old ->
  exists f,
    (display_text variable data unit_ s).1 = Ok tt
    /\ values (display_text variable data unit_ s).2 !! variable
       = Some (drop 1 old ++ [data])
    /\ trace (display_text variable data unit_ s).2
       = trace s ++ [LogInfo (format_message variable data unit_); Frame f].
Proof.
  intros Hold.
  pose proof (display_text_outcome variable unit_ data s) as Hrun.
  rewrite Hold in Hrun. destruct Hrun as (colours & _ & ->).
  rewrite display_text_draw_run. cbn. eexists.
  split; [done |]. split; [apply lookup_insert_eq |]. by rewrite <- app_assoc.
Qed.

Lemma page_light (rd : Readings) (s : State) (old : list Q) :
  values s !! "light"%string = Some old ->
  let sample := if lt (proximity s) 10 then rd_lux_page rd else 1%Q in
  exists f,
    (handle_light_mode rd s).1 = Ok tt
    /\ values (handle_light_mode rd s).2 !! "light"%string
       = Some (drop 1 old ++ [sample])
    /\ events_of (handle_light_mode rd) s
       = (if lt (proximity s) 10 then [Read Lux] else [])
         ++ [LogInfo (format_message "light" sample "Lux"); Frame f].
Proof.
  intros Hold sample. subst sample.
  unfold handle_light_mode.
  destruct (lt (proximity s) 10) eqn:Enear.
  - set (s0 := set_trace (trace s ++ [Read Lux]) s).
    assert (E : handle_light_mode rd s = display_text "light" (rd_lux_page rd) "Lux" s0).
    { unfold handle_light_mode, bind at 1, get. cbn [fst snd]. by rewrite Enear. }
    fold (handle_light_mode rd). rewrite E.
    destruct (display_text_recorded "light" "Lux" (rd_lux_page rd) s0 old Hold)
      as (f & Hok & Hval & Htr).
    exists f. split; [exact Hok |]. split; [exact Hval |].
    apply events_of_app. rewrite E, Htr. cbn. by rewrite <- app_assoc.
  - assert (E : handle_light_mode rd s = display_text "light" 1 "Lux" s).
    { unfold handle_light_mode, bind at 1, get. cbn [fst snd]. by rewrite Enear. }
    fold (handle_light_mode rd). rewrite E.
    destruct (display_text_recorded "light" "Lux" 1 s old Hold)
      as (f & Hok & Hval & Htr).
    exists f. split; [exact Hok |]. split; [exact Hval |].
    apply events_of_app. by rewrite E, Htr.
Qed.

(** C10. Where the light variable is sampled, a proximity of 10 or more
    makes the recorded and displayed value the constant 1 and the lux
    sensor is not read; below 10 the value is the lux reading. This holds
    on the light page and in the body of the all-variables handler (lines
    267-298, run with any value for [cpu_temps]): what that body records
    for light, if it gets there, is the same sample. The all-variables
    handler as written never gets there: it records nothing. *)
Theorem light_sample_override (rd : Readings) (s : State) (old : list Q)
    (cpu_temps0 : list Q) (cpu_temp : Q) :
  values s !! "light"%string = Some old ->
  let page := handle_light_mode rd in
  let body := handle_display_everything_mode_from cpu_temps0 cpu_temp rd in
  ((10 <= proximity s)%Q ->
     (page s).1 = Ok tt
     /\ values (page s).2 !! "light"%string = Some (drop 1 old ++ [1%Q])
     /\ LogInfo (format_message "light" 1 "Lux") ∈ events_of page s
     /\ (Read Lux ∉ events_of page s)
     /\ ((body s).1 = Ok tt ->
         values (body s).2 !! "light"%string = Some (drop 1 old ++ [1%Q]))
     /\ (values (body s).2 !! "light"%string = Some old
         \/ values (body s).2 !! "light"%string = Some (drop 1 old ++ [1%Q]))
     /\ (Read Lux ∉ events_of body s))
  /\ ((proximity s < 10)%Q ->
      (page s).1 = Ok tt
      /\ values (page s).2 !! "light"%string = Some (drop 1 old ++ [rd_lux_page rd])
      /\ LogInfo (format_message "light" (rd_lux_page rd) "Lux") ∈ events_of page s
      /\ Read Lux ∈ events_of page s
      /\ ((body s).1 = Ok tt ->
          values (body s).2 !! "light"%string = Some (drop 1 old ++ [rd_lux_page rd]))
      /\ (values (body s).2 !! "light"%string = Some old
          \/ values (body s).2 !! "light"%string
             = Some (drop 1 old ++ [rd_lux_page rd])))
  /\ values (handle_display_everything_mode rd s).2 = values s.
Proof.
  intros Hold page body.
  destruct (page_light rd s old Hold) as (f & Hok & Hval & Hev).
  pose proof (body_light cpu_temps0 cpu_temp rd s old Hold) as (Hb1 & Hb2 & Hb3).
  fold body in Hb1, Hb2, Hb3. fold page in Hok, Hval, Hev.
  split; [| split; [| reflexivity]].
  - intros Hfar. apply lt_false in Hfar. rewrite Hfar in *.
    split; [exact Hok |]. split; [exact Hval |].
    split; [rewrite Hev; left |].
    split; [rewrite Hev; by intros [[=] | [[=] | []%elem_of_nil]%elem_of_cons]%elem_of_cons |].
    split; [exact Hb1 |]. split; [exact Hb2 |].
    intros Hin. apply emits_events_of in Hb3; [| done].
    rewrite Forall_forall in Hb3. by apply (Hb3 _ Hin).
  - intros Hnear. apply lt_true in Hnear. rewrite Hnear in *.
    split; [exact Hok |]. split; [exact Hval |].
    split; [rewrite Hev; right; left |].
    split; [rewrite Hev; left |].
    split; [exact Hb1 | exact Hb2].
Qed.

End Light.

Lemma rendering_repeatable_witness :
  events_of (@display_text bench "pressure" 1013 "hPa")
    (set_values {["pressure"%string := [1000; 1005; 1010]%Q]} (started 0))
  = events_of (@display_text bench "pressure" 1013 "hPa")
      (set_img (fun _ _ => (255, 255, 255))
         (set_values {["pressure"%string := [1000; 1005; 1010]%Q]} (started 0))).
Proof.
  destruct (@rendering_repeatable bench
              (set_values {["pressure"%string := [1000; 1005; 1010]%Q]} (started 0))
              (set_img (fun _ _ => (255, 255, 255))
                 (set_values {["pressure"%string := [1000; 1005; 1010]%Q]} (started 0)))
              "pressure" "hPa" 1013) as (_ & Hev & _).
  - reflexivity.
  - exact Hev.
Defined.

Lemma light_sample_override_witness :
  values (@handle_light_mode bench (readings_at 0 20 500)
            (set_proximity 20
               (set_values {["light"%string := [5; 6; 7]%Q]} (started 0)))).2
    !! "light"%string
  = Some [6; 7; 1]%Q.
Proof.
  destruct (@light_sample_override bench (readings_at 0 20 500)
              (set_proximity 20
                 (set_values {["light"%string := [5; 6; 7]%Q]} (started 0)))
              [5; 6; 7]%Q [] 0) as (Hfar & _).
  - cbn. apply lookup_singleton_eq.
  - destruct Hfar as (_ & Hrec & _); [by vm_compute | exact Hrec].
Defined.

(** ** The body of the all-variables handler, were it reached *)

Lemma renders_ret {A} (a : A) : renders 0 (ret a).
Proof. intros s Hs. exists a. cbn. split; [done |]. split; [done | lia]. Qed.

Lemma renders_get {A} (f : State -> A) : renders 0 (get f).
Proof. intros s Hs. exists (f s). cbn. split; [done |]. split; [done | lia]. Qed.

Lemma renders_bind {A B} (n n' N : nat) (m : M A) (k : A -> M B) :
  renders n m -> (forall a, renders n' (k a)) -> (n + n')%nat = N ->
  renders N (bind m k).
Proof.
  intros Hm Hk <- s Hs. destruct (Hm s Hs) as (a & Hok & Hready & Hlen).
  unfold bind. destruct (m s) as [[a' | e] s'] eqn:Em; cbn in *; [| discriminate Hok].
  destruct (Hk a' s' Hready) as (b & Hok' & Hready' & Hlen').
  exists b. split; [exact Hok' |]. split; [exact Hready' | lia].
Qed.

Lemma renders_sensor_read {A} (which : sensor) (answer : A) :
  renders 0 (sensor_read which answer).
Proof.
  intros s Hs. exists answer. cbn -[frames]. split; [done |]. split; [done |].
  rewrite frames_app. cbn. rewrite app_nil_r. lia.
Qed.

Lemma renders_compensated (cpu_temps0 : list Q) (cpu_temp : Q) (rd : Readings) :
  renders 0 (compensated cpu_temps0 cpu_temp rd).
Proof.
  intros s Hs. unfold compensated, bind, lift, py_div, bme280_get_temperature.
  destruct (Qeq_bool _ 0) eqn:Elen.
  { exfalso. apply Qeq_bool_eq in Elen. unfold Qeq in Elen. cbn in Elen.
    rewrite length_app in Elen. cbn in Elen. lia. }
  change (Qeq_bool factor 0) with false. unfold ret. cbn -[frames].
  eexists. split; [reflexivity |]. split; [done |].
  rewrite frames_app. cbn. rewrite app_nil_r. lia.
Qed.

Lemma buffers_ready_record (vs : gmap string (list Q)) (variable : string)
    (old : list Q) (data : Q) :
  buffers_ready vs -> buffers_ready (<[variable := drop 1 old ++ [data]]> vs).
Proof.
  intros Hready v Hv. destruct (decide (variable = v)) as [-> | Hne].
  - exists (drop 1 old), data. apply lookup_insert_eq.
  - rewrite lookup_insert_ne by done. by apply Hready.
Qed.

Section Body.
Context `{Collaborators}.

Lemma renders_save_data (idx : nat) (data : Q) :
  (idx < 10)%nat -> renders 0 (save_data idx data).
Proof.
  intros Hidx s Hs.
  destruct (variables !! idx) as [variable |] eqn:Ev;
    [| apply lookup_ge_None in Ev; cbn in Ev; lia].
  destruct (units !! idx) as [unit_ |] eqn:Eu;
    [| apply lookup_ge_None in Eu; cbn in Eu; lia].
  destruct (Hs variable) as (l & x & Hold); [by eapply list_elem_of_lookup_2 |].
  rewrite (save_data_run idx data s variable unit_ _ Ev Eu Hold). cbn -[frames].
  exists tt. split; [done |]. split; [by apply buffers_ready_record |].
  rewrite frames_app. cbn. rewrite app_nil_r. lia.
Qed.

Lemma classify_total (v : Q) (lim : list Q) :
  length lim = 4%nat -> exists c, classify v lim = Ok c.
Proof.
  intros Hlen.
  destruct lim as [| t0 [| t1 [| t2 [| t3 [| ? ?]]]]]; try discriminate Hlen.
  unfold classify, index. cbn -[gt].
  destruct (gt v t0), (gt v t1), (gt v t2), (gt v t3); cbn; by eexists.
Qed.

Lemma display_everything_cell_ok (i : nat) (s : State) :
  (i < 10)%nat -> buffers_ready (values s) ->
  exists im, display_everything_cell i s = (Ok tt, set_img im s).
Proof.
  intros Hi Hs.
  destruct (variables !! i) as [variable |] eqn:Ev;
    [| apply lookup_ge_None in Ev; cbn in Ev; lia].
  destruct (units !! i) as [unit_ |] eqn:Eu;
    [| apply lookup_ge_None in Eu; cbn in Eu; lia].
  destruct (limits !! i) as [lim |] eqn:El;
    [| apply lookup_ge_None in El; cbn in El; lia].
  assert (Hlen : length lim = 4%nat).
  { do 10 (destruct i as [| i]; [by injection El as <- |]). cbn in Hi. lia. }
  destruct (Hs variable) as (l & x & Hold); [by eapply list_elem_of_lookup_2 |].
  destruct (classify_total x lim Hlen) as (c & Hc).
  unfold display_everything_cell, bind, lift, index. rewrite Ev.
  rewrite (getitem_values_run _ _ _ Hold).
  unfold index_last. rewrite last_snoc. rewrite Eu, El, Hc.
  unfold draw_text, modify. by eexists.
Qed.

Lemma display_everything_cells_ok (l : list nat) (s : State) :
  Forall (fun i => i < 10)%nat l -> buffers_ready (values s) ->
  exists im, for_each display_everything_cell l s = (Ok tt, set_img im s).
Proof.
  revert s. induction l as [| i l IH]; intros s Hl Hs.
  - exists (img s). by destruct s.
  - inversion Hl as [| ? ? Hi Hl']; subst.
    destruct (display_everything_cell_ok i s Hi Hs) as (im & Ei).
    rewrite for_each_cons, Ei.
    destruct (IH (set_img im s) Hl' Hs) as (im' & Ei'). rewrite Ei'.
    by exists im'.
Qed.

Lemma renders_display_everything : renders 1 display_everything.
Proof.
  intros s Hs. rewrite display_everything_run.
  destruct (display_everything_cells_ok (seq 0 (length variables))
              (set_img (paint_rectangle 0 0 WIDTH HEIGHT (0, 0, 0) (img s)) s))
    as (im & E); [| exact Hs |].
  { apply Forall_forall. intros i Hi. apply elem_of_seq in Hi. cbn in Hi. lia. }
  rewrite E. cbn -[frames]. exists tt. split; [done |]. split; [done |].
  rewrite frames_app, length_app. cbn. lia.
Qed.

Lemma renders_particulates (rd : Readings) (n : nat) (orelse : Q * Q * Q -> M NoneType) :
  (exists d, rd_pms rd = Ok d) ->
  (forall d, renders n (orelse d)) ->
  renders n (try_except_else (pms5003_read rd) pms_timeout
               (logging_warning "Failed to read PMS5003") orelse).
Proof.
  intros [d Hd] Hor s Hs.
  unfold try_except_else, pms5003_read, bind, emit, lift. rewrite Hd. cbn -[frames].
  destruct (Hor d (set_trace (trace s ++ [Read Particulates]) s) Hs)
    as (a & Hok & Hready & Hlen).
  exists a. split; [exact Hok |]. split; [exact Hready |].
  rewrite Hlen. cbn -[frames]. rewrite frames_app. cbn. by rewrite app_nil_r.
Qed.

Lemma renders_particulates_timeout (rd : Readings) (orelse : Q * Q * Q -> M NoneType) :
  is_timeout (rd_pms rd) ->
  renders 0 (try_except_else (pms5003_read rd) pms_timeout
               (logging_warning "Failed to read PMS5003") orelse).
Proof.
  intros Hto s Hs.
  unfold try_except_else, pms5003_read, bind, emit, lift, logging_warning.
  exists tt. destruct Hto as [-> | ->]; cbn -[frames];
    (split; [done |]); (split; [done |]);
    rewrite !frames_app; cbn; rewrite !app_nil_r; lia.
Qed.

Ltac render_steps :=
  first
    [ apply renders_ret
    | apply renders_get
    | apply renders_sensor_read
    | apply renders_compensated
    | apply renders_display_everything
    | apply renders_save_data; lia
    | eapply renders_particulates; [eassumption | intro; render_steps]
    | apply renders_particulates_timeout; assumption
    | match goal with |- renders _ (if ?b then _ else _) => destruct b end;
      render_steps
    | eapply renders_bind; [render_steps | intro; render_steps | reflexivity] ].

(** With every history in place and a particulate read that answers, the
    body returns and pushes five frames: humidity and light are drawn by
    the same render. With a read that times out it pushes four. *)
Lemma body_renders (cpu_temps0 : list Q) (cpu_temp : Q) (rd : Readings) :
  ((exists d, rd_pms rd = Ok d) ->
   renders 5 (handle_display_everything_mode_from cpu_temps0 cpu_temp rd))
  /\ (is_timeout (rd_pms rd) ->
      renders 4 (handle_display_everything_mode_from cpu_temps0 cpu_temp rd)).
Proof.
  split; intros Hpms;
    unfold handle_display_everything_mode_from, bme280_get_pressure,
      bme280_get_humidity, ltr559_get_lux_page, gas_read_all;
    render_steps.
Qed.

End Body.

(** ** The program as a whole *)

Section Whole.
Context `{Collaborators}.

(** [started t0] is the state in which the loop takes its first iteration,
    the globals that are not bound yet left at 0 and the trace empty. *)
Lemma started_after_setup (t0 : Q) (s0 : State) :
  proximity s0 = 0%Q -> lux s0 = 0%Q -> trace s0 = [] ->
  main t0 [] s0 = (Ok tt, started t0).
Proof.
  intros Hp Hl Ht. destruct s0; cbn in *; subst. reflexivity.
Qed.

(** Whatever the sensors answer, the first iteration after [setup] ends
    the program: the page is 0 or 1, page 0 raises UnboundLocalError in the
    temperature handler and page 1 raises KeyError in [display_text]. *)
Lemma main_first_iteration_raises (t0 : Q) (rd : Readings) (rds : list Readings)
    (s0 : State) :
  (main t0 (rd :: rds) s0).1 = Raise (UnboundLocalError "cpu_temps")
  \/ (main t0 (rd :: rds) s0).1 = Raise (KeyError "pressure").
Proof.
  set (s1 := set_light_on_time None (set_light_off_time None (set_dimmed false
               (set_screen_on true (setup t0 s0).2)))).
  assert (E : main t0 (rd :: rds) s0 = for_each tick (rd :: rds) s1) by reflexivity.
  rewrite E, for_each_cons, tick_run.
  assert (Hok : backlight_ok s1) by (intros [=]).
  destruct (control_page rd s1 Hok) as (Hrun & _ & Hmode & _).
  pose proof (control_same_values rd s1) as Hvals.
  destruct (control rd s1) as [[[] | e] s2]; [| discriminate Hrun].
  cbn in Hmode, Hvals. rewrite Hmode.
  destruct (advance_due rd s1).
  - right. change ((0 + 1) `mod` 11) with 1. cbn [dispatch].
    unfold handle_pressure_mode, bme280_get_pressure, sensor_read, bind, emit, ret,
      lift, index. cbn [variables lookup list_lookup fst snd].
    unfold display_text, bind.
    rewrite getitem_values_missing; [reflexivity |].
    cbn. rewrite Hvals. apply lookup_empty.
  - left. cbn [dispatch]. by rewrite handle_temperature_mode_run.
Qed.

End Whole.

(** * Further properties of the code *)

(** ** BacklightController: every branch *)

(** Destructs the state and the tests of the controller and computes. *)
Ltac backlight_cases rd lp :=
  run_control;
  repeat match goal with
  | H : le _ _ = _ |- _ => rewrite H; cbn
  | H : gt _ _ = _ |- _ => rewrite H; cbn
  end;
  destruct (gt (rd_proximity rd) 1500 && gt (rd_check rd - lp) delay); cbn;
  rewrite ?backlight_commands_app; cbn; rewrite ?app_nil_r; try done.

Lemma control_full_dark_first (rd : Readings) (s : State) (lon : option Q)
    (cs : list Q) :
  (rd_lux rd <= 0)%Q ->
  backlight_full s = (On, None, lon, cs) ->
  (control rd s).1 = Ok tt
  /\ backlight_full (control rd s).2 = (On, Some (rd_now rd), None, cs).
Proof.
  intros Hdark Hv. apply le_true in Hdark.
  destruct s as [vs ct md lp px lx so dm lot lon' im tr].
  unfold backlight_full, backlight_state in *. cbn in Hv.
  destruct so, dm; try discriminate Hv. injection Hv as -> -> <-.
  backlight_cases rd lp.
Qed.

Lemma control_full_dark_wait (rd : Readings) (s : State) (t0 : Q)
    (lon : option Q) (cs : list Q) :
  (rd_lux rd <= 0)%Q ->
  (rd_now rd - t0 <= dim_delay)%Q ->
  backlight_full s = (On, Some t0, lon, cs) ->
  (control rd s).1 = Ok tt
  /\ backlight_full (control rd s).2 = (On, Some t0, None, cs).
Proof.
  intros Hdark Hwait Hv. apply le_true in Hdark. apply gt_false in Hwait.
  destruct s as [vs ct md lp px lx so dm lot lon' im tr].
  unfold backlight_full, backlight_state in *. cbn in Hv.
  destruct so, dm; try discriminate Hv. injection Hv as -> -> <-.
  backlight_cases rd lp.
Qed.

Lemma control_full_dark_off (rd : Readings) (s : State) (lot lon : option Q)
    (cs : list Q) :
  (rd_lux rd <= 0)%Q ->
  backlight_full s = (Off, lot, lon, cs) ->
  dimmed s = false ->
  (control rd s).1 = Ok tt
  /\ backlight_full (control rd s).2 = (Off, lot, None, cs).
Proof.
  intros Hdark Hv Hdm. apply le_true in Hdark.
  destruct s as [vs ct md lp px lx so dm lot' lon' im tr].
  unfold backlight_full, backlight_state in *. cbn in Hv, Hdm. subst dm.
  destruct so; try discriminate Hv. injection Hv as -> -> <-.
  backlight_cases rd lp.
Qed.

Lemma control_full_light_first (rd : Readings) (s : State) (lot : option Q)
    (cs : list Q) :
  (0 < rd_lux rd)%Q ->
  backlight_full s = (Off, lot, None, cs) ->
  (control rd s).1 = Ok tt
  /\ backlight_full (control rd s).2 = (Off, lot, Some (rd_now rd), cs).
Proof.
  intros Hlight Hv. apply le_false in Hlight.
  destruct s as [vs ct md lp px lx so dm lot' lon' im tr].
  unfold backlight_full, backlight_state in *. cbn in Hv.
  destruct so; [destruct dm; discriminate Hv |]. injection Hv as -> -> <-.
  backlight_cases rd lp.
Qed.

Lemma control_full_light_wait (rd : Readings) (s : State) (t0 : Q)
    (lot : option Q) (cs : list Q) :
  (0 < rd_lux rd)%Q ->
  (rd_now rd - t0 <= on_delay)%Q ->
  backlight_full s = (Off, lot, Some t0, cs) ->
  (control rd s).1 = Ok tt
  /\ backlight_full (control rd s).2 = (Off, lot, Some t0, cs).
Proof.
  intros Hlight Hwait Hv. apply le_false in Hlight. apply gt_false in Hwait.
  destruct s as [vs ct md lp px lx so dm lot' lon' im tr].
  unfold backlight_full, backlight_state in *. cbn in Hv.
  destruct so; [destruct dm; discriminate Hv |]. injection Hv as -> -> <-.
  backlight_cases rd lp.
Qed.

Lemma control_full_light_on (rd : Readings) (s : State) (t0 : Q)
    (lot : option Q) (cs : list Q) :
  (0 < rd_lux rd)%Q ->
  (on_delay < rd_now rd - t0)%Q ->
  backlight_full s = (Off, lot, Some t0, cs) ->
  dimmed s = false ->
  (control rd s).1 = Ok tt
  /\ backlight_full (control rd s).2 = (On, lot, None, cs ++ [1%Q]).
Proof.
  intros Hlight Hlate Hv Hdm. apply le_false in Hlight. apply gt_true in Hlate.
  destruct s as [vs ct md lp px lx so dm lot' lon' im tr].
  unfold backlight_full, backlight_state in *. cbn in Hv, Hdm. subst dm.
  destruct so; try discriminate Hv. injection Hv as -> -> <-.
  backlight_cases rd lp.
Qed.

Lemma control_full_light_dimmed (rd : Readings) (s : State) (lot lon : option Q)
    (cs : list Q) :
  (0 < rd_lux rd)%Q ->
  backlight_full s = (Dimmed, lot, lon, cs) ->
  (control rd s).1 = Ok tt
  /\ backlight_full (control rd s).2 = (On, None, lon, cs ++ [1%Q]).
Proof.
  intros Hlight Hv. apply le_false in Hlight.
  destruct s as [vs ct md lp px lx so dm lot' lon' im tr].
  unfold backlight_full, backlight_state in *. cbn in Hv.
  destruct so, dm; try discriminate Hv. injection Hv as -> -> <-.
  backlight_cases rd lp.
Qed.

Lemma control_full_light_lit (rd : Readings) (s : State) (lot lon : option Q)
    (cs : list Q) :
  (0 < rd_lux rd)%Q ->
  backlight_full s = (On, lot, lon, cs) ->
  (control rd s).1 = Ok tt
  /\ backlight_full (control rd s).2 = (On, None, lon, cs).
Proof.
  intros Hlight Hv. apply le_false in Hlight.
  destruct s as [vs ct md lp px lx so dm lot' lon' im tr].
  unfold backlight_full, backlight_state in *. cbn in Hv.
  destruct so, dm; try discriminate Hv. injection Hv as -> -> <-.
  backlight_cases rd lp.
Qed.

Lemma control_full_dark_dim (rd : Readings) (s : State) (t0 : Q)
    (lon : option Q) (cs : list Q) :
  (rd_lux rd <= 0)%Q ->
  (dim_delay < rd_now rd - t0)%Q ->
  backlight_full s = (On, Some t0, lon, cs) ->
  (control rd s).1 = Ok tt
  /\ backlight_full (control rd s).2 = (Dimmed, Some t0, None, cs ++ [0.2%Q]).
Proof.
  intros Hdark Hlate Hv. apply le_true in Hdark. apply gt_true in Hlate.
  destruct s as [vs ct md lp px lx so dm lot lon' im tr].
  unfold backlight_full, backlight_state in *. cbn in Hv.
  destruct so, dm; try discriminate Hv. injection Hv as -> -> <-.
  backlight_cases rd lp.
Qed.

Lemma control_full_dimmed_wait (rd : Readings) (s : State) (t0 : Q)
    (lon : option Q) (cs : list Q) :
  (rd_lux rd <= 0)%Q ->
  (rd_now rd - t0 <= dim_delay + off_delay)%Q ->
  backlight_full s = (Dimmed, Some t0, lon, cs) ->
  (control rd s).1 = Ok tt
  /\ backlight_full (control rd s).2 = (Dimmed, Some t0, None, cs).
Proof.
  intros Hdark Hwait Hv. apply le_true in Hdark. apply gt_false in Hwait.
  destruct s as [vs ct md lp px lx so dm lot lon' im tr].
  unfold backlight_full, backlight_state in *. cbn in Hv.
  destruct so, dm; try discriminate Hv. injection Hv as -> -> <-.
  backlight_cases rd lp.
Qed.

Lemma control_full_dimmed_off (rd : Readings) (s : State) (t0 : Q)
    (lon : option Q) (cs : list Q) :
  (rd_lux rd <= 0)%Q ->
  (dim_delay + off_delay < rd_now rd - t0)%Q ->
  backlight_full s = (Dimmed, Some t0, lon, cs) ->
  (control rd s).1 = Ok tt
  /\ backlight_full (control rd s).2 = (Off, None, None, cs ++ [0%Q]).
Proof.
  intros Hdark Hlate Hv. apply le_true in Hdark. apply gt_true in Hlate.
  destruct s as [vs ct md lp px lx so dm lot lon' im tr].
  unfold backlight_full, backlight_state in *. cbn in Hv.
  destruct so, dm; try discriminate Hv. injection Hv as -> -> <-.
  backlight_cases rd lp.
Qed.

Lemma off_not_dimmed (s : State) :
  backlight_ok s -> backlight_state s = Off -> dimmed s = false.
Proof.
  unfold backlight_ok, backlight_state. intros Hok Hoff.
  destruct (dimmed s); [| done]. destruct (Hok eq_refl) as [Hso _].
  by rewrite Hso in Hoff.
Qed.

(** ** Runs of the controllers *)

Lemma control_run_ok (l : list Readings) (s : State) :
  backlight_ok s ->
  (for_each control l s).1 = Ok tt /\ backlight_ok (for_each control l s).2.
Proof.
  revert s. induction l as [| rd l IH]; intros s Hok; [done |].
  rewrite for_each_cons.
  destruct (control_page rd s Hok) as (Hrun & Hok' & _).
  destruct (control rd s) as [[[] | e] s']; [| discriminate Hrun].
  by apply IH.
Qed.

Lemma backlight_run_app (l1 l2 : list Readings) (s : State) :
  backlight_ok s ->
  backlight_run (l1 ++ l2) s = backlight_run l2 (for_each control l1 s).2.
Proof.
  intros Hok. destruct (control_run_ok l1 s Hok) as [Hrun _].
  unfold backlight_run. rewrite for_each_app.
  destruct (for_each control l1 s) as [[[] | e] s']; [done | discriminate Hrun].
Qed.

Lemma backlight_run_one (rd : Readings) (s : State) :
  backlight_run [rd] s = ((control rd s).1, backlight_full (control rd s).2).
Proof.
  unfold backlight_run. cbn [for_each]. unfold bind.
  by destruct (control rd s) as [[[] | e] s'].
Qed.

(** One more iteration after a run. *)
Lemma backlight_run_snoc (l : list Readings) (rd : Readings) (s : State)
    (v v' : BacklightState * option Q * option Q * list Q) :
  backlight_ok s ->
  backlight_run l s = (Ok tt, v) ->
  (forall s', backlight_ok s' -> backlight_full s' = v ->
     backlight_full (control rd s').2 = v') ->
  backlight_run (l ++ [rd]) s = (Ok tt, v').
Proof.
  intros Hok Hl Hstep. injection Hl as _ Hv.
  destruct (control_run_ok l s Hok) as [_ Hok'].
  rewrite backlight_run_app by done. rewrite backlight_run_one.
  destruct (control_page rd _ Hok') as (-> & _).
  by rewrite (Hstep _ Hok' Hv).
Qed.

(** Iterations that each leave the view [v] as it is. *)
Lemma backlight_run_idle (l0 l : list Readings) (s : State)
    (v : BacklightState * option Q * option Q * list Q) :
  backlight_ok s ->
  backlight_run l0 s = (Ok tt, v) ->
  Forall (fun rd => forall s', backlight_ok s' -> backlight_full s' = v ->
            backlight_full (control rd s').2 = v) l ->
  backlight_run (l0 ++ l) s = (Ok tt, v).
Proof.
  intros Hok Hl0 Hidle. revert l0 Hl0.
  induction Hidle as [| rd l Hrd _ IH]; intros l0 Hl0.
  - by rewrite app_nil_r.
  - change (rd :: l) with ([rd] ++ l). rewrite app_assoc. apply IH.
    by apply (backlight_run_snoc l0 rd s v v).
Qed.

Lemma backlight_run_nil (s : State) :
  backlight_run [] s = (Ok tt, backlight_full s).
Proof. reflexivity. Qed.

(** X1. Coming back from Off: in a run of lit iterations from Off with no
    light onset recorded, the first one only records its time [t0]; those
    within [on_delay] of [t0] change nothing; the first one later than that
    switches the screen on with one command of level 1 and clears the
    onset. *)
Theorem backlight_light_episode (s : State) (rd0 rdk : Readings)
    (pre : list Readings) :
  backlight_ok s ->
  backlight_state s = Off ->
  light_on_time s = None ->
  Forall (fun rd => 0 < rd_lux rd)%Q (rd0 :: pre ++ [rdk]) ->
  Forall (fun rd => rd_now rd - rd_now rd0 <= on_delay)%Q pre ->
  (on_delay < rd_now rdk - rd_now rd0)%Q ->
  let cs := backlight_commands (trace s) in
  let lot := light_off_time s in
  let t0 := rd_now rd0 in
  backlight_run [rd0] s = (Ok tt, (Off, lot, Some t0, cs))
  /\ backlight_run ([rd0] ++ pre) s = (Ok tt, (Off, lot, Some t0, cs))
  /\ backlight_run (([rd0] ++ pre) ++ [rdk]) s
     = (Ok tt, (On, lot, None, cs ++ [1%Q])).
Proof.
  intros Hok Hoff Hnone Hlit Hpre Hk cs lot t0.
  inversion Hlit as [| ? ? Hl0 Hrest]; subst.
  apply Forall_app in Hrest as [Hlpre Hlk].
  inversion Hlk as [| ? ? Hlk' _]; subst.
  assert (Hv : backlight_full s = (Off, lot, None, cs))
    by (unfold backlight_full; by rewrite Hoff, Hnone).
  assert (S1 : backlight_run [rd0] s = (Ok tt, (Off, lot, Some t0, cs))).
  { apply (backlight_run_snoc [] rd0 s _ _ Hok (backlight_run_nil s)).
    intros s' _ Hs'. rewrite Hv in Hs'.
    by destruct (control_full_light_first rd0 s' lot cs Hl0 Hs'). }
  assert (S2 : backlight_run ([rd0] ++ pre) s = (Ok tt, (Off, lot, Some t0, cs))).
  { apply backlight_run_idle; [done | done |].
    rewrite Forall_forall in *. intros rd Hrd s' _ Hs'.
    by destruct (control_full_light_wait rd s' t0 lot cs (Hlpre _ Hrd) (Hpre _ Hrd) Hs'). }
  split; [exact S1 |]. split; [exact S2 |].
  apply (backlight_run_snoc _ rdk s _ _ Hok S2).
  intros s' Hok' Hs'.
  assert (Hdm : dimmed s' = false).
  { apply off_not_dimmed; [done |]. unfold backlight_full in Hs'. congruence. }
  by destruct (control_full_light_on rdk s' t0 lot cs Hlk' Hk Hs' Hdm).
Qed.

Lemma backlight_light_episode_witness :
  backlight_run
    [readings_at 10 0 5; readings_at 11 0 5; readings_at 13 0 5; readings_at 14 0 5]
    (set_screen_on false (started 0))
  = (Ok tt, (On, None, None, [1%Q])).
Proof.
  destruct (backlight_light_episode (set_screen_on false (started 0))
              (readings_at 10 0 5) (readings_at 14 0 5)
              [readings_at 11 0 5; readings_at 13 0 5]) as (_ & _ & Hon).
  - intros [=].
  - reflexivity.
  - reflexivity.
  - repeat constructor; by vm_compute.
  - repeat constructor; by vm_compute.
  - by vm_compute.
  - exact Hon.
Defined.

(** X2. Coming back from Dimmed needs no wait: after a dark run from On
    that has dimmed the screen and is not yet past
    [dim_delay + off_delay], one lit iteration restores On at once, with one
    command of level 1, and clears the dark onset. *)
Theorem backlight_dimmed_recovers_at_once (s : State) (rd0 rdk rdl : Readings)
    (pre mid : list Readings) :
  backlight_ok s ->
  backlight_state s = On ->
  light_off_time s = None ->
  Forall (fun rd => rd_lux rd <= 0)%Q (rd0 :: pre ++ rdk :: mid) ->
  Forall (fun rd => rd_now rd - rd_now rd0 <= dim_delay)%Q pre ->
  (dim_delay < rd_now rdk - rd_now rd0)%Q ->
  Forall (fun rd => rd_now rd - rd_now rd0 <= dim_delay + off_delay)%Q mid ->
  (0 < rd_lux rdl)%Q ->
  let cs := backlight_commands (trace s) in
  backlight_run ((([rd0] ++ pre) ++ [rdk]) ++ mid) s
  = (Ok tt, (Dimmed, Some (rd_now rd0), None, cs ++ [0.2%Q]))
  /\ backlight_run (((([rd0] ++ pre) ++ [rdk]) ++ mid) ++ [rdl]) s
     = (Ok tt, (On, None, None, (cs ++ [0.2%Q]) ++ [1%Q])).
Proof.
  intros Hok Hon Hnone Hdark Hpre Hk Hmid Hl cs.
  inversion Hdark as [| ? ? Hd0 Hrest]; subst.
  apply Forall_app in Hrest as [Hdpre Hrest].
  inversion Hrest as [| ? ? Hdk Hdmid]; subst.
  set (t0 := rd_now rd0).
  assert (Hv : backlight_full s = (On, None, light_on_time s, cs))
    by (unfold backlight_full; by rewrite Hon, Hnone).
  assert (S1 : backlight_run [rd0] s = (Ok tt, (On, Some t0, None, cs))).
  { apply (backlight_run_snoc [] rd0 s _ _ Hok (backlight_run_nil s)).
    intros s' _ Hs'. rewrite Hv in Hs'.
    by destruct (control_full_dark_first rd0 s' _ cs Hd0 Hs'). }
  assert (S2 : backlight_run ([rd0] ++ pre) s = (Ok tt, (On, Some t0, None, cs))).
  { apply backlight_run_idle; [done | done |].
    rewrite Forall_forall in *. intros rd Hrd s' _ Hs'.
    by destruct (control_full_dark_wait rd s' t0 None cs (Hdpre _ Hrd) (Hpre _ Hrd) Hs'). }
  assert (S3 : backlight_run (([rd0] ++ pre) ++ [rdk]) s
               = (Ok tt, (Dimmed, Some t0, None, cs ++ [0.2%Q]))).
  { apply (backlight_run_snoc _ rdk s _ _ Hok S2). intros s' _ Hs'.
    by destruct (control_full_dark_dim rdk s' t0 None cs Hdk Hk Hs'). }
  assert (S4 : backlight_run ((([rd0] ++ pre) ++ [rdk]) ++ mid) s
               = (Ok tt, (Dimmed, Some t0, None, cs ++ [0.2%Q]))).
  { apply backlight_run_idle; [done | done |].
    rewrite Forall_forall in *. intros rd Hrd s' _ Hs'.
    by destruct (control_full_dimmed_wait rd s' t0 None _ (Hdmid _ Hrd) (Hmid _ Hrd) Hs'). }
  split; [exact S4 |].
  apply (backlight_run_snoc _ rdl s _ _ Hok S4). intros s' _ Hs'.
  by destruct (control_full_light_dimmed rdl s' _ _ _ Hl Hs').
Qed.

Lemma backlight_dimmed_recovers_at_once_witness :
  backlight_run
    [readings_at 0 0 0; readings_at 1 0 0; readings_at 3 0 0; readings_at 4 0 0;
     readings_at 5 0 9] (started 0)
  = (Ok tt, (On, None, None, [0.2; 1]%Q)).
Proof.
  destruct (backlight_dimmed_recovers_at_once (started 0) (readings_at 0 0 0)
              (readings_at 3 0 0) (readings_at 5 0 9) [readings_at 1 0 0]
              [readings_at 4 0 0]) as (_ & Hon).
  - intros [=].
  - reflexivity.
  - reflexivity.
  - repeat constructor; by vm_compute.
  - repeat constructor; by vm_compute.
  - by vm_compute.
  - repeat constructor; by vm_compute.
  - by vm_compute.
  - exact Hon.
Defined.

(** X3. The countdowns measure uninterrupted darkness and uninterrupted
    light. While On, a lit iteration between two dark ones clears the dark
    onset, so the onset is the time of the later dark iteration and a dark
    iteration within [dim_delay] of it does not dim, however long ago the
    first one was. While Off, a dark iteration between two lit ones clears
    the light onset in the same way. *)
Theorem backlight_onsets_restart (s1 s2 : State) (d0 lit d2 d3 l0 dark l2 l3 : Readings) :
  backlight_ok s1 -> backlight_state s1 = On -> light_off_time s1 = None ->
  (rd_lux d0 <= 0)%Q -> (0 < rd_lux lit)%Q -> (rd_lux d2 <= 0)%Q ->
  (rd_lux d3 <= 0)%Q -> (rd_now d3 - rd_now d2 <= dim_delay)%Q ->
  backlight_ok s2 -> backlight_state s2 = Off -> light_on_time s2 = None ->
  (0 < rd_lux l0)%Q -> (rd_lux dark <= 0)%Q -> (0 < rd_lux l2)%Q ->
  (0 < rd_lux l3)%Q -> (rd_now l3 - rd_now l2 <= on_delay)%Q ->
  backlight_run [d0; lit; d2; d3] s1
  = (Ok tt, (On, Some (rd_now d2), None, backlight_commands (trace s1)))
  /\ backlight_run [l0; dark; l2; l3] s2
     = (Ok tt, (Off, light_off_time s2, Some (rd_now l2),
                backlight_commands (trace s2))).
Proof.
  intros Hok1 Hon Hnone1 Hd0 Hlit Hd2 Hd3 Hw3 Hok2 Hoff Hnone2 Hl0 Hdark Hl2 Hl3 Hwl3.
  split.
  - set (cs := backlight_commands (trace s1)).
    assert (Hv : backlight_full s1 = (On, None, light_on_time s1, cs))
      by (unfold backlight_full; by rewrite Hon, Hnone1).
    assert (S1 : backlight_run ([] ++ [d0]) s1 = (Ok tt, (On, Some (rd_now d0), None, cs))).
    { apply (backlight_run_snoc [] d0 s1 _ _ Hok1 (backlight_run_nil s1)).
      intros s' _ Hs'. rewrite Hv in Hs'.
      by destruct (control_full_dark_first d0 s' _ cs Hd0 Hs'). }
    assert (S2 : backlight_run (([] ++ [d0]) ++ [lit]) s1 = (Ok tt, (On, None, None, cs))).
    { apply (backlight_run_snoc _ lit s1 _ _ Hok1 S1). intros s' _ Hs'.
      by destruct (control_full_light_lit lit s' _ _ cs Hlit Hs'). }
    assert (S3 : backlight_run ((([] ++ [d0]) ++ [lit]) ++ [d2]) s1
                 = (Ok tt, (On, Some (rd_now d2), None, cs))).
    { apply (backlight_run_snoc _ d2 s1 _ _ Hok1 S2). intros s' _ Hs'.
      by destruct (control_full_dark_first d2 s' _ cs Hd2 Hs'). }
    apply (backlight_run_snoc _ d3 s1 _ _ Hok1 S3). intros s' _ Hs'.
    by destruct (control_full_dark_wait d3 s' _ _ cs Hd3 Hw3 Hs').
  - set (cs := backlight_commands (trace s2)). set (lot := light_off_time s2).
    assert (Hv : backlight_full s2 = (Off, lot, None, cs))
      by (unfold backlight_full; by rewrite Hoff, Hnone2).
    assert (S1 : backlight_run ([] ++ [l0]) s2 = (Ok tt, (Off, lot, Some (rd_now l0), cs))).
    { apply (backlight_run_snoc [] l0 s2 _ _ Hok2 (backlight_run_nil s2)).
      intros s' _ Hs'. rewrite Hv in Hs'.
      by destruct (control_full_light_first l0 s' lot cs Hl0 Hs'). }
    assert (S2 : backlight_run (([] ++ [l0]) ++ [dark]) s2 = (Ok tt, (Off, lot, None, cs))).
    { apply (backlight_run_snoc _ dark s2 _ _ Hok2 S1). intros s' Hok' Hs'.
      assert (Hdm : dimmed s' = false).
      { apply off_not_dimmed; [done |]. unfold backlight_full in Hs'. congruence. }
      by destruct (control_full_dark_off dark s' _ _ cs Hdark Hs' Hdm). }
    assert (S3 : backlight_run ((([] ++ [l0]) ++ [dark]) ++ [l2]) s2
                 = (Ok tt, (Off, lot, Some (rd_now l2), cs))).
    { apply (backlight_run_snoc _ l2 s2 _ _ Hok2 S2). intros s' _ Hs'.
      by destruct (control_full_light_first l2 s' lot cs Hl2 Hs'). }
    apply (backlight_run_snoc _ l3 s2 _ _ Hok2 S3). intros s' _ Hs'.
    by destruct (control_full_light_wait l3 s' _ lot cs Hl3 Hwl3 Hs').
Qed.

Lemma backlight_onsets_restart_witness :
  backlight_run [readings_at 0 0 0; readings_at 1 0 7; readings_at 2 0 0;
                 readings_at 4 0 0] (started 0)
  = (Ok tt, (On, Some 2%Q, None, [])).
Proof.
  destruct (backlight_onsets_restart (started 0) (set_screen_on false (started 0))
              (readings_at 0 0 0) (readings_at 1 0 7) (readings_at 2 0 0)
              (readings_at 4 0 0) (readings_at 0 0 7) (readings_at 1 0 0)
              (readings_at 2 0 7) (readings_at 4 0 7)) as (Hrun & _);
    [ first [ by intros [=] | reflexivity | by vm_compute ] .. | exact Hrun ].
Defined.

Lemma backlight_step_commands (now : Q) (s : State) :
  backlight_ok s ->
  exists s',
    backlight_step now s = (Ok tt, s')
    /\ backlight_commands (trace s')
       = backlight_commands (trace s)
         ++ (if same_backlight (backlight_state s') (backlight_state s) then []
             else [backlight_level (backlight_state s')]).
Proof.
  intros Hok.
  destruct s as [vs ct md lp px lx so dm lot lon im tr].
  unfold backlight_ok in *. cbn in Hok.
  unfold backlight_step, backlight_dark, backlight_light, st7735_set_backlight,
    emit, modify, get, bind, ret, lift, elapsed, backlight_state. cbn.
  destruct (le lx 0), so, dm; cbn.
  all: try (destruct Hok as [Hso [t Ht]]; [done |]; try discriminate Hso; subst lot).
  all: try destruct lot as [t0 |]; try destruct lon as [t1 |]; cbn.
  all: repeat match goal with
       | |- context [if gt ?a ?b then _ else _] => destruct (gt a b); cbn
       end.
  all: eexists; split; [reflexivity |]; cbn;
       rewrite ?backlight_commands_app; cbn; by rewrite ?app_nil_r.
Qed.

(** X4. In a state the loop can be in, the controllers never raise, and
    an iteration issues a backlight command exactly when it changes the
    backlight state: one command, whose level is that of the new state
    (1 for On, 0.2 for Dimmed, 0 for Off); an iteration that leaves the
    state as it is issues none. *)
Theorem backlight_one_command_per_transition (rd : Readings) (s : State) :
  backlight_ok s ->
  (control rd s).1 = Ok tt
  /\ backlight_ok (control rd s).2
  /\ backlight_commands (trace (control rd s).2)
     = backlight_commands (trace s)
       ++ (if same_backlight (backlight_state (control rd s).2) (backlight_state s)
           then []
           else [backlight_level (backlight_state (control rd s).2)]).
Proof.
  intros Hok.
  destruct (control_page rd s Hok) as (Hrun & Hok' & _).
  split; [exact Hrun |]. split; [exact Hok' |].
  set (s1 := set_lux (rd_lux rd)
               (set_trace ((trace s ++ [Read Proximity]) ++ [Read Lux])
                  (set_proximity (rd_proximity rd)
                     (set_trace (trace s ++ [Read Proximity]) s)))).
  assert (Hok1 : backlight_ok s1) by exact Hok.
  destruct (backlight_step_commands (rd_now rd) s1 Hok1) as (s2 & E2 & Hcmd).
  assert (E : control rd s = page_step rd s2).
  { change (control rd s)
      with (match backlight_step (rd_now rd) s1 with
            | (Ok _, s') => page_step rd s'
            | (Raise e, s') => (Raise e, s')
            end).
    by rewrite E2. }
  rewrite E, page_step_run.
  assert (Hs1 : backlight_commands (trace s1) = backlight_commands (trace s)).
  { unfold s1. cbn. rewrite !backlight_commands_app. cbn. by rewrite !app_nil_r. }
  rewrite Hs1 in Hcmd. change (backlight_state s1) with (backlight_state s) in Hcmd.
  destruct (gt (proximity s2) 1500 && gt (rd_check rd - last_page s2) delay);
    exact Hcmd.
Qed.

Lemma backlight_one_command_per_transition_witness :
  backlight_commands
    (trace (control (readings_at 9 0 0)
              (set_dimmed true (set_light_off_time (Some 1%Q) (started 0)))).2)
  = [0%Q].
Proof.
  destruct (backlight_one_command_per_transition (readings_at 9 0 0)
              (set_dimmed true (set_light_off_time (Some 1%Q) (started 0))))
    as (_ & _ & Hcmd).
  - intros _. split; [reflexivity | by eexists].
  - rewrite Hcmd. reflexivity.
Defined.

(** ** PageController: turning through the pages *)

Lemma page_turns (rds : list Readings) (s : State) :
  backlight_ok s ->
  all_due (last_page s) rds ->
  mode (for_each control rds s).2 = (mode s + Z.of_nat (length rds)) `mod` 11
  \/ (rds = [] /\ mode (for_each control rds s).2 = mode s).
Proof.
  revert s. induction rds as [| rd rds IH]; intros s Hok Hdue; [by right |].
  left. destruct Hdue as (Hp & Ht & Hrest).
  destruct (control_page rd s Hok) as (Hrun & Hok' & Hmode & Hlast).
  assert (Edue : advance_due rd s = true) by by apply advance_due_true.
  rewrite Edue in Hmode, Hlast.
  rewrite for_each_cons.
  destruct (control rd s) as [[[] | e] s'] eqn:Ec; [| discriminate Hrun].
  cbn in Hok', Hmode, Hlast. rewrite <- Hlast in Hrest.
  destruct (IH s' Hok' Hrest) as [E | [-> E]]; rewrite E, Hmode.
  - rewrite Zplus_mod_idemp_l. f_equal. cbn [length]. lia.
  - cbn [length]. f_equal.
Qed.

(** X5. Pages turn in a cycle of eleven: after [n] iterations that each
    find a hand over the sensor more than [delay] after the previous turn,
    the page is [(mode + n) mod 11], so eleven turns bring back the page
    the run started on and the all-variables page 10 is followed by page
    0. *)
Theorem page_turns_cycle (rds : list Readings) (s : State) :
  backlight_ok s ->
  0 <= mode s <= 10 ->
  all_due (last_page s) rds ->
  mode (for_each control rds s).2 = (mode s + Z.of_nat (length rds)) `mod` 11
  /\ (length rds = 11%nat -> mode (for_each control rds s).2 = mode s)
  /\ (length rds = 1%nat -> mode s = 10 -> mode (for_each control rds s).2 = 0).
Proof.
  intros Hok Hrange Hdue.
  assert (E : mode (for_each control rds s).2
              = (mode s + Z.of_nat (length rds)) `mod` 11).
  { destruct (page_turns rds s Hok Hdue) as [E | [-> E]]; [exact E |].
    rewrite E. cbn. rewrite Z.add_0_r. symmetry. apply Z.mod_small. lia. }
  split; [exact E |]. split.
  - intros Hlen. rewrite E, Hlen.
    change (Z.of_nat 11) with (1 * 11). rewrite Z.mod_add by lia.
    apply Z.mod_small. lia.
  - intros Hlen Hten. rewrite E, Hlen, Hten. reflexivity.
Qed.

Lemma page_turns_cycle_witness :
  mode (for_each control
          [readings_at 1 2000 1; readings_at 2 2000 1; readings_at 3 2000 1]
          (set_mode 9 (started 0))).2
  = 1.
Proof.
  destruct (page_turns_cycle
              [readings_at 1 2000 1; readings_at 2 2000 1; readings_at 3 2000 1]
              (set_mode 9 (started 0))) as (Hmode & _).
  - intros [=].
  - cbn. lia.
  - cbn. repeat split; by vm_compute.
  - rewrite Hmode. reflexivity.
Defined.

(** ** HistoryBuffer: what a buffer holds *)

Lemma drop_record (old ds : list Q) (d : Q) :
  old <> [] ->
  drop (length ds) ((drop 1 old ++ [d]) ++ ds)
  = drop (length (d :: ds)) (old ++ d :: ds).
Proof.
  intros Hne. destruct old as [| x old]; [done |].
  cbn [drop length app]. by rewrite <- app_assoc.
Qed.

Lemma fifo_run (variable : string) (step : Q -> M NoneType) (ds : list Q)
    (s : State) (old : list Q) :
  (forall d s0 old0, values s0 !! variable = Some old0 ->
     (step d s0).1 = Ok tt
     /\ values (step d s0).2 = <[variable := drop 1 old0 ++ [d]]> (values s0)) ->
  values s !! variable = Some old ->
  old <> [] ->
  (for_each step ds s).1 = Ok tt
  /\ values (for_each step ds s).2 !! variable = Some (drop (length ds) (old ++ ds))
  /\ (forall k, k <> variable ->
        values (for_each step ds s).2 !! k = values s !! k).
Proof.
  intros Hstep. revert s old. induction ds as [| d ds IH]; intros s old Hold Hne.
  - cbn. by rewrite app_nil_r.
  - rewrite for_each_cons. destruct (Hstep d s old Hold) as [Hok Hval].
    destruct (step d s) as [[[] | e] s1]; [| discriminate Hok]. cbn in Hval.
    assert (Hold1 : values s1 !! variable = Some (drop 1 old ++ [d]))
      by (rewrite Hval; apply lookup_insert_eq).
    assert (Hne1 : drop 1 old ++ [d] <> []) by by destruct (drop 1 old).
    destruct (IH s1 _ Hold1 Hne1) as (Hok' & Hval' & Hother).
    split; [exact Hok' |]. split.
    + rewrite Hval'. f_equal. by apply drop_record.
    + intros k Hk. rewrite (Hother k Hk), Hval. by apply lookup_insert_ne.
Qed.

Section Fifo.
Context `{Collaborators}.

Lemma display_text_values (variable unit_ : string) (data : Q) (s : State)
    (old : list Q) :
  values s !! variable = Some old ->
  (display_text variable data unit_ s).1 = Ok tt
  /\ values (display_text variable data unit_ s).2
     = <[variable := drop 1 old ++ [data]]> (values s).
Proof.
  intros Hold.
  pose proof (display_text_outcome variable unit_ data s) as Hrun.
  rewrite Hold in Hrun. destruct Hrun as (colours & _ & ->).
  by rewrite display_text_draw_run.
Qed.

(** X6. A history buffer is a first-in first-out window: recording the
    values [ds] one after the other into a non-empty buffer [old], by
    [save_data] or by [display_text], leaves the last [length old] values of
    [old ++ ds]; the length never changes and no other variable's buffer is
    touched. *)
Theorem history_is_fifo (idx : nat) (variable unit_ : string) (ds : list Q)
    (s : State) (old : list Q) :
  variables !! idx = Some variable ->
  values s !! variable = Some old ->
  old <> [] ->
  let saved := for_each (save_data idx) ds s in
  let shown := for_each (fun d => display_text variable d unit_) ds s in
  saved.1 = Ok tt
  /\ values saved.2 !! variable = Some (drop (length ds) (old ++ ds))
  /\ (forall k, k <> variable -> values saved.2 !! k = values s !! k)
  /\ shown.1 = Ok tt
  /\ values shown.2 = values saved.2
  /\ length (drop (length ds) (old ++ ds)) = length old.
Proof.
  intros Hv Hold Hne saved shown. subst saved shown.
  assert (Hidx : (idx < 10)%nat) by (apply lookup_lt_Some in Hv; exact Hv).
  destruct (units !! idx) as [u |] eqn:Eu;
    [| apply lookup_ge_None in Eu; cbn in Eu; lia].
  destruct (fifo_run variable (save_data idx) ds s old) as (S1 & S2 & S3);
    [| done | done |].
  { intros d s0 old0 Hold0.
    by rewrite (save_data_run idx d s0 variable u old0 Hv Eu Hold0). }
  destruct (fifo_run variable (fun d => display_text variable d unit_) ds s old)
    as (T1 & T2 & T3); [| done | done |].
  { intros d s0 old0 Hold0. by apply display_text_values. }
  split; [exact S1 |]. split; [exact S2 |]. split; [exact S3 |].
  split; [exact T1 |]. split.
  - apply map_eq. intros k. destruct (decide (k = variable)) as [-> | Hk].
    + by rewrite T2, S2.
    + by rewrite (T3 k Hk), (S3 k Hk).
  - rewrite length_drop, length_app. lia.
Qed.

End Fifo.

Lemma history_is_fifo_witness :
  values (for_each (@save_data bench 1) [1003; 1004; 1005; 1006]%Q
            (set_values {["pressure"%string := [1000; 1001; 1002]%Q]} (started 0))).2
    !! "pressure"%string
  = Some [1004; 1005; 1006]%Q.
Proof.
  destruct (@history_is_fifo bench 1 "pressure" "hPa" [1003; 1004; 1005; 1006]%Q
              (set_values {["pressure"%string := [1000; 1001; 1002]%Q]} (started 0))
              [1000; 1001; 1002]%Q) as (_ & Hbuf & _).
  - reflexivity.
  - cbn. apply lookup_singleton_eq.
  - discriminate.
  - exact Hbuf.
Defined.

(** ** HistoryBuffer scaling: the range of the scaled values *)

Lemma scale_range (vmin vmax v : Q) :
  (vmin <= v)%Q -> (v <= vmax)%Q ->
  (0 < (v - vmin + 1) / (vmax - vmin + 1)
   /\ (v - vmin + 1) / (vmax - vmin + 1) <= 1)%Q.
Proof.
  intros Hlo Hhi. split.
  - apply Qlt_shift_div_l; lra.
  - apply Qle_shift_div_r; lra.
Qed.

Section ScaledRange.
Context `{Collaborators}.

(** X7. What [display_text] draws from: with an existing buffer, the page
    is drawn from one scaled value per buffered value, each in the interval
    (0, 1], with the largest buffered value scaled to 1; so every hue
    [(1 - c) * 0.6] lies in [0, 0.6) and a constant buffer is drawn at hue
    0. *)
Theorem scaled_values_in_unit_interval (variable unit_ : string) (data : Q)
    (s : State) (old : list Q) :
  values s !! variable = Some old ->
  exists colours,
    display_text variable data unit_ s
    = display_text_draw (format_message variable data unit_) colours
        (set_values (<[variable := drop 1 old ++ [data]]> (values s)) s)
    /\ length colours = length (drop 1 old ++ [data])
    /\ Forall (fun c => 0 < c /\ c <= 1)%Q colours
    /\ Exists (fun c => c == 1) colours
    /\ Forall (fun c => 0 <= (1 - c) * 0.6 /\ (1 - c) * 0.6 < 0.6)%Q colours.
Proof.
  intros Hold. set (cur := drop 1 old ++ [data]).
  assert (Hne : cur <> []) by (unfold cur; by destruct (drop 1 old)).
  destruct (py_min_spec cur Hne) as (vmin & Emin & Hinmin & Hmin).
  destruct (py_max_spec cur Hne) as (vmax & Emax & Hinmax & Hmax).
  assert (Hle : (vmin <= vmax)%Q) by (rewrite Forall_forall in Hmin; by apply Hmin).
  exists ((fun v => (v - vmin + 1) / (vmax - vmin + 1))%Q <$> cur).
  split; [by apply display_text_run |]. split; [by rewrite length_fmap |].
  assert (Hrange : Forall (fun c => 0 < c /\ c <= 1)%Q
                     ((fun v => (v - vmin + 1) / (vmax - vmin + 1))%Q <$> cur)).
  { rewrite Forall_fmap. rewrite Forall_forall in *. intros v Hv. cbn.
    apply scale_range; [by apply Hmin | by apply Hmax]. }
  split; [exact Hrange |]. split.
  - rewrite Exists_exists. eexists. split.
    + apply list_elem_of_fmap. exists vmax. split; [reflexivity | exact Hinmax].
    + cbn. field. lra.
  - eapply Forall_impl; [exact Hrange |]. intros c [Hc0 Hc1]. cbn. split; lra.
Qed.

End ScaledRange.

Lemma scaled_values_in_unit_interval_witness :
  exists colours,
    @display_text bench "humidity" 55 "%"
      (set_values {["humidity"%string := [40; 48; 61]%Q]} (started 0))
    = @display_text_draw bench (@format_message bench "humidity" 55 "%") colours
        (set_values
           (<["humidity"%string := [48; 61; 55]%Q]>
              {["humidity"%string := [40; 48; 61]%Q]}) (started 0))
    /\ Forall (fun c => 0 < c /\ c <= 1)%Q colours.
Proof.
  destruct (@scaled_values_in_unit_interval bench "humidity" "%" 55
              (set_values {["humidity"%string := [40; 48; 61]%Q]} (started 0))
              [40; 48; 61]%Q) as (colours & Hrun & _ & Hrange & _).
  - cbn. apply lookup_singleton_eq.
  - exists colours. split; [exact Hrun | exact Hrange].
Defined.

(** ** ThresholdClassifier: any four thresholds *)

Lemma classify_4 (v t0 t1 t2 t3 : Q) :
  classify v [t0; t1; t2; t3]
  = index palette
      (if gt v t3 then 4 else if gt v t2 then 3 else if gt v t1 then 2
       else if gt v t0 then 1 else 0)%nat.
Proof.
  unfold classify, index. cbn -[gt].
  destruct (gt v t0), (gt v t1), (gt v t2), (gt v t3); reflexivity.
Qed.

(** X8. The loop does not count: for any four thresholds, in any order,
    the colour is the palette entry after the last threshold that the value
    exceeds, and the first entry when it exceeds none. With thresholds that
    are not ascending this is not the number of exceeded thresholds: 5
    against [10, 0, 0, 0] exceeds three and gets entry 4. *)
Theorem classify_last_exceeded (v : Q) (lim : list Q) :
  length lim = 4%nat ->
  exists k,
    classify v lim = index palette k
    /\ (k <= 4)%nat
    /\ (forall j t, lim !! j = Some t -> (k <= j)%nat -> (v <= t)%Q)
    /\ (k <> 0%nat -> exists t, lim !! (k - 1)%nat = Some t /\ (t < v)%Q)
    /\ classify 5 [10; 0; 0; 0]%Q = index palette 4
    /\ count_exceeded 5 [10; 0; 0; 0]%Q = 3%nat.
Proof.
  intros Hlen.
  destruct lim as [| t0 [| t1 [| t2 [| t3 [| ? ?]]]]]; try discriminate Hlen.
  rewrite classify_4.
  destruct (gt v t3) eqn:E3; [| destruct (gt v t2) eqn:E2;
    [| destruct (gt v t1) eqn:E1; [| destruct (gt v t0) eqn:E0]]];
    order_facts; eexists; (split; [reflexivity |]); (split; [lia |]);
    (split; [| split; [| by vm_compute]]).
  all: try (intros j t Hj Hk;
            destruct j as [| [| [| [| j]]]]; cbn in Hj; try lia;
            try discriminate Hj; injection Hj as <-; lra).
  all: try (intros _; eexists; split; [reflexivity | lra]).
  done.
Qed.

Lemma classify_last_exceeded_witness :
  exists k, classify 25 [30; 20; 10; 40]%Q = index palette k /\ (k <= 4)%nat.
Proof.
  destruct (classify_last_exceeded 25 [30; 20; 10; 40]%Q) as (k & Hk & Hle & _).
  - reflexivity.
  - by exists k.
Defined.

(** X9. Severity never goes down with the value: for any four thresholds,
    a larger value gets a palette entry at least as far along. *)
Theorem classify_monotone (v v' : Q) (lim : list Q) :
  length lim = 4%nat ->
  (v <= v')%Q ->
  exists k k',
    classify v lim = index palette k
    /\ classify v' lim = index palette k'
    /\ (k <= k' <= 4)%nat.
Proof.
  intros Hlen Hle.
  destruct lim as [| t0 [| t1 [| t2 [| t3 [| ? ?]]]]]; try discriminate Hlen.
  rewrite !classify_4. do 2 eexists. split; [reflexivity |]. split; [reflexivity |].
  destruct (gt v t0) eqn:A0, (gt v t1) eqn:A1, (gt v t2) eqn:A2, (gt v t3) eqn:A3,
    (gt v' t0) eqn:B0, (gt v' t1) eqn:B1, (gt v' t2) eqn:B2, (gt v' t3) eqn:B3;
    try lia; order_facts; exfalso; lra.
Qed.

Lemma classify_monotone_witness :
  exists k k',
    classify 17 [4; 18; 28; 35]%Q = index palette k
    /\ classify 29 [4; 18; 28; 35]%Q = index palette k'
    /\ (k <= k' <= 4)%nat.
Proof.
  apply (classify_monotone 17 29 [4; 18; 28; 35]%Q).
  - reflexivity.
  - by vm_compute.
Defined.

(** X10. The sentinel thresholds collapse the two low bands: for light,
    the three gases and the three particulate sizes (whose limits start
    with -1, -1) a reading above -1 is never drawn in the Dangerously Low
    or Low colour; it is green up to the third limit, yellow up to the
    fourth and red beyond. *)
Theorem classify_sentinel_bands (i : nat) (lim : list Q) (v : Q) :
  (3 <= i)%nat ->
  limits !! i = Some lim ->
  (-1 < v)%Q ->
  exists hi hi2,
    lim = [-1; -1; hi; hi2]%Q
    /\ ((v <= hi)%Q -> classify v lim = Ok (0, 255, 0))
    /\ ((hi < v)%Q -> (v <= hi2)%Q -> classify v lim = Ok (255, 255, 0))
    /\ ((hi2 < v)%Q -> classify v lim = Ok (255, 0, 0)).
Proof.
  intros Hi Hlim Hv.
  assert (Hs : gt v (-1) = true) by by apply gt_true.
  do 3 (destruct i as [| i]; [lia |]).
  do 7 (destruct i as [| i];
        [ injection Hlim as <-; do 2 eexists; split; [reflexivity |];
          rewrite classify_4, Hs;
          repeat split; intros; order_facts;
          repeat match goal with
          | |- context [gt v ?t] =>
              let E := fresh "E" in destruct (gt v t) eqn:E; order_facts
          end; try reflexivity; exfalso; lra
        | ]).
  discriminate Hlim.
Qed.

Lemma classify_sentinel_bands_witness :
  classify 120 [-1; -1; 50; 100]%Q = Ok (255, 0, 0).
Proof.
  destruct (classify_sentinel_bands 8 [-1; -1; 50; 100]%Q 120)
    as (hi & hi2 & Hlim & _ & _ & Hred).
  - lia.
  - reflexivity.
  - by vm_compute.
  - injection Hlim as <- <-. apply Hred. by vm_compute.
Defined.

(** ** Particulate pages *)

#[local] Instance buffer_kept_preorder (k : string) : PreOrder (buffer_kept k).
Proof.
  split.
  - intros s. reflexivity.
  - intros s1 s2 s3 H12 H23. unfold buffer_kept in *. congruence.
Qed.

Section Particulates.
Context `{Collaborators}.

(** X11. Only the two timeouts are caught: when the particulate read
    raises anything else, a particulate page lets the exception through; no
    warning is logged, nothing is recorded and no frame is pushed. *)
Theorem pm_page_other_exception (m : Z) (rd : Readings) (s : State) (e : exn) :
  m = 7 \/ m = 8 \/ m = 9 ->
  rd_pms rd = Raise e ->
  e <> SerialTimeoutError -> e <> ReadTimeoutError ->
  dispatch m rd s = (Raise e, set_trace (trace s ++ [Read Particulates]) s)
  /\ values (dispatch m rd s).2 = values s
  /\ events_of (dispatch m rd) s = [Read Particulates].
Proof.
  intros Hm Hpms Hs Hr.
  assert (E : dispatch m rd s
              = (Raise e, set_trace (trace s ++ [Read Particulates]) s)).
  { destruct Hm as [-> | [-> | ->]]; cbn [dispatch];
      unfold handle_pm1_mode, handle_pm25_mode, handle_pm10_mode, try_except_else,
        pms5003_read, bind, emit, lift; rewrite Hpms; cbn;
      by destruct e. }
  split; [exact E |]. split; [by rewrite E |].
  apply events_of_app. by rewrite E.
Qed.

(** X12. A particulate page that gets an answer records its own channel:
    page 7 the PM1.0 value into "pm1", page 8 the PM2.5 value into "pm25",
    page 9 the PM10 value into "pm10"; it pushes one frame and leaves every
    other buffer alone. *)
Theorem pm_page_records_channel (m : Z) (rd : Readings) (s : State)
    (d : Q * Q * Q) (variable : string) (x : Q) (old : list Q) :
  rd_pms rd = Ok d ->
  pm_channel m d = Some (variable, x) ->
  values s !! variable = Some old ->
  (dispatch m rd s).1 = Ok tt
  /\ values (dispatch m rd s).2 = <[variable := drop 1 old ++ [x]]> (values s)
  /\ length (frames (events_of (dispatch m rd) s)) = 1%nat.
Proof.
  intros Hpms Hch Hold.
  set (s0 := set_trace (trace s ++ [Read Particulates]) s).
  assert (E : dispatch m rd s = display_text variable x "ug/m3" s0).
  { unfold pm_channel in Hch.
    repeat match goal with
    | H : match ?z with _ => _ end = Some _ |- _ => destruct z; try discriminate H
    end; injection Hch as <- <-; cbn [dispatch];
      unfold handle_pm1_mode, handle_pm25_mode, handle_pm10_mode, try_except_else,
        pms5003_read, bind, emit, lift; by rewrite Hpms. }
  rewrite E.
  destruct (display_text_values variable "ug/m3" x s0 old Hold) as [Hok Hval].
  destruct (display_text_recorded variable "ug/m3" x s0 old Hold) as (f & _ & _ & Htr).
  split; [exact Hok |]. split; [exact Hval |].
  rewrite (events_of_app (dispatch m rd) s
             [Read Particulates; LogInfo (format_message variable x "ug/m3"); Frame f]).
  - reflexivity.
  - rewrite E, Htr. cbn. by rewrite <- app_assoc.
Qed.

End Particulates.

Lemma pm_page_other_exception_witness :
  (@dispatch bench 8
     (mkReadings 0 1 0 0 0 0 0 0 0 0 (0, 0, 0)%Q (Raise (OtherError "checksum")))
     (set_mode 8 (started 0))).1
  = Raise (OtherError "checksum").
Proof.
  destruct (@pm_page_other_exception bench 8
              (mkReadings 0 1 0 0 0 0 0 0 0 0 (0, 0, 0)%Q
                 (Raise (OtherError "checksum")))
              (set_mode 8 (started 0)) (OtherError "checksum")) as (Hrun & _).
  - right. by left.
  - reflexivity.
  - discriminate.
  - discriminate.
  - by rewrite Hrun.
Defined.

Lemma pm_page_records_channel_witness :
  values (@dispatch bench 8
            (mkReadings 0 1 0 0 0 0 0 0 0 0 (0, 0, 0)%Q (Ok (3, 7, 12)%Q))
            (set_values {["pm25"%string := [5; 6]%Q]} (started 0))).2
  = <["pm25"%string := [6; 7]%Q]> {["pm25"%string := [5; 6]%Q]}.
Proof.
  destruct (@pm_page_records_channel bench 8
              (mkReadings 0 1 0 0 0 0 0 0 0 0 (0, 0, 0)%Q (Ok (3, 7, 12)%Q))
              (set_values {["pm25"%string := [5; 6]%Q]} (started 0))
              (3, 7, 12)%Q "pm25" 7 [5; 6]%Q) as (_ & Hval & _).
  - reflexivity.
  - reflexivity.
  - cbn. apply lookup_singleton_eq.
  - exact Hval.
Defined.

(** ** Pages and their own buffers *)

Section OwnBuffer.
Context `{Collaborators}.
Variable k : string.

Lemma buffer_kept_values (k' : string) (v : list Q) (s : State) :
  k' <> k -> buffer_kept k s (set_values (<[k':=v]> (values s)) s).
Proof. intros Hk. by apply lookup_insert_ne. Qed.

Lemma keeps_buffer_display_text (variable unit_ : string) (data : Q) :
  variable <> k -> keeps (buffer_kept k) (display_text variable data unit_).
Proof.
  intros Hv.
  apply (keeps_display_text (buffer_kept k) (fun _ => True) (fun k' => k' <> k));
    auto using buffer_kept_values.
  - intros im s. reflexivity.
  - intros e s _. reflexivity.
Qed.

Lemma keeps_buffer_emit (e : event) : keeps (buffer_kept k) (emit e).
Proof. intros s. reflexivity. Qed.

Lemma index_variables_other (i : nat) (variable : string) :
  variables !! i <> Some k -> index variables i = Ok variable -> variable <> k.
Proof.
  intros Hne Hidx ->. unfold index in Hidx.
  destruct (variables !! i) as [v |]; [| discriminate Hidx].
  injection Hidx as ->. done.
Qed.

Ltac own_buffer_steps Hm :=
  repeat first
    [ apply keeps_buffer_emit
    | apply keeps_buffer_display_text;
      match goal with
      | Ha : index variables ?i = Ok _ |- _ =>
          apply (index_variables_other i); [by apply (Hm i) | exact Ha]
      end
    | keeps_step ].

(** X13. A page records into its own variable only: the handler of page
    [m] leaves the buffer of every variable other than [variables[m]] as it
    was, whether it returns or raises; the all-variables page (as written)
    and a page number outside 0..10 leave every buffer as it was. *)
Theorem page_touches_own_buffer (m : Z) (rd : Readings) (s : State) :
  (forall i, m = Z.of_nat i -> variables !! i <> Some k) ->
  values (dispatch m rd s).2 !! k = values s !! k.
Proof.
  intros Hm. change (buffer_kept k s (dispatch m rd s).2). revert s.
  change (keeps (buffer_kept k) (dispatch m rd)).
  unfold dispatch.
  repeat match goal with
  | |- keeps _ (match ?x with _ => _ end) => destruct x
  end;
  try (apply keeps_ret; apply _);
  try (intros s; by rewrite handle_temperature_mode_run);
  try (intros s; by rewrite handle_display_everything_mode_run);
  unfold handle_pressure_mode, handle_humidity_mode, handle_light_mode,
    handle_oxidised_mode, handle_reduced_mode, handle_nh3_mode, handle_pm1_mode,
    handle_pm25_mode, handle_pm10_mode, bme280_get_pressure, bme280_get_humidity,
    ltr559_get_lux_page, gas_read_all, pms5003_read, sensor_read, logging_warning;
  own_buffer_steps Hm.
Qed.

End OwnBuffer.

Lemma page_touches_own_buffer_witness :
  values (@dispatch bench 1 (readings_at 0 0 1)
            (set_values {["pressure"%string := [1000]%Q; "light"%string := [3]%Q]}
               (started 0))).2 !! "light"%string
  = Some [3]%Q.
Proof.
  rewrite (@page_touches_own_buffer bench "light" 1).
  - reflexivity.
  - intros i Hi. assert (i = 1%nat) as -> by lia. discriminate.
Defined.

(** ** The grid page: all or nothing *)

Section Grid.
Context `{Collaborators}.

Lemma display_everything_cell_ready (i : nat) (s : State) :
  (i < 10)%nat ->
  (display_everything_cell i s).1 = Ok tt ->
  exists variable l x,
    variables !! i = Some variable /\ values s !! variable = Some (l ++ [x]).
Proof.
  intros Hi Hok.
  destruct (variables !! i) as [variable |] eqn:Ev;
    [| apply lookup_ge_None in Ev; cbn in Ev; lia].
  exists variable.
  unfold display_everything_cell, bind, lift, index in Hok. rewrite Ev in Hok.
  destruct (values s !! variable) as [hist |] eqn:Eh.
  - rewrite (getitem_values_run _ _ _ Eh) in Hok.
    destruct hist as [| h hist _] using rev_ind.
    + discriminate Hok.
    + by exists hist, h.
  - rewrite (getitem_values_missing _ _ Eh) in Hok. discriminate Hok.
Qed.

Lemma display_everything_cells_ready (l : list nat) (s : State) :
  Forall (fun i => i < 10)%nat l ->
  (for_each display_everything_cell l s).1 = Ok tt ->
  forall i, i ∈ l ->
    exists variable b x,
      variables !! i = Some variable /\ values s !! variable = Some (b ++ [x]).
Proof.
  revert s. induction l as [| j l IH]; intros s Hl Hok i Hi.
  - by apply elem_of_nil in Hi.
  - inversion Hl as [| ? ? Hj Hl']; subst. rewrite for_each_cons in Hok.
    pose proof (display_everything_cell_twin j s s (conj eq_refl (fun _ _ _ _ => eq_refl)))
      as (_ & _ & _ & _ & Hval).
    destruct (display_everything_cell j s) as [[[] | e] s'] eqn:Ej;
      [| discriminate Hok].
    cbn in Hval. apply elem_of_cons in Hi as [-> | Hi].
    + apply display_everything_cell_ready; [done | by rewrite Ej].
    + destruct (IH s' Hl' Hok i Hi) as (variable & b & x & Hv & Hb).
      exists variable, b, x. by rewrite <- Hval.
Qed.

(** X14. The grid page is all or nothing: [display_everything] returns
    exactly when each of the ten variables has a non-empty history, and then
    pushes one frame; otherwise it raises and pushes none. Either way it
    leaves the histories and every other global but the canvas as they
    were. *)
Theorem display_everything_all_or_nothing (s : State) :
  ((display_everything s).1 = Ok tt <-> buffers_ready (values s))
  /\ (((display_everything s).1 = Ok tt
       /\ exists f, events_of display_everything s = [Frame f])
      \/ ((display_everything s).1 <> Ok tt
          /\ events_of display_everything s = []))
  /\ values (display_everything s).2 = values s
  /\ same_globals s (display_everything s).2.
Proof.
  destruct (display_everything_twin s s eq_refl) as (ev & _ & Etr & _ & Hval & Hcase).
  split; [| split; [| split; [exact Hval |]]].
  - split.
    + intros Hok v Hv. apply list_elem_of_lookup in Hv as [i Hi].
      rewrite display_everything_run in Hok.
      destruct (for_each display_everything_cell (seq 0 (length variables))
                  (set_img (paint_rectangle 0 0 WIDTH HEIGHT (0, 0, 0) (img s)) s))
        as [[[] | e] s'] eqn:Ecells; [| discriminate Hok].
      destruct (display_everything_cells_ready (seq 0 (length variables))
                  (set_img (paint_rectangle 0 0 WIDTH HEIGHT (0, 0, 0) (img s)) s))
        with (i := i) as (variable & b & x & Hvar & Hb).
      * apply Forall_forall. intros j Hj. apply elem_of_seq in Hj. cbn in Hj. lia.
      * by rewrite Ecells.
      * apply elem_of_seq. apply lookup_lt_Some in Hi. lia.
      * exists b, x. cbn in Hb. congruence.
    + intros Hready. by destruct (renders_display_everything s Hready) as ([] & Hok & _).
  - destruct Hcase as [[Hok [f ->]] | [Hbad ->]].
    + left. split; [exact Hok |]. exists f. by apply events_of_app.
    + right. split; [exact Hbad |]. apply events_of_app. exact Etr.
  - apply (keeps_display_everything same_globals (fun _ => True)); try done;
      intros; unfold same_globals; cbn; tauto.
Qed.

End Grid.

(** ** The body of the all-variables handler *)

Lemma primed_ready : buffers_ready (values primed).
Proof.
  intros v Hv.
  repeat (apply elem_of_cons in Hv as [-> | Hv]; [by exists [], 1%Q |]).
  by apply elem_of_nil in Hv.
Qed.

Section BodyRuns.
Context `{Collaborators}.

(** X15. Lines 267-298, run with any value for [cpu_temps] in a state
    where every variable has a non-empty history: when the particulate read
    answers, the body returns after pushing five frames (temperature;
    pressure; humidity and light together; the gases; the particulates);
    when it times out, the body returns after pushing four. *)
Theorem all_variables_body_renders (cpu_temps0 : list Q) (cpu_temp : Q)
    (rd : Readings) (s : State) :
  buffers_ready (values s) ->
  let body := handle_display_everything_mode_from cpu_temps0 cpu_temp rd in
  ((exists d, rd_pms rd = Ok d) ->
     (body s).1 = Ok tt
     /\ length (frames (trace (body s).2)) = (length (frames (trace s)) + 5)%nat)
  /\ (is_timeout (rd_pms rd) ->
      (body s).1 = Ok tt
      /\ length (frames (trace (body s).2)) = (length (frames (trace s)) + 4)%nat).
Proof.
  intros Hready body.
  destruct (body_renders cpu_temps0 cpu_temp rd) as [Hfive Hfour].
  split; intros Hpms.
  - by destruct (Hfive Hpms s Hready) as ([] & Hok & _ & Hlen).
  - by destruct (Hfour Hpms s Hready) as ([] & Hok & _ & Hlen).
Qed.

Lemma keeps_buffer_save_data (k : string) (idx : nat) (data : Q) :
  variables !! idx <> Some k -> keeps (buffer_kept k) (save_data idx data).
Proof.
  intros Hne.
  apply (keeps_save_data (buffer_kept k) (fun _ => True) (fun k' => k' <> k)).
  - intros k' v s Hk'. by apply lookup_insert_ne.
  - intros e s _. reflexivity.
  - done.
  - intros variable Hv ->. done.
Qed.

Lemma keeps_buffer_display_everything (k : string) :
  keeps (buffer_kept k) display_everything.
Proof.
  apply (keeps_display_everything (buffer_kept k) (fun _ => True)); try done.
Qed.

(** X16. A particulate timeout in that body leaves the three particulate
    histories exactly as they were, whatever else the body did or failed
    to do before the read. *)
Theorem all_variables_body_timeout_keeps_pm (cpu_temps0 : list Q) (cpu_temp : Q)
    (rd : Readings) (s : State) (k : string) :
  is_timeout (rd_pms rd) ->
  k = "pm1"%string \/ k = "pm25"%string \/ k = "pm10"%string ->
  values (handle_display_everything_mode_from cpu_temps0 cpu_temp rd s).2 !! k
  = values s !! k.
Proof.
  intros Hto Hk.
  change (buffer_kept k s (handle_display_everything_mode_from cpu_temps0 cpu_temp rd s).2).
  revert s.
  change (keeps (buffer_kept k)
            (handle_display_everything_mode_from cpu_temps0 cpu_temp rd)).
  assert (Htry : forall orelse : Q * Q * Q -> M NoneType,
            keeps (buffer_kept k)
              (try_except_else (pms5003_read rd) pms_timeout
                 (logging_warning "Failed to read PMS5003") orelse)).
  { intros orelse s.
    unfold try_except_else, pms5003_read, bind, emit, lift, logging_warning.
    by destruct Hto as [-> | ->]. }
  unfold handle_display_everything_mode_from, compensated, bme280_get_temperature,
    bme280_get_pressure, bme280_get_humidity, ltr559_get_lux_page, gas_read_all,
    sensor_read.
  repeat first
    [ apply Htry
    | apply keeps_buffer_display_everything
    | apply keeps_buffer_emit
    | apply keeps_buffer_save_data;
      destruct Hk as [-> | [-> | ->]]; discriminate
    | keeps_step ].
Qed.

End BodyRuns.

Lemma all_variables_body_renders_witness :
  (@handle_display_everything_mode_from bench [0; 0; 0; 0; 0]%Q 50
     (readings_at 1 0 1) primed).1
  = Ok tt.
Proof.
  destruct (@all_variables_body_renders bench [0; 0; 0; 0; 0]%Q 50
              (readings_at 1 0 1) primed primed_ready) as (_ & Hfour).
  destruct Hfour as [Hok _]; [by right | exact Hok].
Defined.

Lemma all_variables_body_timeout_keeps_pm_witness :
  values (@handle_display_everything_mode_from bench [0; 0; 0; 0; 0]%Q 50
            (readings_at 1 0 1) primed).2 !! "pm25"%string
  = Some [1%Q].
Proof.
  rewrite (@all_variables_body_timeout_keeps_pm bench [0; 0; 0; 0; 0]%Q 50
             (readings_at 1 0 1) primed "pm25").
  - reflexivity.
  - by right.
  - right. by left.
Defined.

(** ** Sensor pages *)

Section SensorPages.
Context `{Collaborators}.

(** X17. The pressure, humidity and gas pages record what they read:
    with its buffer in place, page 1 records the pressure, page 2 the
    humidity, pages 4, 5 and 6 the oxidising, reducing and NH3 resistances
    divided by 1000, each into the variable of the same number; the page
    reads its sensor once, logs the label and pushes one frame. *)
Theorem sensor_page_records_reading (m : Z) (rd : Readings) (s : State)
    (which : sensor) (variable unit_ : string) (x : Q) (old : list Q) :
  page_reading m rd = Some (which, variable, unit_, x) ->
  values s !! variable = Some old ->
  (dispatch m rd s).1 = Ok tt
  /\ variables !! Z.to_nat m = Some variable
  /\ values (dispatch m rd s).2 = <[variable := drop 1 old ++ [x]]> (values s)
  /\ exists f,
       events_of (dispatch m rd) s
       = [Read which; LogInfo (format_message variable x unit_); Frame f].
Proof.
  intros Hpage Hold.
  set (s0 := set_trace (trace s ++ [Read which]) s).
  assert (E : dispatch m rd s = display_text variable x unit_ s0
              /\ variables !! Z.to_nat m = Some variable).
  { unfold page_reading in Hpage.
    repeat match goal with
    | H : match ?z with _ => _ end = Some _ |- _ => destruct z; try discriminate H
    end; injection Hpage as <- <- <- <-; by split. }
  destruct E as [E Hvar]. rewrite E.
  destruct (display_text_values variable unit_ x s0 old Hold) as [Hok Hval].
  destruct (display_text_recorded variable unit_ x s0 old Hold) as (f & _ & _ & Htr).
  split; [exact Hok |]. split; [exact Hvar |]. split; [exact Hval |].
  exists f. apply events_of_app. rewrite E, Htr. cbn. by rewrite <- app_assoc.
Qed.

End SensorPages.

Lemma sensor_page_records_reading_witness :
  values (@dispatch bench 5
            (mkReadings 0 1 0 0 0 0 0 0 0 0 (20000, 450000, 90000)%Q
               (Raise ReadTimeoutError))
            (set_values {["reduced"%string := [400; 420]%Q]} (started 0))).2
  = <["reduced"%string := [420; 450000 / 1000]%Q]>
      {["reduced"%string := [400; 420]%Q]}.
Proof.
  destruct (@sensor_page_records_reading bench 5
              (mkReadings 0 1 0 0 0 0 0 0 0 0 (20000, 450000, 90000)%Q
                 (Raise ReadTimeoutError))
              (set_values {["reduced"%string := [400; 420]%Q]} (started 0))
              Gas "reduced" "kO" (450000 / 1000)%Q [400; 420]%Q)
    as (_ & _ & Hval & _).
  - reflexivity.
  - cbn. apply lookup_singleton_eq.
  - exact Hval.
Defined.

(** ** get_cpu_temperature *)

Lemma append_nil (s : string) : "" +:+ s = s.
Proof. reflexivity. Qed.

Lemma append_cons (a : Ascii.ascii) (s t : string) :
  String a s +:+ t = String a (s +:+ t).
Proof. reflexivity. Qed.

Lemma str_index_none_rindex (c : Ascii.ascii) (s : string) :
  str_index c s = None -> str_rindex c s = None.
Proof.
  induction s as [| a s IH]; cbn [str_index str_rindex]; [done |].
  destruct (Ascii.eqb a c); [done |].
  destruct (str_index c s); [done |]. intros _. by rewrite IH.
Qed.

Lemma str_index_app (c : Ascii.ascii) (pre rest : string) :
  str_index c pre = None ->
  str_index c (pre +:+ String c rest) = Some (String.length pre).
Proof.
  induction pre as [| a pre IH];
    rewrite ?append_nil, ?append_cons; cbn [str_index String.length].
  - by rewrite Ascii.eqb_refl.
  - destruct (Ascii.eqb a c); [done |].
    destruct (str_index c pre); [done |]. intros _. by rewrite IH.
Qed.

Lemma str_rindex_app (c : Ascii.ascii) (pre suf : string) :
  str_index c suf = None ->
  str_rindex c (pre +:+ String c suf) = Some (String.length pre).
Proof.
  intros Hsuf.
  induction pre as [| a pre IH];
    rewrite ?append_nil, ?append_cons; cbn [str_rindex String.length].
  - by rewrite (str_index_none_rindex c suf Hsuf), Ascii.eqb_refl.
  - by rewrite IH.
Qed.

Lemma substring_skip (pre rest : string) (n : nat) :
  String.substring (String.length pre) n (pre +:+ rest) = String.substring 0 n rest.
Proof.
  induction pre as [| a pre IH]; rewrite ?append_nil, ?append_cons;
    cbn [String.substring String.length]; [done | exact IH].
Qed.

Lemma substring_prefix (text rest : string) :
  String.substring 0 (String.length text) (text +:+ rest) = text.
Proof.
  induction text as [| a text IH]; rewrite ?append_nil, ?append_cons;
    cbn [String.substring String.length]; [by destruct rest | by rewrite IH].
Qed.

Lemma length_append (a b : string) :
  String.length (a +:+ b) = (String.length a + String.length b)%nat.
Proof.
  induction a as [| x a IH]; rewrite ?append_nil, ?append_cons;
    cbn [String.length]; [done | by rewrite IH].
Qed.

Lemma append_assoc (a b c : string) : (a +:+ b) +:+ c = a +:+ (b +:+ c).
Proof.
  induction a as [| x a IH]; rewrite ?append_nil, ?append_cons;
    [done | by rewrite IH].
Qed.

(** X18. Reading the CPU temperature out of the command's output: for an
    output [pre = text ' suf] with no "=" in [pre] and no "'" in [suf] the
    text handed to [float] is exactly [text], whatever it contains; an
    output with no "=" or with no "'" raises ValueError. For
    [temp=47.2'C] the text is [47.2]. *)
Theorem cpu_temperature_text_between (pre text suf : string) :
  str_index "="%char pre = None ->
  str_index "'"%char suf = None ->
  cpu_temperature_text (pre +:+ "=" +:+ text +:+ "'" +:+ suf) = Ok text
  /\ (forall to_float,
        get_cpu_temperature_of to_float (pre +:+ "=" +:+ text +:+ "'" +:+ suf)
        = to_float text)
  /\ (forall output, str_index "="%char output = None ->
        cpu_temperature_text output = Raise ValueError)
  /\ (forall output, str_index "'"%char output = None ->
        cpu_temperature_text output = Raise ValueError)
  /\ cpu_temperature_text "temp=47.2'C" = Ok "47.2"%string.
Proof.
  intros Hpre Hsuf.
  assert (E : cpu_temperature_text (pre +:+ "=" +:+ text +:+ "'" +:+ suf) = Ok text).
  { unfold cpu_temperature_text.
    change (pre +:+ "=" +:+ text +:+ "'" +:+ suf)
      with (pre +:+ String "="%char (text +:+ String "'"%char suf)).
    rewrite (str_index_app _ pre _ Hpre).
    replace (pre +:+ String "="%char (text +:+ String "'"%char suf))
      with ((pre +:+ String "="%char text) +:+ String "'"%char suf)
      by (by rewrite append_assoc).
    rewrite (str_rindex_app _ _ suf Hsuf).
    unfold py_slice. rewrite length_append. cbn [String.length].
    replace (String.length pre + S (String.length text)
             - (String.length pre + 1))%nat with (String.length text) by lia.
    replace ((pre +:+ String "="%char text) +:+ String "'"%char suf)
      with ((pre +:+ "=") +:+ (text +:+ String "'"%char suf))
      by (by rewrite !append_assoc).
    replace (String.length pre + 1)%nat with (String.length (pre +:+ "="))
      by (rewrite length_append; reflexivity).
    by rewrite substring_skip, substring_prefix. }
  split; [exact E |]. split.
  { intros to_float. unfold get_cpu_temperature_of. by rewrite E. }
  split.
  { intros output Hnone. unfold cpu_temperature_text. by rewrite Hnone. }
  split; [| reflexivity].
  intros output Hnone. unfold cpu_temperature_text.
  apply str_index_none_rindex in Hnone. rewrite Hnone.
  by destruct (str_index "="%char output).
Qed.

Lemma cpu_temperature_text_between_witness :
  cpu_temperature_text "temp=51.5'C" = Ok "51.5"%string.
Proof.
  destruct (cpu_temperature_text_between "temp" "51.5" "C") as (Htext & _).
  - reflexivity.
  - reflexivity.
  - exact Htext.
Defined.

(** ** The grid page: where the labels go *)

Lemma floordiv_row (i : nat) :
  (i < 10)%nat ->
  py_floordiv (inject_Z (Z.of_nat i)) row_count = inject_Z (Z.of_nat i `div` 5).
Proof.
  intros Hi. do 10 (destruct i as [| i]; [by vm_compute |]). lia.
Qed.

Lemma mod_row (i : nat) :
  (i < 10)%nat ->
  py_mod (inject_Z (Z.of_nat i)) row_count == inject_Z (Z.of_nat i `mod` 5).
Proof.
  intros Hi. do 10 (destruct i as [| i]; [by vm_compute |]). lia.
Qed.

Lemma row_count_five : row_count == 5.
Proof. by vm_compute. Qed.

Section Layout.
Context `{Collaborators}.

Lemma cell_origin_x (i : nat) :
  (i < 10)%nat ->
  (cell_origin i).1 == inject_Z (2 + (WIDTH `div` 2) * (Z.of_nat i `div` 5)).
Proof.
  intros Hi. unfold cell_origin. cbn [fst]. rewrite (floordiv_row i Hi).
  rewrite inject_Z_plus, inject_Z_mult. reflexivity.
Qed.

Lemma cell_origin_y (i : nat) :
  (i < 10)%nat ->
  (cell_origin i).2 == 2 + inject_Z HEIGHT / 5 * inject_Z (Z.of_nat i `mod` 5).
Proof.
  intros Hi. unfold cell_origin. cbn [snd].
  rewrite (mod_row i Hi), row_count_five. reflexivity.
Qed.

(** X19. The grid has two columns of five rows: the label of variable
    [i] is written by [draw.text] at x = 2 + (WIDTH // 2) * (i // 5) and
    y = 2 + (HEIGHT / 5) * (i mod 5), in the small font; on a display at
    least two pixels wide no two variables share an origin. *)
Theorem grid_layout (i : nat) (s : State) :
  (i < 10)%nat ->
  buffers_ready (values s) ->
  (exists message colour,
     display_everything_cell i s
     = (Ok tt, set_img (paint_text (cell_origin i) message smallfont colour (img s)) s))
  /\ (cell_origin i).1 == inject_Z (2 + (WIDTH `div` 2) * (Z.of_nat i `div` 5))
  /\ (cell_origin i).2 == 2 + inject_Z HEIGHT / 5 * inject_Z (Z.of_nat i `mod` 5)
  /\ (forall j, (j < 10)%nat -> 2 <= WIDTH -> 0 < HEIGHT ->
        (cell_origin j).1 == (cell_origin i).1 ->
        (cell_origin j).2 == (cell_origin i).2 -> j = i).
Proof.
  intros Hi Hs. split; [| split; [by apply cell_origin_x |
                                 split; [by apply cell_origin_y |]]].
  - destruct (variables !! i) as [variable |] eqn:Ev;
      [| apply lookup_ge_None in Ev; cbn in Ev; lia].
    destruct (units !! i) as [unit_ |] eqn:Eu;
      [| apply lookup_ge_None in Eu; cbn in Eu; lia].
    destruct (limits !! i) as [lim |] eqn:El;
      [| apply lookup_ge_None in El; cbn in El; lia].
    assert (Hlen : length lim = 4%nat).
    { clear -El Hi.
      do 10 (destruct i as [| i]; [by injection El as <- |]). cbn in Hi. lia. }
    destruct (Hs variable) as (l & x & Hold); [by eapply list_elem_of_lookup_2 |].
    destruct (classify_total x lim Hlen) as (c & Hc).
    exists (format_message variable x unit_), c.
    unfold display_everything_cell, bind, lift, index. rewrite Ev.
    rewrite (getitem_values_run _ _ _ Hold).
    unfold index_last. rewrite last_snoc. rewrite Eu, El, Hc.
    reflexivity.
  - intros j Hj Hw Hh Hx Hy.
    rewrite (cell_origin_x i Hi), (cell_origin_x j Hj) in Hx.
    rewrite (cell_origin_y i Hi), (cell_origin_y j Hj) in Hy.
    apply (proj1 (inject_Z_injective _ _)) in Hx.
    assert (Hcol : Z.of_nat j `div` 5 = Z.of_nat i `div` 5).
    { assert (1 <= WIDTH `div` 2) by (apply Z.div_le_lower_bound; lia).
      apply (Z.mul_cancel_l _ _ (WIDTH `div` 2)); [lia |].
      by apply (Z.add_reg_l 2). }
    assert (Hrow : inject_Z (Z.of_nat j `mod` 5) == inject_Z (Z.of_nat i `mod` 5)).
    { assert (Hpos : (0 < inject_Z HEIGHT / 5)%Q).
      { apply Qlt_shift_div_l; [lra |]. rewrite Qmult_0_l.
        change 0%Q with (inject_Z 0). by rewrite <- Zlt_Qlt. }
      apply (Qmult_inj_l _ _ (inject_Z HEIGHT / 5)); [lra |].
      apply (Qplus_inj_l _ _ 2). exact Hy. }
    apply (proj1 (inject_Z_injective _ _)) in Hrow.
    pose proof (Z.div_mod (Z.of_nat i) 5 ltac:(lia)).
    pose proof (Z.div_mod (Z.of_nat j) 5 ltac:(lia)).
    lia.
Qed.

End Layout.

Lemma grid_layout_witness :
  (@cell_origin bench 7).1 == 82.
Proof.
  destruct (@grid_layout bench 7 primed) as (_ & Hx & _).
  - lia.
  - exact primed_ready.
  - rewrite Hx. reflexivity.
Defined.

(** ** Who changes what *)

#[local] Instance display_kept_preorder : PreOrder display_kept.
Proof.
  split.
  - intros s. by repeat split.
  - intros s1 s2 s3 (?&?&?) (?&?&?). repeat split; congruence.
Qed.

(** X20. The controllers never touch what the pages own: an iteration's
    controller part leaves the histories, the smoothing window and the
    canvas as they were, and the only events it adds are the proximity
    read, the lux read and backlight commands; it pushes no frame and logs
    nothing. *)
Theorem controllers_leave_pages_alone (rd : Readings) (s : State) :
  values (control rd s).2 = values s
  /\ cpu_temps (control rd s).2 = cpu_temps s
  /\ img (control rd s).2 = img s
  /\ Forall controller_event (events_of (control rd) s)
  /\ frames (events_of (control rd) s) = [].
Proof.
  assert (Hkept : display_kept s (control rd s).2).
  { unfold control, backlight_step, backlight_dark, backlight_light, page_step,
      sensor_read, st7735_set_backlight.
    revert s.
    match goal with |- forall s, display_kept s (?m s).2 =>
      change (keeps display_kept m) end.
    repeat first [ keeps_step | by repeat split ]. }
  destruct Hkept as (Hv & Hc & Hi).
  assert (Hev : emits controller_event s (control rd s).2).
  { apply (keeps_control (emits controller_event) controller_event).
    - intros s0 s' _ Ht. by apply emits_quiet.
    - intros e s0 He. exists [e]. split; [done |]. by constructor.
    - by left.
    - right. by left.
    - intros level. right. right. by eexists. }
  apply emits_events_of in Hev.
  split; [exact Hv |]. split; [exact Hc |]. split; [exact Hi |].
  split; [exact Hev |].
  induction Hev as [| e l He _ IH]; [done |].
  unfold frames in *. cbn. rewrite IH.
  by destruct He as [-> | [-> | [level ->]]].
Qed.

Section Owners.
Context `{Collaborators}.


(** X22. Recording without a buffer: when the variable has no entry in
    [values], [display_text] and [save_data] raise KeyError before they log
    or draw anything and leave the state exactly as it was; an index past
    the ten variables makes [save_data] raise IndexError in the same way. *)
Theorem record_without_buffer (variable unit_ : string) (data : Q) (idx : nat)
    (s : State) :
  values s !! variable = None ->
  display_text variable data unit_ s = (Raise (KeyError variable), s)
  /\ (variables !! idx = Some variable ->
      save_data idx data s = (Raise (KeyError variable), s))
  /\ (variables !! idx = None -> save_data idx data s = (Raise IndexError, s)).
Proof.
  intros Hnone. split; [| split].
  - unfold display_text, bind. by rewrite (getitem_values_missing _ _ Hnone).
  - intros Hv. unfold save_data, bind, lift, index. rewrite Hv.
    by rewrite (getitem_values_missing _ _ Hnone).
  - intros Hv. unfold save_data, bind, lift, index. by rewrite Hv.
Qed.

End Owners.

Lemma record_without_buffer_witness :
  @display_text bench "nh3" 12 "kO" (started 0)
  = (Raise (KeyError "nh3"), started 0).
Proof.
  destruct (@record_without_buffer bench "nh3" "kO" 12 6 (started 0)) as (Hrun & _).
  - reflexivity.
  - exact Hrun.
Defined.

(** ** Smoother *)

(** X23. The smoothing of lines 192-195, for the window the name
    [cpu_temps] would hold: it never divides by zero, even for an empty
    window; with a five-slot window the oldest sample is dropped, the
    average is that of the four remaining samples and the new one, and the
    compensated temperature is the raw one minus a 2.25th of the CPU's
    excess over it, so it is below the raw reading exactly when the average
    CPU temperature is above. *)
Theorem smoothing_drops_oldest (w0 w1 w2 w3 w4 cpu_temp : Q) (rd : Readings)
    (s : State) :
  exists data,
    compensated [w0; w1; w2; w3; w4] cpu_temp rd s
    = (Ok data, set_trace (trace s ++ [Read Temperature]) s)
    /\ (data == rd_raw_temp rd
                - ((w1 + w2 + w3 + w4 + cpu_temp) / 5 - rd_raw_temp rd) / 2.25)%Q
    /\ ((data < rd_raw_temp rd)%Q
        <-> (rd_raw_temp rd < (w1 + w2 + w3 + w4 + cpu_temp) / 5)%Q)
    /\ forall window, exists data',
         compensated window cpu_temp rd s
         = (Ok data', set_trace (trace s ++ [Read Temperature]) s).
Proof.
  eexists. split; [reflexivity |].
  assert (E : (rd_raw_temp rd
               - (py_sum (drop 1 [w0; w1; w2; w3; w4] ++ [cpu_temp])
                  / inject_Z (Z.of_nat (length (drop 1 [w0; w1; w2; w3; w4]
                                                ++ [cpu_temp])))
                  - rd_raw_temp rd) / factor
               == rd_raw_temp rd
                  - ((w1 + w2 + w3 + w4 + cpu_temp) / 5 - rd_raw_temp rd) / 2.25)%Q).
  { unfold py_sum, factor. cbn. field. }
  split; [exact E |]. split.
  - rewrite E.
    set (avg := ((w1 + w2 + w3 + w4 + cpu_temp) / 5)%Q).
    set (d := ((avg - rd_raw_temp rd) / 2.25)%Q).
    assert (Hd : (0 < d)%Q <-> (rd_raw_temp rd < avg)%Q).
    { split; intros Hlt.
      - apply Qnot_le_lt. intros Hle.
        assert (d <= 0)%Q by (apply Qle_shift_div_r; lra). lra.
      - apply Qlt_shift_div_l; lra. }
    rewrite <- Hd. split; intros Hlt; lra.
  - intros window. unfold compensated, bind, lift, py_div, bme280_get_temperature.
    destruct (Qeq_bool _ 0) eqn:Elen.
    { exfalso. apply Qeq_bool_eq in Elen. unfold Qeq in Elen. cbn in Elen.
      rewrite length_app in Elen. cbn in Elen. lia. }
    change (Qeq_bool factor 0) with false. by eexists.
Qed.

(** ** The program from start to stop *)

Section Program_run.
Context `{Collaborators}.


End Program_run.
